(* ===== verification/_CoqProject ===== *)
-Q . S2P
Prelude.v
Like.v
Models.v
Schemas.v
ItemsCrud.v
StatusCrud.v
Tables.v
Routes.v
Scenarios.v
Concurrency.v
Backup.v
Desktop.v
Router.v
Imports.v
