(* ===== verification/Prelude.v ===== *)
(** * A verification development of the FastAPI inventory service

    The program (src/app, with the older single-file variants
    src/backups/main.py and src/Desktop/.../main.py) is a CRUD web
    service over two PostgreSQL tables, [items] and [item_status],
    related one-to-one by a shared primary key.  Requests go

      route (src/app/routes/*.py)
        -> CRUD function (src/app/crud/*.py)
        -> SQLAlchemy session and PostgreSQL (external)
        -> response model validation (src/app/schemas/*.py, pydantic).

    No state lives in the process: every handler reads the database,
    computes, and commits.  The development therefore models the whole
    program as functions from a database state [Db] to a result and a
    new [Db]; a request sequence is a step relation on [Db].

    ** Files, in dependency order

    - [Prelude] (this file): the notation scope [inv_scope], the 32-bit
      bounds of PostgreSQL's [Integer] column, keyed tables as lists
      ([lookup_by], [update_by], [delete_by]) with their lemmas, the
      hint database [inv] and the tactics shared by every file.
    - [Like]: PostgreSQL's [ILIKE] as used by [search_items]
      ([ItemModel.name.ilike(f"%{name}%")]): pattern tokenisation with
      the backslash escape, a structural matcher [glob_match], its
      equivalence with an inductive specification, and the fact that
      user input is not escaped ([%], [_] and [\] act as wildcards).
    - [Models]: the rows [ItemModel.t] and [ItemStatus.t]
      (src/app/models/*.py), the database [Db], the constraints the
      PostgreSQL schema enforces (primary keys, the foreign key,
      [String(255)]/[String(100)] lengths, [Integer] range) and
      [commit], which accepts a new state only when they hold.
    - [Schemas]: the pydantic payloads (src/app/schemas/*.py); the
      "exclude_unset" partial updates as three-state fields
      ([Unset], [SetTo None], [SetTo (Some v)]); response validation,
      which fails on NULL in a non-optional field.
    - [ItemsCrud], [StatusCrud]: one definition per function of
      src/app/crud/items_crud.py and status_crud.py, including the SQL
      each query issues (join, filter, ORDER BY ... DESC with PostgreSQL's
      NULLS FIRST, OFFSET/LIMIT with their negative-argument errors).
    - [Tables]: the abstract specification of the store: each table
      seen as a finite map (stdpp's [gmap]) from primary key to row,
      and every write of the CRUD functions as a put or a delete of a
      key; the CRUD functions refine these map operations.
    - [Routes]: the handlers of src/app/routes/*.py with their HTTP
      outcomes, a [Request] type for the whole API, the one-request step
      relation and the invariants of reachable states.
    - [Scenarios]: the worked examples of spec.md 8 replayed through
      [Routes.serve] from the empty database and evaluated by
      computation; where the code and the spec disagree the statement
      is what the code does.
    - [Concurrency]: [sell_item] split into its two database steps
      (the SELECT with the stock check, then the UPDATE writing back
      values computed in Python) as a step relation [cstep] over any
      number of requests, interleaved arbitrarily.
    - [Backup]: the single-file version src/backups/main.py, one
      definition per route handler over the same tables and requests
      ([Backup.serve]); its rows and queries reuse [ItemsCrud] and
      [StatusCrud], its checks and answers are its own.
    - [Desktop]: the items-only single-file version
      src/Desktop/projects/fastapi/fastapi-sample-project/main.py, one
      definition per route handler over the items table, and its
      refinement of src/app: a relation [simulates] between the two
      monadic computations, carried through [ret], [bind], [query] and
      [commit] by lemmas and rewriting modulo [meq] (setoid rewriting
      with the monad laws of [Models]).
    - [Router]: the route table of src/app/main.py (FastAPI's
      documentation routes, the three routers under [/api/v1] in the
      order of their decorators, the health routes) and Starlette's
      routing of a method and a path: split into segments, first route
      whose template and method match, 405, the trailing-slash
      redirect, 404.  It also holds the route tables of the two
      single-file versions (backup, with no prefix, and Desktop), whose
      item URLs reach the same handlers.
    - [Imports]: start-up.  Every module of src/app and the two
      single-file programs as the list of its top-level statements
      ([from ... import], [class], [def] with its decorators and
      defaults, [os.getenv], [create_engine], [declarative_base],
      [create_all]), and CPython's import system over them
      ([find_and_load], [gcd_import_from], [handle_fromlist],
      [import_from]: [sys.modules] in insertion order, parents first,
      a module registered before its body runs, relative imports
      resolved against the package), bounded by fuel with an
      [OutOfFuel] outcome of its own.  Installed packages are opaque
      modules (their own imports are not modelled), so the theorems
      speak of the order of the project's modules.  SQLAlchemy is a
      record [dbapi] of two operations, [create_engine]'s check of a
      URL and the driver's [connect], quantified in the generic
      theorems; its instance [sqlalchemy] parses the URL with the
      pattern of [sqlalchemy.engine.url] and [int()] on the port,
      loads the psycopg2 or pysqlite dialect, refuses a SQLite URL
      with a host, and connects with libpq's or [sqlite3.connect]'s
      keyword checks.  Since every string the modules bind is
      DATABASE_URL, an import asks SQLAlchemy about that URL only
      ([Imports.import_module_fixed]).

    ** What the theorems show

    - refinement of the map specification: every CRUD function reads
      by map lookup and commits a put or a delete of its key, a
      creation on a key absent from both maps;
    - functional behaviour of every CRUD function on each branch,
      errors included (not found, insufficient stock, NULL columns,
      integer overflow at commit);
    - atomicity of failure: a rejected sell or restock leaves the
      database unchanged;
    - invariants of reachable states by rule induction on the step
      relation: the key and foreign-key constraints always hold, and
      stock and sales stay non-negative when clients send non-negative
      quantities;
    - search: [search_items] never fails, returns rows of the table,
      and its filters mean what spec.md 4.1 says for plain search
      terms (inclusive price bounds, case-insensitive substring), but
      not for terms containing [%] or [_];
    - pagination: page lengths and the tiling of consecutive pages;
      negative arguments are errors of the database;
    - the inventory summary: its totals on the spec's example, and a
      sell preserves [total_stock + total_sales];
    - concurrency: the interleaved model refines the sequential
      [sell_item] (every sequential run is a one-request execution),
      no interleaving makes a stock negative, and one interleaving of
      two sells of the whole stock lets both succeed (a lost update),
      while executions in which the sells of an item do not overlap
      (what a row lock would allow) record every sale and never sell
      more than the stock (lemmas also show that every interleaving
      terminates, [sn cstep] by a measure, and stops only when every
      request is answered);
    - routing: the URL of every call, with any id that is a valid
      path segment, reaches the handler of that call (a round trip
      through [join_path]/[split_path] and the route table; an id
      that is not a literal of the table is renamed to a fixed one,
      [first_full_rename], the finitely many others are evaluated);
      the URL with its trailing slash toggled redirects to it, except
      [/api/v1/items/search] without its slash, an item lookup;
    - the items-only version refines src/app: on any sequence of
      calls it answers what src/app answers and keeps src/app's items;
    - the two versions: any request sequence without a non-positive
      restock leaves the same database in src/backups/main.py as in
      src/app; the backup's restock guard keeps every counter
      non-negative for any restock quantity; it answers 404 where the
      spec and src/app answer 400 for a sell without status;
    - start-up: the repository cannot start src/app, because importing
      [app.main] fails on [app.models.database], which it does not
      contain; with that module and [app.utils.helpers] supplied as
      the single-file versions write them, every import of src/app
      resolves, the 18 modules of the project load in the order the
      [from] lines dictate, and [create_all] creates both tables unless
      [create_engine] refuses the URL or the driver the connection,
      for every environment and every SQLAlchemy; both single-file
      versions fail at [create_engine] on a URL SQLAlchemy refuses,
      fail at [create_all] on every PostgreSQL URL it accepts (libpq
      rejects [check_same_thread]), and start on every SQLite URL it
      accepts;
    - divergences of the code from spec.md (restock accepts
      non-positive quantities, sell accepts a negative quantity, which
      decreases total_sell, the full view fails when
      the status is absent, a name set to null makes the item
      unreadable, NULL sales rank first among top sellers).

    ** Modelling choices

    - Floats ([price]) are rationals [Q]: the code only compares them;
      NaN and infinities are not modelled.
    - Timestamps are the integer [now] passed to each handler
      ([datetime.now()]); one request reads the clock once.
    - [generate_id] (uuid4, src/app/utils/helpers.py, not in the
      sources) is the [fresh] argument of the create handlers.
    - The order of rows without ORDER BY is the table's insertion order.
    - Strings are ASCII; ILIKE lower-cases ASCII letters only.
    - No fuel is needed outside [Imports]: every function is
      structurally recursive (the matcher recurses on the pattern and
      the text).  [Imports.find_and_load] takes fuel because a module's
      body imports other modules; [Imports.import_module_total] shows
      that fuel above the number of findable modules not yet loaded
      never runs out, and the start-up theorems hold for every fuel
      from the small bound they state on (2 or 5: the depth of nested
      imports; fuel monotonicity, [Imports.import_module_le]).

    - A request is one transaction: an exception is an HTTP 500 and
      nothing it wrote is kept (the session is never committed).

    - The interleavings of [Concurrency] need no bound either: their
      termination is a lemma ([Concurrency.cstep_terminates]).

    Not modelled: FastAPI's parsing of query strings and bodies (the
    payloads are taken as already validated), HEAD requests and hosts
    in routing; src/app/models/database.py and src/app/utils/helpers.py,
    which are not in the repository (src/app's start-up is shown with
    them supplied as the single-file versions write them, and the
    request model takes one transaction per request for [get_db] and a
    [fresh] argument for [generate_id]); the tables a database already
    has at start-up (start-up is shown on an empty database, and the
    request model starts from the empty database [create_all] leaves);
    the reachability of the PostgreSQL server and the import of the
    DBAPI module by [create_engine] (taken to succeed); SQLAlchemy's
    other dialects and drivers and URL query strings (answered
    [Unmodelled]); the imports inside installed packages; and the bodies
    of the health endpoints, which return constants
    ([Router.root_message], [Router.health_body]) and read no state. *)

From Stdlib Require Export ZArith QArith.
From stdpp Require Export base list strings decidable sets.

Declare Scope inv_scope.
Delimit Scope inv_scope with inv.
Open Scope inv_scope.

(** ** PostgreSQL [Integer] columns are 32-bit *)

Definition INT4_MIN : Z := (- 2 ^ 31)%Z.
Definition INT4_MAX : Z := (2 ^ 31 - 1)%Z.

(** [in_int4 z] holds when PostgreSQL accepts [z] in an [Integer] column;
    otherwise the statement fails with "integer out of range". *)
Definition in_int4 (z : Z) : bool := (INT4_MIN <=? z)%Z && (z <=? INT4_MAX)%Z.

(** A nullable integer column: NULL always fits. *)
Definition opt_in_int4 (o : option Z) : bool :=
  match o with None => true | Some z => in_int4 z end.

(** ** Keyed tables as lists

    A table is the list of its rows in insertion order.  [lookup_by]
    is [query(M).filter(M.id == k).first()], [update_by] is a change to
    the row with that key, [delete_by] is [db.delete] of it. *)

Section Keyed.
Context {R : Type} (key : R -> string).

Definition lookup_by (k : string) (l : list R) : option R :=
  List.find (fun r => bool_decide (key r = k)) l.

Definition update_by (k : string) (f : R -> R) (l : list R) : list R :=
  List.map (fun r => if bool_decide (key r = k) then f r else r) l.

Definition delete_by (k : string) (l : list R) : list R :=
  List.filter (fun r => negb (bool_decide (key r = k))) l.

Definition keys (l : list R) : list string := List.map key l.

Lemma lookup_by_Some k l r : lookup_by k l = Some r -> key r = k /\ r ∈ l.
Proof.
  unfold lookup_by. intros H. apply find_some in H as [Hin Hk].
  apply bool_decide_eq_true in Hk. split; [done|]. by apply list_elem_of_In.
Qed.

Lemma lookup_by_None k l : lookup_by k l = None <-> k ∉ keys l.
Proof.
  unfold lookup_by, keys. induction l as [|r l IH]; simpl.
  - split; [intros _; apply not_elem_of_nil | done].
  - rewrite elem_of_cons. case_bool_decide; naive_solver.
Qed.

Lemma lookup_by_elem k l : is_Some (lookup_by k l) <-> k ∈ keys l.
Proof.
  rewrite <- not_eq_None_Some, lookup_by_None.
  destruct (decide (k ∈ keys l)); tauto.
Qed.

Lemma lookup_by_in_NoDup k l r :
  NoDup (keys l) -> r ∈ l -> key r = k -> lookup_by k l = Some r.
Proof.
  unfold lookup_by, keys. induction l as [|r' l IH]; simpl; intros Hnd Hin Hk.
  - by apply not_elem_of_nil in Hin.
  - apply list.NoDup_cons in Hnd as [Hn Hnd]. apply elem_of_cons in Hin.
    case_bool_decide as E.
    + destruct Hin as [->|Hin]; [done|].
      exfalso. apply Hn. subst. rewrite E. apply list_elem_of_fmap_2. eauto.
    + destruct Hin as [->|Hin]; [congruence|]. by apply IH.
Qed.

Lemma keys_update_by k f l :
  (forall r, key (f r) = key r) -> keys (update_by k f l) = keys l.
Proof.
  intros Hf. unfold keys, update_by. rewrite map_map.
  apply map_ext. intros r. by case_bool_decide.
Qed.

Lemma lookup_by_update_by_eq k f l :
  (forall r, key (f r) = key r) ->
  lookup_by k (update_by k f l) = f <$> lookup_by k l.
Proof.
  intros Hf. unfold lookup_by, update_by. induction l as [|r l IH]; simpl; [done|].
  destruct (decide (key r = k)) as [E|E].
  - rewrite !(bool_decide_true (key r = k)) by done. simpl.
    by rewrite Hf, bool_decide_true.
  - rewrite !(bool_decide_false (key r = k)) by done. exact IH.
Qed.

Lemma lookup_by_update_by_ne k k' f l :
  (forall r, key (f r) = key r) -> k <> k' ->
  lookup_by k' (update_by k f l) = lookup_by k' l.
Proof.
  intros Hf Hne. unfold lookup_by, update_by. induction l as [|r l IH]; simpl; [done|].
  destruct (decide (key r = k)) as [E|E].
  - rewrite (bool_decide_true (key r = k)) by done. simpl.
    rewrite Hf, !(bool_decide_false (key r = k')) by congruence. exact IH.
  - rewrite (bool_decide_false (key r = k)) by done. simpl. by rewrite IH.
Qed.

Lemma update_by_not_in k f l : k ∉ keys l -> update_by k f l = l.
Proof.
  unfold update_by, keys. induction l as [|r l IH]; simpl; [done|].
  rewrite elem_of_cons. intros Hn. rewrite bool_decide_false by naive_solver.
  f_equal. naive_solver.
Qed.

Lemma keys_delete_by k l : keys (delete_by k l) = List.filter (fun x => negb (bool_decide (x = k))) (keys l).
Proof.
  unfold keys, delete_by. induction l as [|r l IH]; simpl; [done|].
  case_bool_decide; simpl; by rewrite IH.
Qed.

Lemma elem_of_keys_delete_by k k' l : k' ∈ keys (delete_by k l) <-> k' ∈ keys l /\ k' <> k.
Proof.
  rewrite keys_delete_by, list_elem_of_In, filter_In, <- list_elem_of_In.
  rewrite negb_true_iff, bool_decide_eq_false. tauto.
Qed.

Lemma lookup_by_delete_by_eq k l : lookup_by k (delete_by k l) = None.
Proof. apply lookup_by_None. rewrite elem_of_keys_delete_by. tauto. Qed.

Lemma NoDup_keys_delete_by k l : NoDup (keys l) -> NoDup (keys (delete_by k l)).
Proof.
  rewrite keys_delete_by. intros Hnd. apply NoDup_ListNoDup.
  apply Stdlib.Lists.List.NoDup_filter. by apply NoDup_ListNoDup.
Qed.

Lemma NoDup_keys_snoc l r : NoDup (keys l) -> key r ∉ keys l -> NoDup (keys (l ++ [r])).
Proof.
  unfold keys. rewrite map_app. simpl. intros Hnd Hn.
  apply list.NoDup_app. split; [done|]. split; [|apply NoDup_singleton].
  intros x Hx Hx'. apply list_elem_of_singleton in Hx'. subst. contradiction.
Qed.
Lemma Forall_update_by (P : R -> Prop) k f l :
  Forall P l -> (forall r, r ∈ l -> key r = k -> P (f r)) -> Forall P (update_by k f l).
Proof.
  intros Hl Hf. unfold update_by. rewrite List.Forall_forall in Hl |- *. intros x Hx.
  apply in_map_iff in Hx as (r & <- & Hr).
  case_bool_decide; [apply Hf; [by apply list_elem_of_In | done] | by apply Hl].
Qed.

Lemma Forall_delete_by (P : R -> Prop) k l : Forall P l -> Forall P (delete_by k l).
Proof.
  intros Hl. unfold delete_by. rewrite List.Forall_forall in Hl |- *. intros r Hr.
  apply filter_In in Hr as [Hr _]. by apply Hl.
Qed.

Lemma lookup_by_snoc k l r : k ∉ keys l -> key r = k -> lookup_by k (l ++ [r]) = Some r.
Proof.
  unfold lookup_by, keys. induction l as [|r' l IH]; simpl; intros Hn Hk.
  - by rewrite bool_decide_true.
  - rewrite elem_of_cons in Hn. rewrite bool_decide_false by naive_solver. naive_solver.
Qed.

Lemma lookup_by_filter k (P : R -> bool) l :
  NoDup (keys l) -> lookup_by k (List.filter P l) = (r ← lookup_by k l; if P r then Some r else None).
Proof.
  unfold lookup_by, keys. induction l as [|r l IH]; simpl; [done|]. intros Hnd.
  apply list.NoDup_cons in Hnd as [Hn Hnd].
  destruct (P r) eqn:HP; simpl; case_bool_decide as E; simpl; try rewrite HP; auto.
  subst k. rewrite IH by done. destruct (find _ l) eqn:Hf; [|done].
  apply find_some in Hf as [Hin Hk]. apply bool_decide_eq_true in Hk.
  exfalso. apply Hn. rewrite <- Hk. apply list_elem_of_In, in_map_iff. eauto.
Qed.

Lemma keys_snoc l r : keys (l ++ [r]) = keys l ++ [key r].
Proof. unfold keys. by rewrite map_app. Qed.
End Keyed.

Lemma in_int4_spec z : in_int4 z = true <-> (INT4_MIN <= z <= INT4_MAX)%Z.
Proof. unfold in_int4. rewrite andb_true_iff, !Z.leb_le. tauto. Qed.

(** ** Measures on lists *)

(** The integer sum of [f] over a list. *)
Definition sum_with {A} (f : A -> Z) (l : list A) : Z :=
  foldr (fun x acc => (f x + acc)%Z) 0%Z l.

Lemma sum_with_insert {A} (f : A -> Z) (l : list A) i x y :
  l !! i = Some x -> sum_with f (<[i:=y]> l) = (sum_with f l - f x + f y)%Z.
Proof.
  revert i. induction l as [|a l IH]; intros [|i] Hi; simplify_eq/=; [lia|].
  rewrite (IH i Hi). lia.
Qed.

(** A measure summed over a list drops when one element is replaced by
    one of smaller measure: the measure of the concurrency model. *)
Lemma sum_list_fmap_insert_lt {A} (f : A -> nat) (l : list A) i x y :
  l !! i = Some x -> f y < f x -> sum_list (f <$> <[i:=y]> l) < sum_list (f <$> l).
Proof.
  revert i. induction l as [|a l IH]; intros [|i] Hi Hlt; simplify_eq/=; [lia|].
  specialize (IH i Hi Hlt). lia.
Qed.

(** ** Automation shared by the component files *)

Create HintDb inv discriminated.

#[export] Hint Resolve lookup_by_delete_by_eq NoDup_keys_delete_by : inv.

(** [destruct_lookups] splits every [lookup_by] (and option match) the goal
    branches on, remembering the equation. *)
Ltac destruct_lookups :=
  repeat match goal with
    | |- context [match lookup_by ?key ?k ?l with _ => _ end] =>
        let E := fresh "Hlk" in destruct (lookup_by key k l) eqn:E
    | |- context [if ?b then _ else _] =>
        let E := fresh "Hb" in destruct b eqn:E
    end.
