(* ===== verification/Like.v ===== *)
(** * PostgreSQL [ILIKE], as [search_items] uses it

    [search_items] (src/app/crud/items_crud.py, lines 63-76) filters with
    [ItemModel.name.ilike(f"%{name}%")] and the same on [category].
    PostgreSQL lower-cases pattern and text, reads the pattern with
    backslash as escape character ([%] any sequence, [_] any one
    character, [\c] the character [c]) and matches.  The user's [name]
    is put into the pattern unescaped.

    This file holds the tokeniser [tokenize], the matcher [glob_match]
    (structural on the pattern, with an inner recursion on the text for
    [%]), its inductive specification [matches], and [ilike]. *)

From Stdlib Require Import Ascii String.
From S2P Require Import Prelude.

Module Like.

Inductive tok := AnySeq | AnyChar | Lit (c : ascii).

#[export] Instance tok_eq_dec : EqDecision tok.
Proof. solve_decision. Defined.

(** ASCII [tolower], as PostgreSQL applies it to single-byte text. *)
Definition lower (c : ascii) : ascii :=
  let n := nat_of_ascii c in
  if (65 <=? n)%nat && (n <=? 90)%nat then ascii_of_nat (n + 32) else c.

(** The pattern syntax of [LIKE] with the default escape [\]; a pattern
    that ends with the escape character is an error. *)
Fixpoint tokenize (p : list ascii) : option (list tok) :=
  match p with
  | [] => Some []
  | c :: p' =>
      if bool_decide (c = "%"%char) then cons AnySeq <$> tokenize p'
      else if bool_decide (c = "_"%char) then cons AnyChar <$> tokenize p'
      else if bool_decide (c = "\"%char) then
        match p' with
        | [] => None
        | c' :: p'' => cons (Lit c') <$> tokenize p''
        end
      else cons (Lit c) <$> tokenize p'
  end.

Fixpoint glob_match (p : list tok) (t : list ascii) : bool :=
  match p with
  | [] => match t with [] => true | _ :: _ => false end
  | AnySeq :: p' =>
      (fix skip (t : list ascii) : bool :=
         glob_match p' t || match t with [] => false | _ :: t' => skip t' end) t
  | AnyChar :: p' => match t with [] => false | _ :: t' => glob_match p' t' end
  | Lit c :: p' =>
      match t with
      | [] => false
      | c' :: t' => bool_decide (c = c') && glob_match p' t'
      end
  end.

(** [text ILIKE pattern]: [None] is the error PostgreSQL raises. *)
Definition ilike (text pattern : string) : option bool :=
  toks ← tokenize (map lower (list_ascii_of_string pattern));
  Some (glob_match toks (map lower (list_ascii_of_string text))).

(** The pattern [f"%{s}%"] of [search_items]. *)
Definition contains_pattern (s : string) : string := ("%" ++ s ++ "%")%string.

(** Characters that [LIKE] interprets. *)
Definition special (c : ascii) : bool :=
  bool_decide (c = "%"%char) || bool_decide (c = "_"%char) || bool_decide (c = "\"%char).

(** [s] occurs in [t] as a contiguous block. *)
Definition is_infix (s t : list ascii) : Prop := exists t1 t2, t = t1 ++ s ++ t2.

(** ** Specification of matching *)

Inductive matches : list tok -> list ascii -> Prop :=
| matches_nil : matches [] []
| matches_any p t1 t2 : matches p t2 -> matches (AnySeq :: p) (t1 ++ t2)
| matches_char p c t : matches p t -> matches (AnyChar :: p) (c :: t)
| matches_lit p c t : matches p t -> matches (Lit c :: p) (c :: t).

#[local] Hint Constructors matches : inv.

(** ** Lemmas *)

Lemma matches_any_inv p t : matches (AnySeq :: p) t <-> exists t1 t2, t = t1 ++ t2 /\ matches p t2.
Proof.
  split.
  - inversion 1; subst. eauto.
  - intros (t1 & t2 & -> & H). by constructor.
Qed.

(** The inner loop of the [%] case tries every suffix. *)
Lemma skip_spec p' t :
  (fix skip (t : list ascii) : bool :=
     glob_match p' t || match t with [] => false | _ :: t' => skip t' end) t = true <->
  exists t1 t2, t = t1 ++ t2 /\ glob_match p' t2 = true.
Proof.
  induction t as [|c t IH]; simpl.
  - rewrite orb_false_r. split.
    + intros H. by exists [], [].
    + intros (t1 & t2 & Ht & H). apply eq_sym, app_nil in Ht as [-> ->]. done.
  - rewrite orb_true_iff, IH. split.
    + intros [H | (t1 & t2 & -> & H)].
      * by exists [], (c :: t).
      * by exists (c :: t1), t2.
    + intros ([|c' t1] & t2 & Ht & H); simpl in Ht.
      * left. by subst.
      * right. injection Ht as -> ->. eauto.
Qed.

(** The structural matcher decides the inductive specification of
    [LIKE] patterns: [%] matches any split, [_] one character, a literal
    itself. *)
Theorem glob_match_spec p t : glob_match p t = true <-> matches p t.
Proof.
  revert t. induction p as [|[| |c] p IH]; intros t; simpl.
  - destruct t; split; try done; [constructor | inversion 1].
  - rewrite skip_spec, matches_any_inv. setoid_rewrite IH. done.
  - destruct t as [|c t]; [split; [done | inversion 1]|].
    rewrite IH. split; [auto with inv | inversion 1; auto].
  - destruct t as [|c' t]; [split; [done | inversion 1]|].
    rewrite andb_true_iff, bool_decide_eq_true, IH. split.
    + intros [-> H]. auto with inv.
    + inversion 1; subst. auto.
Qed.

Lemma matches_lits s p t :
  matches (map Lit s ++ p) t <-> exists t', t = s ++ t' /\ matches p t'.
Proof.
  revert t. induction s as [|c s IH]; intros t; simpl.
  - split; [eauto | by intros (t' & -> & H)].
  - split.
    + inversion 1; subst. apply IH in H3 as (t' & -> & Hm). eauto.
    + intros (t' & -> & H). constructor. apply IH. eauto.
Qed.

Lemma matches_any_end t : matches [AnySeq] t.
Proof. rewrite <- (app_nil_r t). constructor. constructor. Qed.

(** A run of ordinary characters is read as literals. *)
Lemma tokenize_plain_app s r :
  forallb (fun c => negb (special c)) s = true ->
  tokenize (s ++ r) = app (map Lit s) <$> tokenize r.
Proof.
  induction s as [|c s IH]; simpl.
  - intros _. by destruct (tokenize r).
  - rewrite andb_true_iff, negb_true_iff. intros [Hc Hs]. unfold special in Hc.
    rewrite !orb_false_iff in Hc. destruct Hc as [[H1 H2] H3].
    rewrite H1, H2, H3, IH by done. by destruct (tokenize r).
Qed.

(** A pattern ending with a character other than the escape is always
    well formed: the backslash before it, if any, escapes it. *)
Lemma tokenize_snoc_is_Some s c : c <> "\"%char -> is_Some (tokenize (s ++ [c])).
Proof.
  intros Hc. remember (length s) as n eqn:Hn.
  revert s Hn. induction n as [n IH] using lt_wf_ind. intros s Hn.
  destruct s as [|c1 s]; simpl.
  - repeat case_bool_decide; subst; try done; eauto.
  - repeat case_bool_decide; simpl in Hn.
    1, 2: destruct (IH (length s) ltac:(lia) s eq_refl) as [x Hx]; rewrite Hx; eauto.
    + destruct s as [|c2 s]; simpl; [eauto|].
      destruct (IH (length s) ltac:(simpl in *; lia) s eq_refl) as [x Hx]; rewrite Hx; eauto.
    + destruct (IH (length s) ltac:(lia) s eq_refl) as [x Hx]; rewrite Hx; eauto.
Qed.

Lemma lower_special c : special (lower c) = special c.
Proof.
  unfold lower. destruct ((65 <=? nat_of_ascii c)%nat && (nat_of_ascii c <=? 90)%nat) eqn:E; [|done].
  revert E. destruct c as [[] [] [] [] [] [] [] []]; vm_compute; congruence.
Qed.

Lemma list_ascii_of_string_append a b :
  list_ascii_of_string (a ++ b)%string = list_ascii_of_string a ++ list_ascii_of_string b.
Proof.
  induction a as [|c a IH]; [reflexivity|].
  change (c :: list_ascii_of_string (a ++ b)%string
          = c :: (list_ascii_of_string a ++ list_ascii_of_string b)).
  by rewrite IH.
Qed.

(** ** What [search_items] computes *)

(** The filter [ilike(f"%{s}%")] never raises: whatever the user sends,
    the closing [%] makes the pattern well formed. *)
Theorem ilike_contains_total t s : is_Some (ilike t (contains_pattern s)).
Proof.
  unfold ilike, contains_pattern. rewrite !list_ascii_of_string_append. simpl.
  rewrite map_app. simpl.
  assert (Hp : lower "%"%char <> "\"%char) by (intros E; vm_compute in E; discriminate E).
  destruct (tokenize_snoc_is_Some (map lower (list_ascii_of_string s)) _ Hp) as [x Hx].
  rewrite Hx. simpl. eauto.
Qed.

(** Without metacharacters the pattern [%s%] tokenizes to its literals
    between two [AnySeq]. *)
Lemma contains_tokens s :
  forallb (fun c => negb (special c)) (map lower (list_ascii_of_string s)) = true ->
  tokenize (map lower (list_ascii_of_string (contains_pattern s))) =
  Some (AnySeq :: map Lit (map lower (list_ascii_of_string s)) ++ [AnySeq]).
Proof.
  intros Hl.
  replace (list_ascii_of_string (contains_pattern s))
    with ("%"%char :: list_ascii_of_string s ++ ["%"%char]).
  2: { unfold contains_pattern. by rewrite !list_ascii_of_string_append. }
  rewrite map_cons, map_app. change (lower "%"%char) with "%"%char.
  transitivity (cons AnySeq <$> tokenize (map lower (list_ascii_of_string s) ++ ["%"%char]));
    [reflexivity|].
  rewrite (tokenize_plain_app _ ["%"%char] Hl). reflexivity.
Qed.

(** Without metacharacters, [ILIKE '%s%'] answers whether the lowered
    term occurs in the lowered text. *)
Lemma ilike_plain_spec t s :
  forallb (fun c => negb (special c)) (list_ascii_of_string s) = true ->
  exists b, ilike t (contains_pattern s) = Some b /\
    (b = true <-> is_infix (map lower (list_ascii_of_string s)) (map lower (list_ascii_of_string t))).
Proof.
  intros Hs. unfold ilike. rewrite contains_tokens.
  2: { rewrite forallb_forall in Hs |- *. intros c Hc.
       apply in_map_iff in Hc as (c' & <- & Hc'). rewrite lower_special. by apply Hs. }
  eexists. split; [reflexivity|]. rewrite glob_match_spec, matches_any_inv. split.
  - intros (t1 & t2 & -> & Ht2). apply matches_lits in Ht2 as (t' & -> & _). by exists t1, t'.
  - intros (t1 & t2 & ->). eexists t1, (_ ++ t2). split; [done|].
    apply matches_lits. exists t2. split; [done|]. apply matches_any_end.
Qed.


(** C29: the search term is not escaped: [_] matches any character, so
    searching "a_c" finds "ABC", which does not contain "a_c". *)
Example ilike_underscore_wildcard :
  ilike "ABC"%string (contains_pattern "a_c"%string) = Some true /\
  ~ is_infix (map lower (list_ascii_of_string "a_c"%string))
             (map lower (list_ascii_of_string "ABC"%string)).
Proof.
  split; [vm_compute; reflexivity|].
  intros (t1 & t2 & H). pose proof (f_equal length H) as Hlen.
  rewrite !length_app in Hlen. simpl in Hlen.
  destruct t1, t2; simpl in Hlen; try lia. vm_compute in H. discriminate H.
Qed.

(** ** Witnesses *)


End Like.
