(* ===== verification/Models.v ===== *)
(** * Rows, database, and the session monad

    [ItemModel.t] and [ItemStatus.t] are the SQLAlchemy models of
    src/app/models/items_models.py and status_models.py, one field per
    [Column].  Every column but the primary key is nullable (none is
    declared [nullable=False]), so those fields are [option]s.
    [Db] holds the two tables as lists of rows in insertion order.

    The schema's constraints are enforced by PostgreSQL at [commit]:
    the primary keys, the foreign key [item_status.id -> items.id],
    [String(255)] and [String(100)] lengths and the 32-bit [Integer]
    range.  A violation raises, the session rolls back and the handler
    fails with a server error.

    [M] is the state-and-error monad every CRUD function runs in: a
    fault discards the state (the session is rolled back when [get_db]
    closes it). *)

From Stdlib Require Import String.
From S2P Require Import Prelude.

Module ItemModel.
Record t := mk {
  id : string;
  name : option string;
  description : option string;
  price : option Q;
  category : option string;
  created_at : Z;
  updated_at : Z
}.
End ItemModel.

Module ItemStatus.
Record t := mk {
  id : string;
  total_sell : option Z;
  stock : option Z;
  created_at : Z;
  updated_at : Z
}.
End ItemStatus.

Record Db := mkDb {
  items : list ItemModel.t;
  item_status : list ItemStatus.t
}.

(** What makes a request end in HTTP 500. *)
Inductive Fault :=
  | IntegrityError          (** duplicate primary key or foreign key violation *)
  | DataError               (** value too long or out of range for its column *)
  | NegativeOffsetLimit     (** OFFSET or LIMIT must not be negative *)
  | TypeError               (** Python arithmetic or comparison on [None] *)
  | ResponseValidationError (** the response model rejected the value *)
  | AttributeError.         (** an attribute the Python object does not have *)

(** ** Constraints of the schema *)

Definition fits_varchar (n : nat) (o : option string) : bool :=
  match o with None => true | Some s => (String.length s <=? n)%nat end.

Definition item_row_ok (r : ItemModel.t) : bool :=
  fits_varchar 255 (ItemModel.name r) && fits_varchar 100 (ItemModel.category r).

Definition status_row_ok (r : ItemStatus.t) : bool :=
  opt_in_int4 (ItemStatus.total_sell r) && opt_in_int4 (ItemStatus.stock r).

Definition item_ids (db : Db) : list string := keys ItemModel.id (items db).
Definition status_ids (db : Db) : list string := keys ItemStatus.id (item_status db).

(** The key constraints: both primary keys and the foreign key. *)
Definition keys_ok (db : Db) : Prop :=
  NoDup (item_ids db) /\ NoDup (status_ids db) /\
  Forall (fun k => k ∈ item_ids db) (status_ids db).

#[export] Instance keys_ok_dec db : Decision (keys_ok db).
Proof. unfold keys_ok. apply _. Defined.

(** The value constraints of every row. *)
Definition values_ok (db : Db) : bool :=
  forallb item_row_ok (items db) && forallb status_row_ok (item_status db).

(** The state PostgreSQL accepts. *)
Definition db_wf (db : Db) : Prop := keys_ok db /\ values_ok db = true.

#[export] Instance db_wf_dec db : Decision (db_wf db).
Proof. unfold db_wf. apply _. Defined.

(** ** The session monad *)

Definition M (A : Type) : Type := Db -> Fault + (A * Db).

Definition ret {A} (a : A) : M A := fun db => inr (a, db).

Definition bind {A B} (m : M A) (k : A -> M B) : M B :=
  fun db => match m db with inl e => inl e | inr (a, db') => k a db' end.

Notation "x <- m ;; k" := (bind m (fun x => k))
  (at level 100, m at next level, right associativity) : inv_scope.
Notation "m ;;; k" := (bind m (fun _ => k))
  (at level 100, right associativity) : inv_scope.

Definition throw {A} (e : Fault) : M A := fun _ => inl e.

(** A query: read the current state. *)
Definition query {A} (f : Db -> A) : M A := fun db => inr (f db, db).

(** [db.commit()] of the changes [f] makes: PostgreSQL checks the
    constraints on the new state; on a violation nothing is written. *)
Definition commit (f : Db -> Db) : M unit :=
  fun db =>
    let db' := f db in
    if decide (keys_ok db') then
      if values_ok db' then inr (tt, db') else inl DataError
    else inl IntegrityError.

(** Table updates used by [commit]. *)
Definition set_items (f : list ItemModel.t -> list ItemModel.t) (db : Db) : Db :=
  mkDb (f (items db)) (item_status db).
Definition set_status (f : list ItemStatus.t -> list ItemStatus.t) (db : Db) : Db :=
  mkDb (items db) (f (item_status db)).

(** Two computations are equal when they agree on every state: the
    equality the monad laws hold for. *)
Definition meq {A} (m1 m2 : M A) : Prop := forall db, m1 db = m2 db.

(** A small state for the witnesses: items "a" and "b", a status row
    for "a" with 3 sold and 5 in stock. *)
Definition sample_item (k : string) : ItemModel.t :=
  ItemModel.mk k (Some "widget"%string) None (Some 2%Q) (Some "tools"%string) 0 0.
Definition sample_status : ItemStatus.t := ItemStatus.mk "a" (Some 3%Z) (Some 5%Z) 0 0.
Definition sample_db : Db := mkDb [sample_item "a"; sample_item "b"] [sample_status].

(** ** Lemmas on the monad and the constraints *)

#[export] Instance meq_equiv {A} : Equivalence (@meq A).
Proof.
  split; [by intros m db|by intros m1 m2 H db|by intros m1 m2 m3 H1 H2 db; rewrite H1].
Qed.

#[export] Instance bind_proper {A B} :
  Proper (meq ==> pointwise_relation A meq ==> meq) (@bind A B).
Proof.
  intros m1 m2 Hm k1 k2 Hk db. unfold bind. rewrite Hm.
  destruct (m2 db) as [|[a db']]; [done|apply Hk].
Qed.

Lemma M_bind_assoc {A B C} (m : M A) (k : A -> M B) (h : B -> M C) :
  meq (bind (bind m k) h) (bind m (fun x => bind (k x) h)).
Proof. intros db. unfold bind. by destruct (m db) as [|[]]. Qed.

Lemma M_bind_ret_l {A B} (x : A) (k : A -> M B) : meq (bind (ret x) k) (k x).
Proof. intros db. reflexivity. Qed.

Lemma bind_inr {A B} (m : M A) (k : A -> M B) db a db' :
  m db = inr (a, db') -> bind m k db = k a db'.
Proof. unfold bind. by intros ->. Qed.

Lemma bind_inl {A B} (m : M A) (k : A -> M B) db e :
  m db = inl e -> bind m k db = inl e.
Proof. unfold bind. by intros ->. Qed.

Lemma commit_ok f db : db_wf (f db) -> commit f db = inr (tt, f db).
Proof.
  intros [Hk Hv]. unfold commit. simpl. rewrite decide_True by done. by rewrite Hv.
Qed.

Lemma commit_wf f db a db' : commit f db = inr (a, db') -> db' = f db /\ db_wf db'.
Proof.
  unfold commit. simpl. case_decide; [|done].
  destruct (values_ok (f db)) eqn:Hv; [|done]. intros [= <- <-]. split; [done|]. by split.
Qed.

Lemma commit_fail f db : ~ db_wf (f db) -> exists e, commit f db = inl e.
Proof.
  unfold commit, db_wf. intros Hn. simpl. case_decide; [|eauto].
  destruct (values_ok (f db)); [tauto|eauto].
Qed.

Lemma values_ok_iff db :
  values_ok db = true <->
  Forall (fun r => item_row_ok r = true) (items db) /\
  Forall (fun r => status_row_ok r = true) (item_status db).
Proof.
  unfold values_ok. rewrite andb_true_iff, !forallb_forall, !List.Forall_forall.
  tauto.
Qed.

(** ** The changes the handlers commit keep the state well formed

    These lemmas state, for each kind of change, which checks of the
    new row are left for the caller: what PostgreSQL would still reject. *)

Section WfChanges.
Context (db : Db) (Hwf : db_wf db).

Lemma status_id_is_item_id k : k ∈ status_ids db -> k ∈ item_ids db.
Proof. destruct Hwf as [(_ & _ & Hfk) _]. rewrite list.Forall_forall in Hfk. auto. Qed.

(** Insert an item and its status row ([create_item]). *)
Lemma wf_insert_item_and_status i s :
  ItemModel.id i ∉ item_ids db -> ItemStatus.id s = ItemModel.id i ->
  item_row_ok i = true -> status_row_ok s = true ->
  db_wf (mkDb (items db ++ [i]) (item_status db ++ [s])).
Proof.
  intros Hfresh Hs Hi Hsr. destruct Hwf as [(Hni & Hns & Hfk) Hv].
  apply values_ok_iff in Hv as [Hvi Hvs].
  unfold db_wf, keys_ok, item_ids, status_ids in *; simpl.
  rewrite !keys_snoc. split; [split; [|split]|].
  - rewrite <- keys_snoc. by apply NoDup_keys_snoc.
  - rewrite <- keys_snoc. apply NoDup_keys_snoc; [done|]. rewrite Hs.
    intros Hin. apply Hfresh. rewrite list.Forall_forall in Hfk. by apply Hfk.
  - apply Forall_app. split.
    + eapply list.Forall_impl; [exact Hfk|]. simpl. intros k Hk. set_solver.
    + apply Forall_singleton. rewrite Hs. set_solver.
  - apply values_ok_iff. simpl. split; apply Forall_app; split; auto.
Qed.

(** Insert a status row for an existing item ([create_status]). *)
Lemma wf_insert_status s :
  ItemStatus.id s ∈ item_ids db -> ItemStatus.id s ∉ status_ids db -> status_row_ok s = true ->
  db_wf (set_status (fun l => l ++ [s]) db).
Proof.
  intros Hin Hfresh Hsr. destruct Hwf as [(Hni & Hns & Hfk) Hv].
  apply values_ok_iff in Hv as [Hvi Hvs].
  unfold db_wf, keys_ok, item_ids, status_ids, set_status in *; simpl.
  split; [split; [done|split]|].
  - by apply NoDup_keys_snoc.
  - rewrite keys_snoc. apply Forall_app. split; [done|]. by apply Forall_singleton.
  - apply values_ok_iff. simpl. split; [done|]. apply Forall_app. split; auto.
Qed.

(** Change the item with key [k] without changing its key. *)
Lemma wf_update_item k f :
  (forall r, ItemModel.id (f r) = ItemModel.id r) ->
  (forall r, r ∈ items db -> ItemModel.id r = k -> item_row_ok (f r) = true) ->
  db_wf (set_items (update_by ItemModel.id k f) db).
Proof.
  intros Hf Hok. destruct Hwf as [(Hni & Hns & Hfk) Hv].
  apply values_ok_iff in Hv as [Hvi Hvs].
  unfold db_wf, keys_ok, item_ids, status_ids, set_items in *; simpl.
  rewrite keys_update_by by done. split; [done|].
  apply values_ok_iff. simpl. split; [|done]. by apply Forall_update_by.
Qed.

(** Change the status with key [k] without changing its key. *)
Lemma wf_update_status k f :
  (forall r, ItemStatus.id (f r) = ItemStatus.id r) ->
  (forall r, r ∈ item_status db -> ItemStatus.id r = k -> status_row_ok (f r) = true) ->
  db_wf (set_status (update_by ItemStatus.id k f) db).
Proof.
  intros Hf Hok. destruct Hwf as [(Hni & Hns & Hfk) Hv].
  apply values_ok_iff in Hv as [Hvi Hvs].
  unfold db_wf, keys_ok, item_ids, status_ids, set_status in *; simpl.
  rewrite keys_update_by by done. split; [done|].
  apply values_ok_iff. simpl. split; [done|]. by apply Forall_update_by.
Qed.

(** Delete the status row [k] ([delete_status]). *)
Lemma wf_delete_status k : db_wf (set_status (delete_by ItemStatus.id k) db).
Proof.
  destruct Hwf as [(Hni & Hns & Hfk) Hv]. apply values_ok_iff in Hv as [Hvi Hvs].
  unfold db_wf, keys_ok, item_ids, status_ids, set_status in *; simpl.
  split; [split; [done|split]|].
  - by apply NoDup_keys_delete_by.
  - rewrite list.Forall_forall in Hfk |- *. intros x Hx.
    apply elem_of_keys_delete_by in Hx as [Hx _]. auto.
  - apply values_ok_iff. simpl. split; [done|]. by apply Forall_delete_by.
Qed.

(** Delete item [k] together with its status row ([delete_item]). *)
Lemma wf_delete_item_cascade k :
  db_wf (mkDb (delete_by ItemModel.id k (items db)) (delete_by ItemStatus.id k (item_status db))).
Proof.
  destruct Hwf as [(Hni & Hns & Hfk) Hv]. apply values_ok_iff in Hv as [Hvi Hvs].
  unfold db_wf, keys_ok, item_ids, status_ids in *; simpl.
  split; [split; [|split]|].
  - by apply NoDup_keys_delete_by.
  - by apply NoDup_keys_delete_by.
  - rewrite list.Forall_forall in Hfk |- *. intros x Hx.
    apply elem_of_keys_delete_by in Hx as [Hx Hne].
    apply elem_of_keys_delete_by. auto.
  - apply values_ok_iff. simpl. split; by apply Forall_delete_by.
Qed.
End WfChanges.

Lemma sample_db_wf : db_wf sample_db.
Proof. apply (bool_decide_unpack _). vm_compute. reflexivity. Qed.

#[export] Hint Resolve commit_ok wf_delete_status wf_delete_item_cascade : inv.
