(* ===== verification/Schemas.v ===== *)
(** * Request and response shapes (src/app/schemas/*.py)

    The request payloads are taken as pydantic has validated them.
    [ItemUpdate] and [StatusUpdate] are applied with
    [update.dict(exclude_unset=True)]: a field the client did not send
    is left alone, a field sent as [null] is set to NULL, a field sent
    with a value is set to it.  [field A] has the three cases.

    The response models are validated on the way out
    ([response_model=...] with [from_attributes]): a NULL in a field
    that is not [Optional] fails validation, which FastAPI reports as a
    server error.  [validate] returns [None] then. *)

From Stdlib Require Import String.
From S2P Require Import Prelude Models.

(** A field of a partial update. *)
Inductive field (A : Type) := Unset | SetTo (v : option A).
Arguments Unset {A}.
Arguments SetTo {A} v.

(** [setattr(obj, field, value)] for the fields present in the payload. *)
Definition apply_field {A} (f : field A) (old : option A) : option A :=
  match f with Unset => old | SetTo v => v end.

Module ItemCreate.
Record t := mk {
  name : string;
  description : option string;
  price : Q;
  category : string;
  stock : option Z   (** [Optional[int] = 0] *)
}.
End ItemCreate.

Module ItemUpdate.
Record t := mk {
  name : field string;
  description : field string;
  price : field Q;
  category : field string
}.
(** The empty payload [{}]. *)
Definition empty : t := mk Unset Unset Unset Unset.
End ItemUpdate.

Module StatusCreate.
Record t := mk { total_sell : Z; stock : Z }.
(** [{}]: both fields default to 0. *)
Definition default : t := mk 0 0.
End StatusCreate.

Module StatusUpdate.
Record t := mk { total_sell : field Z; stock : field Z }.
End StatusUpdate.

Module ItemResponse.
Record t := mk {
  id : string;
  name : string;
  description : option string;
  price : Q;
  category : string;
  created_at : Z;
  updated_at : Z
}.

Definition validate (r : ItemModel.t) : option t :=
  match ItemModel.name r, ItemModel.price r, ItemModel.category r with
  | Some n, Some p, Some c =>
      Some (mk (ItemModel.id r) n (ItemModel.description r) p c
               (ItemModel.created_at r) (ItemModel.updated_at r))
  | _, _, _ => None
  end.

(** [List[ItemResponse]]: one invalid row fails the whole list. *)
Definition validate_list (l : list ItemModel.t) : option (list t) :=
  mapM validate l.
End ItemResponse.

Module StatusResponse.
Record t := mk {
  id : string;
  total_sell : Z;
  stock : Z;
  created_at : Z;
  updated_at : Z
}.

Definition validate (r : ItemStatus.t) : option t :=
  match ItemStatus.total_sell r, ItemStatus.stock r with
  | Some ts, Some st =>
      Some (mk (ItemStatus.id r) ts st (ItemStatus.created_at r) (ItemStatus.updated_at r))
  | _, _ => None
  end.
End StatusResponse.

Module ItemWithStatusResponse.
Record t := mk { item : ItemResponse.t; status : StatusResponse.t }.

(** [{"item": db_item, "status": db_status}]: [status] is not
    [Optional], so a missing status fails validation. *)
Definition validate (i : ItemModel.t) (s : option ItemStatus.t) : option t :=
  iv ← ItemResponse.validate i;
  sr ← s;
  sv ← StatusResponse.validate sr;
  Some (mk iv sv).
End ItemWithStatusResponse.

(** A payload for the witnesses. *)
Definition sample_create : ItemCreate.t := ItemCreate.mk "gadget" None 3 "tools" (Some 4%Z).

(** ** Lemmas *)

Lemma item_validate_Some r v :
  ItemResponse.validate r = Some v ->
  ItemResponse.id v = ItemModel.id r /\ ItemModel.name r = Some (ItemResponse.name v) /\
  ItemModel.price r = Some (ItemResponse.price v) /\
  ItemModel.category r = Some (ItemResponse.category v).
Proof.
  unfold ItemResponse.validate.
  destruct (ItemModel.name r), (ItemModel.price r), (ItemModel.category r); try done.
  intros [= <-]. done.
Qed.

Lemma item_validate_None r :
  ItemResponse.validate r = None <->
  ItemModel.name r = None \/ ItemModel.price r = None \/ ItemModel.category r = None.
Proof.
  unfold ItemResponse.validate.
  destruct (ItemModel.name r), (ItemModel.price r), (ItemModel.category r); naive_solver.
Qed.

Lemma status_validate_None r :
  StatusResponse.validate r = None <->
  ItemStatus.total_sell r = None \/ ItemStatus.stock r = None.
Proof.
  unfold StatusResponse.validate.
  destruct (ItemStatus.total_sell r), (ItemStatus.stock r); naive_solver.
Qed.
