(* ===== verification/ItemsCrud.v ===== *)
(** * Item operations (src/app/crud/items_crud.py)

    One definition per function of items_crud.py, in the session monad
    [M] of [Models].  [create_item] inserts the item and its status row
    in one commit; [update_item] applies the fields present in the
    payload and stamps [updated_at]; [delete_item] deletes the item and,
    through the relationship's [cascade="all, delete-orphan"], its
    status; [search_items] composes its optional filters with AND. *)

From Stdlib Require Import String.
From S2P Require Import Prelude Like Models Schemas.

Module ItemsCrud.

(** The two rows [create_item] builds (lines 14-27).  [total_sell] is
    not given, so the column default 0 applies.  [stock=item.stock] with
    [item.stock] None is left out of the INSERT by SQLAlchemy's ORM, as
    for every None on a column with a default, so the default 0 applies
    there too (status_models.py line 13).  [created_at] of the status
    row is the column default [datetime.now], read in the same
    request. *)
Definition new_item (item_id : string) (now : Z) (item : ItemCreate.t) : ItemModel.t :=
  ItemModel.mk item_id (Some (ItemCreate.name item)) (ItemCreate.description item)
    (Some (ItemCreate.price item)) (Some (ItemCreate.category item)) now now.

Definition new_status (item_id : string) (now : Z) (item : ItemCreate.t) : ItemStatus.t :=
  ItemStatus.mk item_id (Some 0%Z) (Some (default 0%Z (ItemCreate.stock item))) now now.

Definition create_item (item_id : string) (now : Z) (item : ItemCreate.t) : M ItemModel.t :=
  commit (fun db => mkDb (items db ++ [new_item item_id now item])
                         (item_status db ++ [new_status item_id now item])) ;;;
  ret (new_item item_id now item).

(** [query(ItemModel).offset(skip).limit(limit)]. *)
Definition get_items (skip limit : Z) : M (list ItemModel.t) :=
  if ((skip <? 0) || (limit <? 0))%Z then throw NegativeOffsetLimit
  else query (fun db => take (Z.to_nat limit) (drop (Z.to_nat skip) (items db))).

Definition get_item (item_id : string) : M (option ItemModel.t) :=
  query (fun db => lookup_by ItemModel.id item_id (items db)).

(** The loop over [update_data] and the timestamp (lines 46-50). *)
Definition apply_item_update (upd : ItemUpdate.t) (now : Z) (r : ItemModel.t) : ItemModel.t :=
  ItemModel.mk (ItemModel.id r)
    (apply_field (ItemUpdate.name upd) (ItemModel.name r))
    (apply_field (ItemUpdate.description upd) (ItemModel.description r))
    (apply_field (ItemUpdate.price upd) (ItemModel.price r))
    (apply_field (ItemUpdate.category upd) (ItemModel.category r))
    (ItemModel.created_at r) now.

Definition update_item (item_id : string) (item : ItemUpdate.t) (now : Z)
    : M (option ItemModel.t) :=
  db_item <- get_item item_id ;;
  match db_item with
  | None => ret None
  | Some r =>
      commit (set_items (update_by ItemModel.id item_id (apply_item_update item now))) ;;;
      ret (Some (apply_item_update item now r))
  end.

Definition delete_item (item_id : string) : M bool :=
  db_item <- get_item item_id ;;
  match db_item with
  | Some _ =>
      commit (fun db => mkDb (delete_by ItemModel.id item_id (items db))
                             (delete_by ItemStatus.id item_id (item_status db))) ;;;
      ret true
  | None => ret false
  end.

(** Python's [if name:]: [None] and [""] add no filter. *)
Definition truthy (o : option string) : option string :=
  match o with
  | Some s => if bool_decide (s = ""%string) then None else Some s
  | None => None
  end.

(** [col.ilike(f"%{s}%")]; a NULL column never matches. *)
Definition col_ilike (col : option string) (s : string) : option bool :=
  match col with None => Some false | Some v => Like.ilike v (Like.contains_pattern s) end.

(** [price >= b] and [price <= b]; NULL compares to nothing. *)
Definition col_ge (col : option Q) (b : Q) : bool :=
  match col with Some p => Qle_bool b p | None => false end.
Definition col_le (col : option Q) (b : Q) : bool :=
  match col with Some p => Qle_bool p b | None => false end.

Definition search_filter (name category : option string) (min_price max_price : option Q)
    (r : ItemModel.t) : option bool :=
  n ← match truthy name with Some s => col_ilike (ItemModel.name r) s | None => Some true end;
  c ← match truthy category with Some s => col_ilike (ItemModel.category r) s | None => Some true end;
  Some (n && c
        && match min_price with Some m => col_ge (ItemModel.price r) m | None => true end
        && match max_price with Some m => col_le (ItemModel.price r) m | None => true end).

(** A WHERE clause whose evaluation may raise. *)
Fixpoint filter_sql {A} (p : A -> option bool) (l : list A) : option (list A) :=
  match l with
  | [] => Some []
  | x :: l' =>
      match p x, filter_sql p l' with
      | Some b, Some rest => Some (if b then x :: rest else rest)
      | _, _ => None
      end
  end.

Definition search_items (name category : option string) (min_price max_price : option Q)
    : M (list ItemModel.t) :=
  res <- query (fun db => filter_sql (search_filter name category min_price max_price) (items db)) ;;
  match res with Some l => ret l | None => throw DataError end.

(** ** Lemmas *)

Lemma filter_sql_total {A} (p : A -> option bool) (f : A -> bool) l :
  (forall x, p x = Some (f x)) -> filter_sql p l = Some (List.filter f l).
Proof.
  intros Hp. induction l as [|x l IH]; simpl; [done|].
  rewrite Hp, IH. by destruct (f x).
Qed.

Lemma elem_of_filter_list {A} (f : A -> bool) (l : list A) x :
  x ∈ List.filter f l <-> x ∈ l /\ f x = true.
Proof. rewrite !list_elem_of_In. apply filter_In. Qed.

Lemma apply_item_update_id upd now r : ItemModel.id (apply_item_update upd now r) = ItemModel.id r.
Proof. done. Qed.

Section Props.
Context (db : Db) (Hwf : db_wf db).

(** C30: [create_item] with a fresh id commits the item and its status
    row together, and [get_item] right after returns the item built
    from the payload, with the server id and [created_at = updated_at]
    (spec.md 8, first property). *)
Theorem create_item_then_get item_id now item :
  item_id ∉ item_ids db ->
  item_row_ok (new_item item_id now item) = true ->
  status_row_ok (new_status item_id now item) = true ->
  exists db', create_item item_id now item db = inr (new_item item_id now item, db') /\
    db_wf db' /\
    get_item item_id db' = inr (Some (new_item item_id now item), db') /\
    lookup_by ItemStatus.id item_id (item_status db') = Some (new_status item_id now item).
Proof.
  intros Hfresh Hi Hs.
  pose proof (wf_insert_item_and_status db Hwf (new_item item_id now item) (new_status item_id now item) Hfresh eq_refl Hi Hs) as Hwf'.
  eexists. split; [|split; [exact Hwf'|split]].
  - unfold create_item. erewrite bind_inr by (apply commit_ok; exact Hwf'). done.
  - unfold get_item, query. simpl. by rewrite lookup_by_snoc.
  - simpl. apply lookup_by_snoc; [|done].
    intros Hin. apply Hfresh. by apply status_id_is_item_id.
Qed.


(** An update of an existing row whose new values fit the columns is
    one commit of the updated row, which keeps the database well formed. *)
Lemma update_item_found k upd now r :
  lookup_by ItemModel.id k (items db) = Some r ->
  item_row_ok (apply_item_update upd now r) = true ->
  update_item k upd now db =
    inr (Some (apply_item_update upd now r),
         set_items (update_by ItemModel.id k (apply_item_update upd now)) db) /\
  db_wf (set_items (update_by ItemModel.id k (apply_item_update upd now)) db).
Proof.
  intros Hr Hok. destruct (lookup_by_Some _ _ _ _ Hr) as [Hk Hin].
  assert (Hwf' : db_wf (set_items (update_by ItemModel.id k (apply_item_update upd now)) db)).
  { apply wf_update_item; [done|done|]. intros r' Hr' Hk'.
    destruct Hwf as [[Hnd _] _].
    rewrite (lookup_by_in_NoDup _ k _ r' Hnd Hr' Hk') in Hr. by injection Hr as ->. }
  split; [|exact Hwf'].
  unfold update_item, get_item, bind, query. rewrite Hr.
  rewrite commit_ok by exact Hwf'. done.
Qed.

(** Existing rows satisfy the column constraints. *)
Lemma item_row_ok_lookup k r :
  lookup_by ItemModel.id k (items db) = Some r -> item_row_ok r = true.
Proof.
  intros Hr. destruct (lookup_by_Some _ _ _ _ Hr) as [_ Hin].
  destruct Hwf as [_ Hv]. apply values_ok_iff in Hv as [Hvi _].
  rewrite list.Forall_forall in Hvi. by apply Hvi.
Qed.

(** C23: [update_item] on an existing item writes exactly the fields of
    the payload and the timestamp, and a read returns the new row. *)
Theorem update_item_spec k upd now r :
  lookup_by ItemModel.id k (items db) = Some r ->
  item_row_ok (apply_item_update upd now r) = true ->
  exists db', update_item k upd now db = inr (Some (apply_item_update upd now r), db') /\
    db_wf db' /\ item_status db' = item_status db /\
    get_item k db' = inr (Some (apply_item_update upd now r), db').
Proof.
  intros Hr Hok. destruct (update_item_found k upd now r Hr Hok) as [Hu Hwf'].
  eexists. split; [exact Hu|split; [exact Hwf'|split; [done|]]].
  unfold get_item, query. simpl. by rewrite lookup_by_update_by_eq, Hr.
Qed.

(** An update with the empty payload [{}] changes only [updated_at]
    (spec.md 8), and never fails. *)
Corollary update_item_empty k now r :
  lookup_by ItemModel.id k (items db) = Some r ->
  exists db', update_item k ItemUpdate.empty now db =
    inr (Some (ItemModel.mk (ItemModel.id r) (ItemModel.name r) (ItemModel.description r)
                 (ItemModel.price r) (ItemModel.category r) (ItemModel.created_at r) now), db').
Proof.
  intros Hr. pose proof (item_row_ok_lookup k r Hr) as Hok.
  destruct (update_item_found k ItemUpdate.empty now r Hr) as [Hu _]; [|by eexists].
  by destruct r.
Qed.

End Props.

(** On a missing item, update and delete report "not found"
    ([None], [False]) and write nothing. *)
Theorem update_delete_missing k upd now db :
  k ∉ item_ids db ->
  update_item k upd now db = inr (None, db) /\ delete_item k db = inr (false, db).
Proof.
  intros Hn. apply lookup_by_None in Hn.
  unfold update_item, delete_item, get_item, bind, query. by rewrite Hn.
Qed.

Lemma search_filter_Some name category lo hi r :
  is_Some (search_filter name category lo hi r).
Proof.
  assert (Hc : forall col s, is_Some (col_ilike col s)).
  { intros [v|] s; [apply Like.ilike_contains_total | eauto]. }
  unfold search_filter.
  destruct (truthy name) as [n|]; [destruct (Hc (ItemModel.name r) n) as [b1 ->]|]; simpl;
  destruct (truthy category) as [c|]; try destruct (Hc (ItemModel.category r) c) as [b2 ->]; simpl; eauto.
Qed.


(** With no filter at all, [search_items] returns every item, in
    table order (spec.md 8). *)
Theorem search_items_no_filter db : search_items None None None None db = inr (items db, db).
Proof.
  unfold search_items, bind, query. simpl.
  rewrite (filter_sql_total _ (fun _ => true)) by done.
  induction (items db) as [|r l IH]; simpl; [done|]. by injection IH as ->.
Qed.

(** C35: The price bounds are inclusive and items whose price is NULL are
    excluded: [search(min_price=lo, max_price=hi)] returns exactly the
    items with [lo <= price <= hi] (spec.md 8). *)
Theorem search_items_price_range db lo hi :
  exists l, search_items None None (Some lo) (Some hi) db = inr (l, db) /\
    forall r, r ∈ l <-> r ∈ items db /\
      exists p, ItemModel.price r = Some p /\ (lo <= p)%Q /\ (p <= hi)%Q.
Proof.
  unfold search_items, bind, query. simpl.
  rewrite (filter_sql_total _ (fun r => col_ge (ItemModel.price r) lo && col_le (ItemModel.price r) hi))
    by done.
  eexists. split; [done|]. intros r. rewrite elem_of_filter_list.
  unfold col_ge, col_le. destruct (ItemModel.price r) as [p|].
  - rewrite andb_true_iff, !Qle_bool_iff. naive_solver.
  - naive_solver.
Qed.

(** C28: for a non-empty search term without LIKE metacharacters, the
    name filter is a case-insensitive substring match on the name, and
    items with a NULL name are excluded. *)
Theorem search_items_by_name db s :
  s <> ""%string ->
  forallb (fun c => negb (Like.special c)) (list_ascii_of_string s) = true ->
  exists l, search_items (Some s) None None None db = inr (l, db) /\
    forall r, r ∈ l <-> r ∈ items db /\ exists n, ItemModel.name r = Some n /\
      Like.is_infix (map Like.lower (list_ascii_of_string s)) (map Like.lower (list_ascii_of_string n)).
Proof.
  intros Hne Hplain.
  assert (Ht : truthy (Some s) = Some s) by (simpl; by rewrite bool_decide_false).
  unfold search_items, bind, query. simpl.
  rewrite (filter_sql_total _ (fun r => default false (col_ilike (ItemModel.name r) s))).
  2: { intros r. unfold search_filter. rewrite Ht. simpl.
       destruct (col_ilike (ItemModel.name r) s) as [b|] eqn:E.
       - simpl. by rewrite !andb_true_r.
       - destruct (ItemModel.name r) as [n|]; [|done].
         destruct (Like.ilike_contains_total n s) as [b Hb]. simpl in E. congruence. }
  eexists. split; [done|]. intros r. rewrite elem_of_filter_list.
  unfold col_ilike. destruct (ItemModel.name r) as [n|].
  - destruct (Like.ilike_plain_spec n s Hplain) as (b & -> & Hp). simpl. split.
    + intros [Hr ->]. split; [done|]. exists n. split; [done|]. by apply Hp.
    + intros [Hr (n' & [= <-] & Hi)]. split; [done|]. by apply Hp.
  - naive_solver.
Qed.



(** A negative [skip] or [limit] reaches PostgreSQL, which rejects
    it: the request fails with a server error. *)
Theorem get_items_negative db skip limit :
  (skip < 0 \/ limit < 0)%Z -> get_items skip limit db = inl NegativeOffsetLimit.
Proof.
  intros H. unfold get_items.
  destruct H as [H|H]; [rewrite (proj2 (Z.ltb_lt skip 0) H) | rewrite (proj2 (Z.ltb_lt limit 0) H), orb_true_r];
    done.
Qed.

(** ** Witnesses *)

Lemma create_item_then_get_witness :
  exists db', create_item "c" 7 sample_create sample_db = inr (new_item "c" 7 sample_create, db').
Proof.
  destruct (create_item_then_get sample_db sample_db_wf "c" 7 sample_create
              ltac:(apply (bool_decide_unpack _); vm_compute; reflexivity) eq_refl eq_refl)
    as (db' & H & _).
  exists db'. exact H.
Defined.


Lemma update_item_spec_witness :
  let upd := ItemUpdate.mk (SetTo (Some "bolt"%string)) Unset Unset Unset in
  exists db', update_item "a" upd 7 sample_db =
    inr (Some (apply_item_update upd 7 (sample_item "a")), db').
Proof.
  intros upd.
  destruct (update_item_spec sample_db sample_db_wf "a" upd 7 (sample_item "a") eq_refl eq_refl)
    as (db' & H & _).
  exists db'. exact H.
Defined.

Lemma update_item_empty_witness :
  exists db', update_item "a" ItemUpdate.empty 7 sample_db =
    inr (Some (ItemModel.mk "a" (Some "widget"%string) None (Some 2%Q) (Some "tools"%string) 0 7), db').
Proof. exact (update_item_empty sample_db sample_db_wf "a" 7 (sample_item "a") eq_refl). Defined.


Lemma update_delete_missing_witness :
  update_item "z" ItemUpdate.empty 7 sample_db = inr (None, sample_db) /\
  delete_item "z" sample_db = inr (false, sample_db).
Proof.
  apply update_delete_missing. apply (bool_decide_unpack _). vm_compute. reflexivity.
Defined.

Lemma search_items_by_name_witness :
  exists l, search_items (Some "IDG"%string) None None None sample_db = inr (l, sample_db) /\
    sample_item "a" ∈ l.
Proof.
  destruct (search_items_by_name sample_db "IDG" ltac:(discriminate) eq_refl) as (l & H & Hl).
  exists l. split; [exact H|]. apply Hl. split; [left|].
  exists "widget"%string. split; [reflexivity|]. exists [Ascii.ascii_of_nat 119], [Ascii.ascii_of_nat 101; Ascii.ascii_of_nat 116].
  vm_compute. reflexivity.
Defined.



Lemma get_items_negative_witness : get_items (-1) 5 sample_db = inl NegativeOffsetLimit.
Proof. apply get_items_negative. lia. Defined.

End ItemsCrud.
