(* ===== verification/StatusCrud.v ===== *)
(** * Status and inventory operations (src/app/crud/status_crud.py)

    One definition per function of status_crud.py in the session monad
    [M].  [sell_item] and [restock_item] read the status row, compute in
    Python and write the new counters back: a NULL counter makes the
    Python arithmetic raise [TypeError], a result outside the 32-bit
    column range makes the commit fail.  [get_low_stock_items] and
    [get_top_sellers] are the inner join of [items] with [item_status]
    (at most one status per item, by the primary key), the latter
    ordered by [total_sell DESC], where PostgreSQL puts NULLs first. *)

From Stdlib Require Import String Sorting.Permutation.
From stdpp Require Import sorting.
From S2P Require Import Prelude Models Schemas.

Module StatusCrud.

Definition new_status_row (item_id : string) (now : Z) (status : StatusCreate.t) : ItemStatus.t :=
  ItemStatus.mk item_id (Some (StatusCreate.total_sell status)) (Some (StatusCreate.stock status))
    now now.

Definition create_status (item_id : string) (now : Z) (status : StatusCreate.t) : M ItemStatus.t :=
  commit (set_status (fun l => l ++ [new_status_row item_id now status])) ;;;
  ret (new_status_row item_id now status).

Definition get_status (item_id : string) : M (option ItemStatus.t) :=
  query (fun db => lookup_by ItemStatus.id item_id (item_status db)).

Definition apply_status_update (upd : StatusUpdate.t) (now : Z) (r : ItemStatus.t) : ItemStatus.t :=
  ItemStatus.mk (ItemStatus.id r)
    (apply_field (StatusUpdate.total_sell upd) (ItemStatus.total_sell r))
    (apply_field (StatusUpdate.stock upd) (ItemStatus.stock r))
    (ItemStatus.created_at r) now.

Definition update_status (item_id : string) (status : StatusUpdate.t) (now : Z)
    : M (option ItemStatus.t) :=
  db_status <- get_status item_id ;;
  match db_status with
  | None => ret None
  | Some r =>
      commit (set_status (update_by ItemStatus.id item_id (apply_status_update status now))) ;;;
      ret (Some (apply_status_update status now r))
  end.

Definition delete_status (item_id : string) : M bool :=
  db_status <- get_status item_id ;;
  match db_status with
  | Some _ => commit (set_status (delete_by ItemStatus.id item_id)) ;;; ret true
  | None => ret false
  end.

(** The row with new counters and [updated_at = now]. *)
Definition with_counters (total_sell stock : option Z) (now : Z) (r : ItemStatus.t) : ItemStatus.t :=
  ItemStatus.mk (ItemStatus.id r) total_sell stock (ItemStatus.created_at r) now.

(** Lines 46-60.  [db_status.stock < quantity] raises on NULL; so does
    [db_status.total_sell += quantity]. *)
Definition sell_item (item_id : string) (quantity : Z) (now : Z) : M (option ItemStatus.t) :=
  db_status <- get_status item_id ;;
  match db_status with
  | None => ret None
  | Some r =>
      match ItemStatus.stock r with
      | None => throw TypeError
      | Some st =>
          if (st <? quantity)%Z then ret None
          else
            match ItemStatus.total_sell r with
            | None => throw TypeError
            | Some ts =>
                let f := with_counters (Some (ts + quantity)%Z) (Some (st - quantity)%Z) now in
                commit (set_status (update_by ItemStatus.id item_id f)) ;;;
                ret (Some (f r))
            end
      end
  end.

(** Lines 62-72: no check on [quantity]. *)
Definition restock_item (item_id : string) (quantity : Z) (now : Z) : M (option ItemStatus.t) :=
  db_status <- get_status item_id ;;
  match db_status with
  | None => ret None
  | Some r =>
      match ItemStatus.stock r with
      | None => throw TypeError
      | Some st =>
          let f := with_counters (ItemStatus.total_sell r) (Some (st + quantity)%Z) now in
          commit (set_status (update_by ItemStatus.id item_id f)) ;;;
          ret (Some (f r))
      end
  end.

(** [query(ItemModel).join(ItemStatus)]: each item paired with its
    status row, items without one left out. *)
Definition join_status (db : Db) : list (ItemModel.t * ItemStatus.t) :=
  omap (fun i => (fun s => (i, s)) <$> lookup_by ItemStatus.id (ItemModel.id i) (item_status db))
    (items db).

(** [ItemStatus.stock <= threshold]; NULL is not selected. *)
Definition stock_le (threshold : Z) (s : ItemStatus.t) : bool :=
  match ItemStatus.stock s with Some st => (st <=? threshold)%Z | None => false end.

Definition get_low_stock_items (threshold : Z) : M (list ItemModel.t) :=
  query (fun db => fst <$> List.filter (fun p => stock_le threshold p.2) (join_status db)).

(** [ORDER BY total_sell DESC]: PostgreSQL sorts NULL as larger than
    every value, so NULLs come first in descending order. *)
Definition sells_before (a b : ItemModel.t * ItemStatus.t) : Prop :=
  match ItemStatus.total_sell a.2, ItemStatus.total_sell b.2 with
  | None, _ => True
  | Some _, None => False
  | Some x, Some y => (y <= x)%Z
  end.

#[export] Instance sells_before_dec : RelDecision sells_before.
Proof.
  intros a b. unfold sells_before.
  destruct (ItemStatus.total_sell a.2), (ItemStatus.total_sell b.2); apply _.
Defined.

Definition get_top_sellers (limit : Z) : M (list ItemModel.t) :=
  if (limit <? 0)%Z then throw NegativeOffsetLimit
  else query (fun db => fst <$> take (Z.to_nat limit) (merge_sort sells_before (join_status db))).

(** The state after selling 2 units of "a" from [sample_db] at time 7. *)
Definition sample_db_sold : Db :=
  set_status (update_by ItemStatus.id "a" (with_counters (Some 5%Z) (Some 3%Z) 7)) sample_db.

(** ** Lemmas *)

Lemma with_counters_id ts st now r : ItemStatus.id (with_counters ts st now r) = ItemStatus.id r.
Proof. done. Qed.

Lemma apply_status_update_id upd now r : ItemStatus.id (apply_status_update upd now r) = ItemStatus.id r.
Proof. done. Qed.

Lemma elem_of_join_status db i s :
  (i, s) ∈ join_status db <-> i ∈ items db /\ lookup_by ItemStatus.id (ItemModel.id i) (item_status db) = Some s.
Proof.
  unfold join_status. rewrite list_elem_of_omap. split.
  - intros (i' & Hi' & Hl). destruct (lookup_by _ _ _) eqn:E; simpl in Hl; [|done].
    injection Hl as -> ->. done.
  - intros [Hi Hl]. exists i. split; [done|]. by rewrite Hl.
Qed.

Lemma sells_before_total : Total sells_before.
Proof.
  intros a b. unfold sells_before.
  destruct (ItemStatus.total_sell a.2), (ItemStatus.total_sell b.2); auto; lia.
Qed.

Lemma sells_before_trans : Transitive sells_before.
Proof.
  intros a b c. unfold sells_before.
  destruct (ItemStatus.total_sell a.2), (ItemStatus.total_sell b.2), (ItemStatus.total_sell c.2);
    try done; lia.
Qed.

(** The result of [sell_item] after the status row has been found. *)
Lemma sell_item_found db k q now r :
  lookup_by ItemStatus.id k (item_status db) = Some r ->
  sell_item k q now db =
    match ItemStatus.stock r with
    | None => inl TypeError
    | Some st =>
        if (st <? q)%Z then inr (None, db)
        else match ItemStatus.total_sell r with
             | None => inl TypeError
             | Some ts =>
                 let f := with_counters (Some (ts + q)%Z) (Some (st - q)%Z) now in
                 bind (commit (set_status (update_by ItemStatus.id k f))) (fun _ => ret (Some (f r))) db
             end
    end.
Proof.
  intros Hr. unfold sell_item, get_status, query, bind at 1. cbv beta. rewrite Hr.
  destruct (ItemStatus.stock r) as [st|]; [|reflexivity].
  destruct (Z.ltb st q); [reflexivity|]. by destruct (ItemStatus.total_sell r).
Qed.

Section Props.
Context (db : Db) (Hwf : db_wf db).

Lemma status_row_unique k r r' :
  lookup_by ItemStatus.id k (item_status db) = Some r ->
  r' ∈ item_status db -> ItemStatus.id r' = k -> r' = r.
Proof.
  intros Hr Hin Hk. destruct Hwf as [(_ & Hnd & _) _].
  rewrite (lookup_by_in_NoDup _ k _ r' Hnd Hin Hk) in Hr. by injection Hr.
Qed.

(** Committing a new version [f r] of the status row [k]. *)
Lemma commit_status_row k f r :
  lookup_by ItemStatus.id k (item_status db) = Some r ->
  (forall x, ItemStatus.id (f x) = ItemStatus.id x) -> status_row_ok (f r) = true ->
  commit (set_status (update_by ItemStatus.id k f)) db =
    inr (tt, set_status (update_by ItemStatus.id k f) db) /\
  db_wf (set_status (update_by ItemStatus.id k f) db).
Proof.
  intros Hr Hf Hok.
  assert (Hwf' : db_wf (set_status (update_by ItemStatus.id k f) db)).
  { apply wf_update_status; [done|done|]. intros x Hx Hk.
    by rewrite (status_row_unique k r x Hr Hx Hk). }
  split; [by apply commit_ok|done].
Qed.

(** C1: a sell of [q <= stock] moves [q] units from [stock] to
    [total_sell] of that row only, stamps [updated_at], and a read
    returns the new row (spec.md 4.2 and 8, the example scenario). *)
Theorem sell_item_ok k q now r st ts :
  lookup_by ItemStatus.id k (item_status db) = Some r ->
  ItemStatus.stock r = Some st -> ItemStatus.total_sell r = Some ts ->
  (q <= st)%Z -> in_int4 (ts + q) = true -> in_int4 (st - q) = true ->
  exists db',
    sell_item k q now db = inr (Some (with_counters (Some (ts + q)%Z) (Some (st - q)%Z) now r), db') /\
    db_wf db' /\ items db' = items db /\
    get_status k db' = inr (Some (with_counters (Some (ts + q)%Z) (Some (st - q)%Z) now r), db') /\
    (forall k', k' <> k ->
       lookup_by ItemStatus.id k' (item_status db') = lookup_by ItemStatus.id k' (item_status db)).
Proof.
  intros Hr Hst Hts Hq Hi1 Hi2.
  destruct (commit_status_row k (with_counters (Some (ts + q)%Z) (Some (st - q)%Z) now) r Hr)
    as [Hc Hwf']; [done| unfold status_row_ok; simpl; by rewrite Hi1, Hi2|].
  eexists. split; [|split; [exact Hwf'|split; [done|split]]].
  - rewrite (sell_item_found db k q now r Hr), Hst, (proj2 (Z.ltb_ge st q) Hq), Hts.
    simpl. by erewrite bind_inr.
  - unfold get_status, query. simpl. by rewrite lookup_by_update_by_eq, Hr.
  - intros k' Hne. simpl. by apply lookup_by_update_by_ne.
Qed.
End Props.

(** C2: a sell of more than the stock is rejected and changes nothing:
    no partial deduction (spec.md 3 and 8). *)
Theorem sell_item_insufficient db k q now r st :
  lookup_by ItemStatus.id k (item_status db) = Some r -> ItemStatus.stock r = Some st ->
  (st < q)%Z -> sell_item k q now db = inr (None, db).
Proof.
  intros Hr Hst Hq. rewrite (sell_item_found db k q now r Hr), Hst.
  by rewrite (proj2 (Z.ltb_lt st q) Hq).
Qed.

(** What a successful sell read and wrote: the row it found, with
    enough stock, and the one row it replaced. *)
Lemma sell_item_success db k q now r' db' :
  sell_item k q now db = inr (Some r', db') ->
  exists r st ts, lookup_by ItemStatus.id k (item_status db) = Some r /\
    ItemStatus.stock r = Some st /\ ItemStatus.total_sell r = Some ts /\ (q <= st)%Z /\
    r' = with_counters (Some (ts + q)%Z) (Some (st - q)%Z) now r /\
    db' = set_status (update_by ItemStatus.id k
            (with_counters (Some (ts + q)%Z) (Some (st - q)%Z) now)) db.
Proof.
  destruct (lookup_by ItemStatus.id k (item_status db)) as [r|] eqn:Hr.
  2: { unfold sell_item, get_status, bind, query. rewrite Hr. done. }
  rewrite (sell_item_found db k q now r Hr).
  destruct (ItemStatus.stock r) as [st|] eqn:Hst; [|done].
  destruct (Z.ltb_spec st q); [done|].
  destruct (ItemStatus.total_sell r) as [ts|] eqn:Hts; [|done].
  unfold bind. destruct (commit _ db) as [|[[] db'']] eqn:Hc; [done|].
  apply commit_wf in Hc as [-> _]. intros [= <- <-].
  by exists r, st, ts.
Qed.

(** C3: every successful sell took [q <= stock] from an existing row and
    leaves [stock - q >= 0] with [stock + total_sell] unchanged, whatever
    the sign of [q]: [sell_item] never makes the stock negative. *)
Theorem sell_item_effect db k q now r' db' :
  sell_item k q now db = inr (Some r', db') ->
  exists r st ts, lookup_by ItemStatus.id k (item_status db) = Some r /\
    ItemStatus.stock r = Some st /\ ItemStatus.total_sell r = Some ts /\ (q <= st)%Z /\
    ItemStatus.stock r' = Some (st - q)%Z /\ ItemStatus.total_sell r' = Some (ts + q)%Z /\
    (0 <= st - q)%Z /\ (st - q + (ts + q) = st + ts)%Z /\
    db' = set_status (update_by ItemStatus.id k
            (with_counters (Some (ts + q)%Z) (Some (st - q)%Z) now)) db.
Proof.
  intros Hs. destruct (sell_item_success db k q now r' db' Hs)
    as (r & st & ts & Hr & Hst & Hts & Hq & -> & ->).
  exists r, st, ts. repeat split; try done; lia.
Qed.

Lemma restock_item_found db k q now r :
  lookup_by ItemStatus.id k (item_status db) = Some r ->
  restock_item k q now db =
    match ItemStatus.stock r with
    | None => inl TypeError
    | Some st =>
        let f := with_counters (ItemStatus.total_sell r) (Some (st + q)%Z) now in
        bind (commit (set_status (update_by ItemStatus.id k f))) (fun _ => ret (Some (f r))) db
    end.
Proof.
  intros Hr. unfold restock_item, get_status, query, bind at 1. cbv beta. rewrite Hr.
  by destruct (ItemStatus.stock r).
Qed.

Section Restock.
Context (db : Db) (Hwf : db_wf db).

(** C18: [restock_item] adds [q] to the stock whatever the sign of [q]
    (there is no [quantity <= 0] check, which spec.md 4.2 requires),
    as long as the result fits the 32-bit column. *)
Theorem restock_item_ok k q now r st :
  lookup_by ItemStatus.id k (item_status db) = Some r -> ItemStatus.stock r = Some st ->
  in_int4 (st + q) = true ->
  exists db',
    restock_item k q now db =
      inr (Some (with_counters (ItemStatus.total_sell r) (Some (st + q)%Z) now r), db') /\
    db_wf db' /\
    get_status k db' = inr (Some (with_counters (ItemStatus.total_sell r) (Some (st + q)%Z) now r), db').
Proof.
  intros Hr Hst Hi.
  assert (Hts : opt_in_int4 (ItemStatus.total_sell r) = true).
  { destruct (lookup_by_Some _ _ _ _ Hr) as [_ Hin]. destruct Hwf as [_ Hv].
    apply values_ok_iff in Hv as [_ Hvs]. rewrite list.Forall_forall in Hvs.
    apply Hvs in Hin. unfold status_row_ok in Hin. by apply andb_true_iff in Hin as [? _]. }
  destruct (commit_status_row db Hwf k (with_counters (ItemStatus.total_sell r) (Some (st + q)%Z) now) r Hr)
    as [Hc Hwf']; [done| unfold status_row_ok; simpl; by rewrite Hts, Hi|].
  eexists. split; [|split; [exact Hwf'|]].
  - rewrite (restock_item_found db k q now r Hr), Hst. simpl. by erewrite bind_inr.
  - unfold get_status, query. simpl. by rewrite lookup_by_update_by_eq, Hr.
Qed.

(** C21: a restock whose result leaves the 32-bit range of the [stock]
    column fails at commit and writes nothing. *)
Theorem restock_item_overflow k q now r st :
  lookup_by ItemStatus.id k (item_status db) = Some r -> ItemStatus.stock r = Some st ->
  in_int4 (st + q) = false -> restock_item k q now db = inl DataError.
Proof.
  intros Hr Hst Hi. rewrite (restock_item_found db k q now r Hr), Hst. simpl.
  unfold bind, commit. destruct Hwf as [Hkeys _].
  rewrite decide_True.
  2: { unfold keys_ok, item_ids, status_ids, set_status in *. simpl.
       by rewrite keys_update_by. }
  destruct (values_ok (set_status _ db)) eqn:Hv'; [|done]. exfalso.
  apply values_ok_iff in Hv' as [_ Hvs]. simpl in Hvs.
  destruct (lookup_by_Some _ _ _ _ Hr) as [Hk Hin].
  assert (Hin' : with_counters (ItemStatus.total_sell r) (Some (st + q)%Z) now r ∈
                   update_by ItemStatus.id k
                     (with_counters (ItemStatus.total_sell r) (Some (st + q)%Z) now) (item_status db)).
  { apply list_elem_of_In, in_map_iff. exists r. split; [by rewrite bool_decide_true|].
    by apply list_elem_of_In. }
  rewrite list.Forall_forall in Hvs. apply Hvs in Hin'.
  unfold status_row_ok in Hin'. simpl in Hin'. rewrite Hi, andb_false_r in Hin'. done.
Qed.

(** C32: [create_status] for an item without status inserts the row
    given by the payload; the route's two checks are exactly what the
    insert needs. *)
Theorem create_status_ok k now st :
  k ∈ item_ids db -> k ∉ status_ids db ->
  status_row_ok (new_status_row k now st) = true ->
  exists db', create_status k now st db = inr (new_status_row k now st, db') /\ db_wf db' /\
    get_status k db' = inr (Some (new_status_row k now st), db').
Proof.
  intros Hin Hn Hok. pose proof (wf_insert_status db Hwf (new_status_row k now st) Hin Hn Hok) as Hwf'.
  eexists. split; [|split; [exact Hwf'|]].
  - unfold create_status. by erewrite bind_inr by (apply commit_ok; exact Hwf').
  - unfold get_status, query. simpl. by rewrite lookup_by_snoc.
Qed.
End Restock.

(** Without the route's check, a second status for the same item
    violates the primary key: the insert fails and writes nothing. *)
Theorem create_status_duplicate db k now st :
  k ∈ status_ids db -> create_status k now st db = inl IntegrityError.
Proof.
  intros Hin. unfold create_status, bind, commit. simpl.
  rewrite decide_False; [done|]. intros (_ & Hnd & _).
  unfold status_ids, set_status in Hnd. simpl in Hnd. rewrite keys_snoc in Hnd.
  apply list.NoDup_app in Hnd as (_ & Hd & _). apply (Hd k); [done|].
  by apply list_elem_of_singleton.
Qed.

(** C26: [get_low_stock_items threshold] returns exactly the items that
    have a status row whose stock is not NULL and at most [threshold];
    items without status are excluded (spec.md 4.3). *)
Theorem low_stock_spec db threshold :
  exists l, get_low_stock_items threshold db = inr (l, db) /\
    forall i, i ∈ l <-> i ∈ items db /\ exists s st,
      lookup_by ItemStatus.id (ItemModel.id i) (item_status db) = Some s /\
      ItemStatus.stock s = Some st /\ (st <= threshold)%Z.
Proof.
  eexists. split; [reflexivity|]. intros i.
  rewrite list_elem_of_fmap. split.
  - intros ([i' s] & -> & Hin). apply list_elem_of_In, filter_In in Hin as [Hin Hle].
    apply list_elem_of_In, elem_of_join_status in Hin as [Hi Hl]. simpl in *.
    unfold stock_le in Hle. destruct (ItemStatus.stock s) as [st|] eqn:Hst; [|done].
    apply Z.leb_le in Hle. eauto 10.
  - intros [Hi (s & st & Hl & Hst & Hle)]. exists (i, s). split; [done|].
    apply list_elem_of_In, filter_In. split.
    + apply list_elem_of_In, elem_of_join_status. done.
    + simpl. unfold stock_le. rewrite Hst. by apply Z.leb_le.
Qed.


Lemma sample_sell_run :
  sell_item "a" 2 7 sample_db = inr (Some (with_counters (Some 5%Z) (Some 3%Z) 7 sample_status), sample_db_sold).
Proof. vm_compute. reflexivity. Qed.

(** ** Witnesses *)

Lemma sell_item_ok_witness :
  exists db', sell_item "a" 2 7 sample_db =
    inr (Some (with_counters (Some 5%Z) (Some 3%Z) 7 sample_status), db').
Proof.
  destruct (sell_item_ok sample_db sample_db_wf "a" 2 7 sample_status 5 3
              eq_refl eq_refl eq_refl ltac:(lia) eq_refl eq_refl) as (db' & H & _).
  exists db'. exact H.
Defined.

Lemma sell_item_insufficient_witness : sell_item "a" 9 7 sample_db = inr (None, sample_db).
Proof. exact (sell_item_insufficient sample_db "a" 9 7 sample_status 5 eq_refl eq_refl ltac:(lia)). Defined.

Lemma sell_item_effect_witness :
  exists r st ts, lookup_by ItemStatus.id "a" (item_status sample_db) = Some r /\
    ItemStatus.stock r = Some st /\ ItemStatus.total_sell r = Some ts /\ (2 <= st)%Z /\ (0 <= st - 2)%Z.
Proof.
  destruct (sell_item_effect sample_db "a" 2 7 _ _ sample_sell_run)
    as (r & st & ts & H1 & H2 & H3 & H4 & _ & _ & H5 & _).
  exists r, st, ts. auto.
Defined.

Lemma restock_item_ok_witness :
  exists db', restock_item "a" 4 7 sample_db =
    inr (Some (with_counters (Some 3%Z) (Some 9%Z) 7 sample_status), db').
Proof.
  destruct (restock_item_ok sample_db sample_db_wf "a" 4 7 sample_status 5 eq_refl eq_refl eq_refl)
    as (db' & H & _).
  exists db'. exact H.
Defined.

Lemma restock_item_overflow_witness : restock_item "a" INT4_MAX 7 sample_db = inl DataError.
Proof. exact (restock_item_overflow sample_db sample_db_wf "a" INT4_MAX 7 sample_status 5 eq_refl eq_refl eq_refl). Defined.

Lemma create_status_ok_witness :
  exists db', create_status "b" 7 StatusCreate.default sample_db =
    inr (new_status_row "b" 7 StatusCreate.default, db').
Proof.
  destruct (create_status_ok sample_db sample_db_wf "b" 7 StatusCreate.default
              ltac:(apply (bool_decide_unpack _); vm_compute; reflexivity)
              ltac:(apply (bool_decide_unpack _); vm_compute; reflexivity) eq_refl) as (db' & H & _).
  exists db'. exact H.
Defined.

Lemma create_status_duplicate_witness :
  create_status "a" 7 StatusCreate.default sample_db = inl IntegrityError.
Proof. apply create_status_duplicate. apply (bool_decide_unpack _). vm_compute. reflexivity. Defined.


End StatusCrud.
