(* ===== verification/Tables.v ===== *)
(** * The store as finite maps: the abstract specification of the tables

    spec.md 3 describes the store as Items, each with at most one
    Status, identified by [id].  This file gives that view of a [Db]:
    a table is the finite map (stdpp's [gmap]) from primary key to row,
    [abs] maps a state to its two maps, and every write of the CRUD
    functions of src/app/crud is one of four map operations: put a row
    under a key in the items map or in the status map, delete a key
    from both maps or from the status map.

    [table_map] keeps, for each key, the first row in table order, the
    row [query(...).filter(id == k).first()] returns, so that
    [lookup_by] is map lookup on every table, well formed or not
    ([lookup_by_table_map]).  The refinement theorems show that each
    CRUD function reads what the map lookup gives and, when it
    commits, leaves the abstraction its map operation computes; a
    creation moreover finds its key absent, since the primary key
    would reject the commit otherwise. *)

From stdpp Require Import gmap.
From S2P Require Import Prelude Models Schemas ItemsCrud StatusCrud.

Module Tables.

(** ** Abstraction *)

Definition table_map {R} (key : R -> string) (l : list R) : gmap string R :=
  list_to_map ((fun r => (key r, r)) <$> l).

Record AbsDb := mkAbs {
  a_items : gmap string ItemModel.t;
  a_status : gmap string ItemStatus.t
}.

Definition abs (db : Db) : AbsDb :=
  mkAbs (table_map ItemModel.id (items db)) (table_map ItemStatus.id (item_status db)).

(** ** The operations of the specification *)

Definition put_item (k : string) (r : ItemModel.t) (a : AbsDb) : AbsDb :=
  mkAbs (<[k := r]> (a_items a)) (a_status a).

Definition put_status (k : string) (s : ItemStatus.t) (a : AbsDb) : AbsDb :=
  mkAbs (a_items a) (<[k := s]> (a_status a)).

(** Deleting an Item deletes its Status (spec.md 4.1). *)
Definition delete_both (k : string) (a : AbsDb) : AbsDb :=
  mkAbs (delete k (a_items a)) (delete k (a_status a)).

Definition delete_status_only (k : string) (a : AbsDb) : AbsDb :=
  mkAbs (a_items a) (delete k (a_status a)).

(** ** Lists of rows refine maps *)

Section Laws.
Context {R : Type} (key : R -> string).

Lemma table_map_nil : table_map key [] = ∅.
Proof. done. Qed.

Lemma table_map_cons r l : table_map key (r :: l) = <[key r := r]> (table_map key l).
Proof. done. Qed.

(** The first row with the key is the one the map holds. *)
Lemma lookup_by_table_map k l : lookup_by key k l = table_map key l !! k.
Proof.
  induction l as [|r l IH]; [done|]. rewrite table_map_cons. unfold lookup_by in *. simpl.
  case_bool_decide as E.
  - subst. by rewrite lookup_insert_eq.
  - by rewrite lookup_insert_ne.
Qed.

Lemma table_map_update_by k f l :
  (forall r, key (f r) = key r) ->
  table_map key (update_by key k f l) = alter f k (table_map key l).
Proof.
  intros Hf. induction l as [|r l IH]; [by rewrite table_map_nil, alter_empty|].
  unfold update_by in *. cbn [List.map]. rewrite !table_map_cons, IH.
  case_bool_decide as E.
  - rewrite Hf, E, insert_alter_eq. by rewrite alter_insert_eq.
  - by rewrite alter_insert_ne.
Qed.

Lemma table_map_delete_by k l : table_map key (delete_by key k l) = delete k (table_map key l).
Proof.
  induction l as [|r l IH]; [by rewrite table_map_nil, delete_empty|].
  unfold delete_by in *. cbn [List.filter]. rewrite table_map_cons.
  case_bool_decide as E; cbn [negb].
  - rewrite IH, E. by rewrite delete_insert_eq.
  - rewrite table_map_cons, IH. by rewrite delete_insert_ne.
Qed.

Lemma table_map_snoc l r :
  key r ∉ keys key l -> table_map key (l ++ [r]) = <[key r := r]> (table_map key l).
Proof.
  induction l as [|x l IH]; intros Hn; [done|]. cbn [app keys List.map] in *.
  apply not_elem_of_cons in Hn as [Hx Hn]. rewrite !table_map_cons, IH by done.
  by rewrite insert_insert_ne.
Qed.

(** A key the table does not hold, after a commit that appended it. *)
Lemma keys_snoc_fresh l r : NoDup (keys key (l ++ [r])) -> key r ∉ keys key l.
Proof.
  rewrite keys_snoc. intros Hnd. apply list.NoDup_app in Hnd as (_ & Hdis & _).
  intros Hin. apply (Hdis _ Hin). by apply list_elem_of_singleton.
Qed.

Lemma lookup_table_map_fresh l r :
  NoDup (keys key (l ++ [r])) -> table_map key l !! key r = None.
Proof.
  intros Hnd. rewrite <- lookup_by_table_map. by apply lookup_by_None, keys_snoc_fresh.
Qed.

End Laws.

Lemma alter_found {A} (m : gmap string A) f k r :
  m !! k = Some r -> alter f k m = <[k := f r]> m.
Proof.
  intros Hk. apply map_eq. intros j. destruct (decide (j = k)) as [->|Hj].
  - by rewrite lookup_alter_eq, lookup_insert_eq, Hk.
  - rewrite lookup_alter_ne, lookup_insert_ne; congruence.
Qed.

(** Updating the row found under [k] by a function that keeps its key:
    a put of the new row. *)
Lemma table_map_update_found {R} (key : R -> string) k f l r :
  (forall x, key (f x) = key x) -> lookup_by key k l = Some r ->
  table_map key (update_by key k f l) = <[k := f r]> (table_map key l).
Proof.
  intros Hf Hr. rewrite table_map_update_by by done. apply alter_found.
  by rewrite <- lookup_by_table_map.
Qed.

(** ** The CRUD functions implement the map operations *)

Section Refinement.
Import ItemsCrud StatusCrud.

Lemma abs_get_item db k : get_item k db = inr (a_items (abs db) !! k, db).
Proof. unfold get_item, query, abs. cbn [a_items]. by rewrite lookup_by_table_map. Qed.

Lemma abs_get_status db k : get_status k db = inr (a_status (abs db) !! k, db).
Proof. unfold get_status, query, abs. cbn [a_status]. by rewrite lookup_by_table_map. Qed.

Lemma abs_create_item db k now item r db' :
  create_item k now item db = inr (r, db') ->
  a_items (abs db) !! k = None /\ a_status (abs db) !! k = None /\
  abs db' = put_status k (new_status k now item) (put_item k (new_item k now item) (abs db)).
Proof.
  unfold create_item, bind. destruct (commit _ db) as [|[[] db1]] eqn:Hc; [done|].
  apply commit_wf in Hc as [-> [[Hi [Hs _]] _]]. intros [= _ <-].
  unfold item_ids, status_ids in Hi, Hs. cbn [items item_status] in Hi, Hs.
  unfold abs, put_item, put_status. cbn [a_items a_status items item_status].
  split; [exact (lookup_table_map_fresh _ _ _ Hi)|split; [exact (lookup_table_map_fresh _ _ _ Hs)|]].
  by rewrite (table_map_snoc _ _ _ (keys_snoc_fresh _ _ _ Hi)),
    (table_map_snoc _ _ _ (keys_snoc_fresh _ _ _ Hs)).
Qed.

Lemma abs_update_item db k upd now o db' :
  update_item k upd now db = inr (o, db') ->
  o = apply_item_update upd now <$> a_items (abs db) !! k /\
  abs db' = match o with Some r => put_item k r (abs db) | None => abs db end.
Proof.
  unfold update_item, bind. rewrite abs_get_item. cbv beta iota.
  destruct (a_items (abs db) !! k) as [r|] eqn:Hr; [|by intros [= <- <-]].
  destruct (commit _ db) as [|[[] db1]] eqn:Hc; [done|]. apply commit_wf in Hc as [-> _].
  intros [= <- <-]. split; [done|]. unfold abs, put_item in *. cbn [a_items a_status] in *.
  rewrite <- lookup_by_table_map in Hr. cbn [set_items items item_status].
  by rewrite (table_map_update_found _ k _ _ r (apply_item_update_id upd now) Hr).
Qed.

Lemma abs_delete_item db k b db' :
  delete_item k db = inr (b, db') ->
  b = bool_decide (is_Some (a_items (abs db) !! k)) /\
  abs db' = if b then delete_both k (abs db) else abs db.
Proof.
  unfold delete_item, bind. rewrite abs_get_item. cbv beta iota.
  destruct (a_items (abs db) !! k) as [r|] eqn:Hr.
  - destruct (commit _ db) as [|[[] db1]] eqn:Hc; [done|]. apply commit_wf in Hc as [-> _].
    intros [= <- <-]. split; [by rewrite bool_decide_eq_true_2|].
    unfold abs, delete_both. cbn [a_items a_status items item_status].
    by rewrite !table_map_delete_by.
  - intros [= <- <-]. split; [|done]. by rewrite bool_decide_eq_false_2 by (intros [? ?]; done).
Qed.

(** On a well-formed database [delete_item] always commits: the
    cascade removes the status row with the item, so the foreign key
    still holds. *)
Lemma delete_item_commits db k :
  db_wf db -> exists b db', delete_item k db = inr (b, db').
Proof.
  intros Hwf. unfold delete_item, bind. rewrite abs_get_item. cbv beta iota.
  destruct (a_items (abs db) !! k); [|by eauto].
  rewrite commit_ok by (by apply wf_delete_item_cascade). by eauto.
Qed.

Lemma abs_create_status db k now st r db' :
  create_status k now st db = inr (r, db') ->
  a_status (abs db) !! k = None /\ abs db' = put_status k (new_status_row k now st) (abs db).
Proof.
  unfold create_status, bind. destruct (commit _ db) as [|[[] db1]] eqn:Hc; [done|].
  apply commit_wf in Hc as [-> [[_ [Hs _]] _]]. intros [= _ <-].
  unfold status_ids in Hs. cbn [set_status item_status] in Hs.
  unfold abs, put_status. cbn [a_items a_status set_status items item_status].
  split; [exact (lookup_table_map_fresh _ _ _ Hs)|].
  by rewrite (table_map_snoc _ _ _ (keys_snoc_fresh _ _ _ Hs)).
Qed.

(** The status operations that replace the row they found. *)
Lemma abs_update_status_row db k f r :
  (forall x, ItemStatus.id (f x) = ItemStatus.id x) ->
  a_status (abs db) !! k = Some r ->
  abs (set_status (update_by ItemStatus.id k f) db) = put_status k (f r) (abs db).
Proof.
  intros Hf Hr. unfold abs, put_status in *. cbn [a_items a_status set_status items item_status] in *.
  rewrite <- lookup_by_table_map in Hr. by rewrite (table_map_update_found _ k _ _ r Hf Hr).
Qed.

Lemma abs_update_status db k upd now o db' :
  update_status k upd now db = inr (o, db') ->
  o = apply_status_update upd now <$> a_status (abs db) !! k /\
  abs db' = match o with Some r => put_status k r (abs db) | None => abs db end.
Proof.
  unfold update_status, bind. rewrite abs_get_status. cbv beta iota.
  destruct (a_status (abs db) !! k) as [r|] eqn:Hr; [|by intros [= <- <-]].
  destruct (commit _ db) as [|[[] db1]] eqn:Hc; [done|]. apply commit_wf in Hc as [-> _].
  intros [= <- <-]. split; [done|]. by apply abs_update_status_row; [apply apply_status_update_id|].
Qed.

Lemma abs_delete_status db k b db' :
  delete_status k db = inr (b, db') ->
  b = bool_decide (is_Some (a_status (abs db) !! k)) /\
  abs db' = if b then delete_status_only k (abs db) else abs db.
Proof.
  unfold delete_status, bind. rewrite abs_get_status. cbv beta iota.
  destruct (a_status (abs db) !! k) as [r|] eqn:Hr.
  - destruct (commit _ db) as [|[[] db1]] eqn:Hc; [done|]. apply commit_wf in Hc as [-> _].
    intros [= <- <-]. split; [by rewrite bool_decide_eq_true_2|].
    unfold abs, delete_status_only. cbn [a_items a_status set_status items item_status].
    by rewrite table_map_delete_by.
  - intros [= <- <-]. split; [|done]. by rewrite bool_decide_eq_false_2 by (intros [? ?]; done).
Qed.

Lemma abs_sell_item db k q now o db' :
  sell_item k q now db = inr (o, db') ->
  abs db' = match o with Some r => put_status k r (abs db) | None => abs db end.
Proof.
  destruct o as [r'|].
  - intros Hs. destruct (sell_item_success db k q now r' db' Hs) as (r & st & ts & Hr & _ & _ & _ & -> & ->).
    apply abs_update_status_row; [apply with_counters_id|].
    unfold abs. cbn [a_status]. by rewrite <- lookup_by_table_map.
  - destruct (lookup_by ItemStatus.id k (item_status db)) as [r|] eqn:Hr.
    2: { unfold sell_item, get_status, bind, query. rewrite Hr. by intros [= <-]. }
    rewrite (sell_item_found db k q now r Hr).
    destruct (ItemStatus.stock r); [|done]. destruct (_ <? _)%Z; [by intros [= <-]|].
    destruct (ItemStatus.total_sell r); [|done].
    unfold bind. destruct (commit _ db) as [|[[] ?]]; done.
Qed.

Lemma abs_restock_item db k q now o db' :
  restock_item k q now db = inr (o, db') ->
  abs db' = match o with Some r => put_status k r (abs db) | None => abs db end.
Proof.
  destruct (lookup_by ItemStatus.id k (item_status db)) as [r|] eqn:Hr.
  2: { unfold restock_item, get_status, bind, query. rewrite Hr. by intros [= <- <-]. }
  rewrite (restock_item_found db k q now r Hr).
  destruct (ItemStatus.stock r); [|done]. cbv zeta.
  unfold bind. destruct (commit _ db) as [|[[] db1]] eqn:Hc; [done|]. apply commit_wf in Hc as [-> _].
  intros [= <- <-]. apply abs_update_status_row; [apply with_counters_id|].
  unfold abs. cbn [a_status]. by rewrite <- lookup_by_table_map.
Qed.

End Refinement.

(** ** Refinement of the specification *)

(** C14: the functions of src/app/crud/items_crud.py implement the map
    specification of the store: [get_item] is lookup in the items map;
    a committed [create_item] found its id in neither map and puts the
    new item and its status row under it; [update_item] returns the
    updated row of the map, puts it back and changes nothing else;
    [delete_item] answers whether the id is in the items map and, if
    it is, deletes it from both maps (the cascade of spec.md 4.1). *)
Theorem item_crud_refines db k :
  ItemsCrud.get_item k db = inr (a_items (abs db) !! k, db) /\
  (forall now item r db', ItemsCrud.create_item k now item db = inr (r, db') ->
     a_items (abs db) !! k = None /\ a_status (abs db) !! k = None /\
     abs db' = put_status k (ItemsCrud.new_status k now item)
                 (put_item k (ItemsCrud.new_item k now item) (abs db))) /\
  (forall upd now o db', ItemsCrud.update_item k upd now db = inr (o, db') ->
     o = ItemsCrud.apply_item_update upd now <$> a_items (abs db) !! k /\
     abs db' = match o with Some r => put_item k r (abs db) | None => abs db end) /\
  (db_wf db -> exists db',
     ItemsCrud.delete_item k db = inr (bool_decide (is_Some (a_items (abs db) !! k)), db') /\
     abs db' = if bool_decide (is_Some (a_items (abs db) !! k)) then delete_both k (abs db)
               else abs db).
Proof.
  split; [apply abs_get_item|split; [|split]]; [intros *..|intros Hwf];
    [apply abs_create_item|apply abs_update_item|].
  destruct (delete_item_commits db k Hwf) as (b & db' & Hd).
  destruct (abs_delete_item db k b db' Hd) as [-> Ha]. by eauto.
Qed.

(** C15: the functions of src/app/crud/status_crud.py implement the map
    specification: [get_status] is lookup in the status map; a
    committed [create_status] found no row under the id and puts the
    new one; [update_status], [sell_item] and [restock_item] put back
    the row they return, or change nothing when they return [None];
    [delete_status] deletes the id from the status map only. *)
Theorem status_crud_refines db k :
  StatusCrud.get_status k db = inr (a_status (abs db) !! k, db) /\
  (forall now st r db', StatusCrud.create_status k now st db = inr (r, db') ->
     a_status (abs db) !! k = None /\ abs db' = put_status k (StatusCrud.new_status_row k now st) (abs db)) /\
  (forall upd now o db', StatusCrud.update_status k upd now db = inr (o, db') ->
     o = StatusCrud.apply_status_update upd now <$> a_status (abs db) !! k /\
     abs db' = match o with Some r => put_status k r (abs db) | None => abs db end) /\
  (forall b db', StatusCrud.delete_status k db = inr (b, db') ->
     b = bool_decide (is_Some (a_status (abs db) !! k)) /\
     abs db' = if b then delete_status_only k (abs db) else abs db) /\
  (forall q now o db', StatusCrud.sell_item k q now db = inr (o, db') ->
     abs db' = match o with Some r => put_status k r (abs db) | None => abs db end) /\
  (forall q now o db', StatusCrud.restock_item k q now db = inr (o, db') ->
     abs db' = match o with Some r => put_status k r (abs db) | None => abs db end).
Proof.
  split; [apply abs_get_status|].
  split; [intros *; apply abs_create_status|].
  split; [intros *; apply abs_update_status|].
  split; [intros *; apply abs_delete_status|].
  split; intros *; [apply abs_sell_item|apply abs_restock_item].
Qed.

(** ** Witnesses *)

Lemma item_crud_refines_witness :
  db_wf sample_db /\
  exists db', ItemsCrud.delete_item "a" sample_db = inr (true, db') /\
              abs db' = delete_both "a" (abs sample_db).
Proof.
  split; [exact sample_db_wf|].
  assert (Hs : is_Some (a_items (abs sample_db) !! "a")) by (eexists; reflexivity).
  destruct (proj2 (proj2 (proj2 (item_crud_refines sample_db "a"))) sample_db_wf)
    as (db' & H1 & H2).
  rewrite bool_decide_eq_true_2 in H1, H2 by exact Hs. by exists db'.
Defined.

Lemma status_crud_refines_witness :
  abs StatusCrud.sample_db_sold =
    put_status "a" (StatusCrud.with_counters (Some 5%Z) (Some 3%Z) 7 sample_status) (abs sample_db).
Proof.
  exact (proj1 (proj2 (proj2 (proj2 (proj2 (status_crud_refines sample_db "a"))))) 2%Z 7%Z _ _
           StatusCrud.sample_sell_run).
Defined.

End Tables.
