(* ===== verification/Routes.v ===== *)
(** * Request handling (src/app/routes/*.py)

    One definition per route handler.  A handler runs its CRUD calls in
    [M] and returns a [Response]: [HTTPException]s become [HttpError]
    with the status code and detail of the source; a value returned to
    FastAPI goes through response-model validation, whose failure is a
    server error reported after the CRUD function has committed.
    [serve] runs one request on a database: a [Fault] (an exception
    the handler does not catch) gives HTTP 500 and leaves the database
    as it was, since nothing was committed.

    [handle] dispatches a [Request] (one constructor per endpoint of
    spec.md 6, under the /api/v1 prefix) to its handler; [step] is one
    request of any client, [reachable] the states a sequence of requests
    can produce from the empty database. *)

From Stdlib Require Import String.
From S2P Require Import Prelude Models Schemas ItemsCrud StatusCrud.

Import ItemsCrud StatusCrud.

Record Summary := mkSummary {
  total_items : Z;
  items_with_status : Z;
  total_stock : Z;
  total_sales : Z;
  low_stock_items : Z
}.

Inductive Body :=
  | BItem (i : ItemResponse.t)
  | BItems (l : list ItemResponse.t)
  | BStatus (s : StatusResponse.t)
  | BFull (v : ItemWithStatusResponse.t)
  | BMessage (m : string)
  | BSummary (s : Summary).

Inductive Response :=
  | Ok200 (b : Body)
  | HttpError (code : Z) (detail : string)
  | ServerError (f : Fault).

Module Routes.

(** Response-model validation of the returned value. *)
Definition item_out (r : ItemModel.t) : Response :=
  match ItemResponse.validate r with
  | Some v => Ok200 (BItem v) | None => ServerError ResponseValidationError
  end.

Definition items_out (l : list ItemModel.t) : Response :=
  match ItemResponse.validate_list l with
  | Some v => Ok200 (BItems v) | None => ServerError ResponseValidationError
  end.

Definition status_out (r : ItemStatus.t) : Response :=
  match StatusResponse.validate r with
  | Some v => Ok200 (BStatus v) | None => ServerError ResponseValidationError
  end.

(** *** items.py *)

Definition create_item_route (fresh : string) (now : Z) (item : ItemCreate.t) : M Response :=
  r <- create_item fresh now item ;; ret (item_out r).

Definition read_all_items (skip limit : Z) : M Response :=
  l <- get_items skip limit ;; ret (items_out l).

Definition read_item (item_id : string) : M Response :=
  db_item <- get_item item_id ;;
  match db_item with
  | None => ret (HttpError 404 "Item not found")
  | Some r => ret (item_out r)
  end.

Definition update_item_route (item_id : string) (item : ItemUpdate.t) (now : Z) : M Response :=
  updated_item <- update_item item_id item now ;;
  match updated_item with
  | None => ret (HttpError 404 "Item not found")
  | Some r => ret (item_out r)
  end.

Definition delete_item_route (item_id : string) : M Response :=
  success <- delete_item item_id ;;
  if success then ret (Ok200 (BMessage "Item deleted successfully"))
  else ret (HttpError 404 "Item not found").

Definition get_item_with_status (item_id : string) : M Response :=
  db_item <- get_item item_id ;;
  match db_item with
  | None => ret (HttpError 404 "Item not found")
  | Some i =>
      db_status <- get_status item_id ;;
      match ItemWithStatusResponse.validate i db_status with
      | Some v => ret (Ok200 (BFull v))
      | None => ret (ServerError ResponseValidationError)
      end
  end.

Definition search_items_route (name category : option string) (min_price max_price : option Q)
    : M Response :=
  l <- search_items name category min_price max_price ;; ret (items_out l).

(** *** status.py *)

Definition create_item_status_route (item_id : string) (status : StatusCreate.t) (now : Z)
    : M Response :=
  db_item <- get_item item_id ;;
  match db_item with
  | None => ret (HttpError 404 "Item not found")
  | Some _ =>
      existing_status <- get_status item_id ;;
      match existing_status with
      | Some _ => ret (HttpError 400 "Status already exists for this item")
      | None => s <- create_status item_id now status ;; ret (status_out s)
      end
  end.

Definition get_item_status_route (item_id : string) : M Response :=
  db_status <- get_status item_id ;;
  match db_status with
  | None => ret (HttpError 404 "Status not found for this item")
  | Some s => ret (status_out s)
  end.

Definition update_item_status_route (item_id : string) (status : StatusUpdate.t) (now : Z)
    : M Response :=
  updated_status <- update_status item_id status now ;;
  match updated_status with
  | None => ret (HttpError 404 "Status not found for this item")
  | Some s => ret (status_out s)
  end.

Definition delete_item_status_route (item_id : string) : M Response :=
  success <- delete_status item_id ;;
  if success then ret (Ok200 (BMessage "Item status deleted successfully"))
  else ret (HttpError 404 "Status not found for this item").

Definition sell_item_route (item_id : string) (quantity : Z) (now : Z) : M Response :=
  result <- sell_item item_id quantity now ;;
  match result with
  | None => ret (HttpError 400 "Item status not found or insufficient stock")
  | Some s => ret (status_out s)
  end.

Definition restock_item_route (item_id : string) (quantity : Z) (now : Z) : M Response :=
  result <- restock_item item_id quantity now ;;
  match result with
  | None => ret (HttpError 404 "Item status not found")
  | Some s => ret (status_out s)
  end.

(** *** inventory.py *)

Definition get_low_stock_items_route (threshold : Z) : M Response :=
  l <- get_low_stock_items threshold ;; ret (items_out l).

Definition get_top_sellers_route (limit : Z) : M Response :=
  l <- get_top_sellers limit ;; ret (items_out l).

(** [func.sum(col)] skips NULLs and is NULL on no value; [or 0]. *)
Definition sum_col (f : ItemStatus.t -> option Z) (l : list ItemStatus.t) : Z :=
  foldr (fun s acc => match f s with Some z => (z + acc)%Z | None => acc end) 0%Z l.

(** Lines 28-44: the cutoff 10 is fixed, independent of the low-stock
    route's [threshold]. *)
Definition summary (db : Db) : Summary :=
  mkSummary (Z.of_nat (length (items db))) (Z.of_nat (length (item_status db)))
    (sum_col ItemStatus.stock (item_status db)) (sum_col ItemStatus.total_sell (item_status db))
    (Z.of_nat (length (List.filter (stock_le 10) (item_status db)))).

Definition inventory_summary_route : M Response :=
  s <- query summary ;; ret (Ok200 (BSummary s)).

(** ** The API *)

Inductive Request :=
  | CreateItem (item : ItemCreate.t)
  | ReadAllItems (skip limit : Z)
  | ReadItem (item_id : string)
  | UpdateItem (item_id : string) (item : ItemUpdate.t)
  | DeleteItem (item_id : string)
  | ItemFull (item_id : string)
  | SearchItems (name category : option string) (min_price max_price : option Q)
  | CreateStatus (item_id : string) (status : StatusCreate.t)
  | GetStatus (item_id : string)
  | UpdateStatus (item_id : string) (status : StatusUpdate.t)
  | DeleteStatus (item_id : string)
  | Sell (item_id : string) (quantity : Z)
  | Restock (item_id : string) (quantity : Z)
  | LowStock (threshold : Z)
  | TopSellers (limit : Z)
  | InventorySummary.

(** [fresh] is the id [generate_id] returns, [now] the clock. *)
Definition handle (fresh : string) (now : Z) (req : Request) : M Response :=
  match req with
  | CreateItem item => create_item_route fresh now item
  | ReadAllItems skip limit => read_all_items skip limit
  | ReadItem k => read_item k
  | UpdateItem k item => update_item_route k item now
  | DeleteItem k => delete_item_route k
  | ItemFull k => get_item_with_status k
  | SearchItems n c lo hi => search_items_route n c lo hi
  | CreateStatus k st => create_item_status_route k st now
  | GetStatus k => get_item_status_route k
  | UpdateStatus k st => update_item_status_route k st now
  | DeleteStatus k => delete_item_status_route k
  | Sell k q => sell_item_route k q now
  | Restock k q => restock_item_route k q now
  | LowStock t => get_low_stock_items_route t
  | TopSellers l => get_top_sellers_route l
  | InventorySummary => inventory_summary_route
  end.

(** One request: an uncaught exception is HTTP 500, and the session is
    rolled back. *)
Definition serve (fresh : string) (now : Z) (req : Request) (db : Db) : Response * Db :=
  match handle fresh now req db with
  | inl f => (ServerError f, db)
  | inr (resp, db') => (resp, db')
  end.

Definition empty_db : Db := mkDb [] [].

(** A sequence of requests, each with the id [generate_id] returns and
    the clock, served one after the other: the answers and the state
    left.  Generic in the request type, for the other versions of the
    application. *)
Fixpoint run {Q R} (srv : string -> Z -> Q -> Db -> R * Db)
    (reqs : list (string * Z * Q)) (db : Db) : list R * Db :=
  match reqs with
  | [] => ([], db)
  | (fresh, now, req) :: reqs' =>
      let rd := srv fresh now req db in
      let rest := run srv reqs' rd.2 in
      (rd.1 :: rest.1, rest.2)
  end.

Inductive step : Db -> Db -> Prop :=
  | step_serve fresh now req db : step db (serve fresh now req db).2.

Inductive reachable : Db -> Prop :=
  | reachable_empty : reachable empty_db
  | reachable_step db db' : reachable db -> step db db' -> reachable db'.

(** ** Counters stay non-negative for well-behaved clients *)

Definition opt_nonneg (o : option Z) : Prop :=
  match o with Some z => (0 <= z)%Z | None => True end.

Definition row_nonneg (s : ItemStatus.t) : Prop :=
  opt_nonneg (ItemStatus.total_sell s) /\ opt_nonneg (ItemStatus.stock s).

Definition counters_nonneg (db : Db) : Prop := Forall row_nonneg (item_status db).

Definition field_nonneg (f : field Z) : Prop :=
  match f with SetTo (Some z) => (0 <= z)%Z | _ => True end.

(** Requests whose quantities spec.md 3 and 4.2 allow: no negative
    stock or sales in a payload, sell and restock by a positive amount. *)
Definition good_request (req : Request) : Prop :=
  match req with
  | CreateItem item => opt_nonneg (ItemCreate.stock item)
  | CreateStatus _ st => (0 <= StatusCreate.total_sell st)%Z /\ (0 <= StatusCreate.stock st)%Z
  | UpdateStatus _ u => field_nonneg (StatusUpdate.total_sell u) /\ field_nonneg (StatusUpdate.stock u)
  | Sell _ q => (0 < q)%Z
  | Restock _ q => (0 < q)%Z
  | _ => True
  end.

Inductive reachable_good : Db -> Prop :=
  | reachable_good_empty : reachable_good empty_db
  | reachable_good_step fresh now req db :
      reachable_good db -> good_request req -> reachable_good (serve fresh now req db).2.

(** The sum the summary reports for stock plus sales, row by row. *)
Definition weight (s : ItemStatus.t) : Z :=
  (default 0 (ItemStatus.stock s) + default 0 (ItemStatus.total_sell s))%Z.

(** ** Response models *)

(** The shape of a body: the [response_model] of a route decorator, or
    the dict a route without one returns. *)
Inductive BodyType := TItem | TItems | TStatus | TFull | TMessage | TSummary.

Definition body_type (b : Body) : BodyType :=
  match b with
  | BItem _ => TItem | BItems _ => TItems | BStatus _ => TStatus
  | BFull _ => TFull | BMessage _ => TMessage | BSummary _ => TSummary
  end.

(** The [response_model] of each route (items.py, status.py,
    inventory.py); [delete] and the summary return a dict. *)
Definition response_model (req : Request) : BodyType :=
  match req with
  | CreateItem _ | ReadItem _ | UpdateItem _ _ => TItem
  | ReadAllItems _ _ | SearchItems _ _ _ _ | LowStock _ | TopSellers _ => TItems
  | ItemFull _ => TFull
  | CreateStatus _ _ | GetStatus _ | UpdateStatus _ _ | Sell _ _ | Restock _ _ => TStatus
  | DeleteItem _ | DeleteStatus _ => TMessage
  | InventorySummary => TSummary
  end.

(** The status codes of the [HTTPException]s each route raises. *)
Definition error_codes (req : Request) : list Z :=
  match req with
  | ReadItem _ | UpdateItem _ _ | DeleteItem _ | ItemFull _ | GetStatus _ | UpdateStatus _ _
  | DeleteStatus _ | Restock _ _ => [404%Z]
  | CreateStatus _ _ => [404%Z; 400%Z]
  | Sell _ _ => [400%Z]
  | _ => []
  end.

(** A response a route may give: a body of its response model, one of
    its own HTTP errors, or a server error. *)
Definition well_typed (req : Request) (r : Response) : Prop :=
  match r with
  | Ok200 b => body_type b = response_model req
  | HttpError c _ => c ∈ error_codes req
  | ServerError _ => True
  end.

(** ** Running a handler symbolically *)

#[local] Arguments commit : simpl never.
#[local] Arguments lookup_by : simpl never.
#[local] Arguments ItemResponse.validate : simpl never.
#[local] Arguments ItemResponse.validate_list : simpl never.
#[local] Arguments StatusResponse.validate : simpl never.
#[local] Arguments ItemWithStatusResponse.validate : simpl never.
#[local] Arguments search_items : simpl never.
#[local] Arguments get_items : simpl never.
#[local] Arguments get_top_sellers : simpl never.
#[local] Arguments get_low_stock_items : simpl never.

(** The queries of the item list, search and inventory routes write nothing. *)
Lemma readonly_queries db db' :
  (forall skip limit l, get_items skip limit db = inr (l, db') -> db' = db) /\
  (forall n c lo hi l, search_items n c lo hi db = inr (l, db') -> db' = db) /\
  (forall t l, get_low_stock_items t db = inr (l, db') -> db' = db) /\
  (forall lim l, get_top_sellers lim db = inr (l, db') -> db' = db).
Proof.
  split; [|split; [|split]].
  - intros skip limit l. unfold get_items. destruct (_ || _)%Z; [done|]. by intros [= _ <-].
  - intros n c lo hi l. unfold search_items, bind, query. simpl.
    destruct (filter_sql _ _); [by intros [= _ <-]|done].
  - intros t l. by intros [= _ <-].
  - intros lim l. unfold get_top_sellers. destruct (lim <? 0)%Z; [done|]. by intros [= _ <-].
Qed.

(** [crunch H] takes [H : handler ... db = inr (resp, db')] apart into
    one goal per path through the handler, with the committed state
    rewritten by [commit_wf]. *)
Ltac crunch H :=
  unfold handle, create_item_route, read_all_items, read_item, update_item_route,
    delete_item_route, get_item_with_status, search_items_route, create_item_status_route,
    get_item_status_route, update_item_status_route, delete_item_status_route,
    sell_item_route, restock_item_route, get_low_stock_items_route, get_top_sellers_route,
    inventory_summary_route, create_item, update_item, delete_item, get_item,
    create_status, get_status, update_status, delete_status, sell_item, restock_item,
    bind, ret, query, throw in H;
  repeat (simpl in H; first
    [ discriminate H
    | match type of H with
      | inr (_, _) = inr (_, _) => injection H as ? H; subst
      | context [match commit ?f ?d with _ => _ end] =>
          let Hc := fresh "Hc" in
          destruct (commit f d) as [?|[[] ?]] eqn:Hc;
          [|apply commit_wf in Hc as [-> ?]]
      | context [match ?x with _ => _ end] =>
          lazymatch x with
          | context [match _ with _ => _ end] => fail
          | _ => let E := fresh "E" in destruct x eqn:E
          end
      | (let _ := _ in _) = _ => cbv zeta in H
      end ]);
  repeat match goal with
    | E : get_items _ _ _ = inr (_, _) |- _ => apply (proj1 (readonly_queries _ _)) in E; subst
    | E : search_items _ _ _ _ _ = inr (_, _) |- _ =>
        apply (proj1 (proj2 (readonly_queries _ _))) in E; subst
    | E : get_low_stock_items _ _ = inr (_, _) |- _ =>
        apply (proj1 (proj2 (proj2 (readonly_queries _ _)))) in E; subst
    | E : get_top_sellers _ _ = inr (_, _) |- _ =>
        apply (proj2 (proj2 (proj2 (readonly_queries _ _)))) in E; subst
    end.

(** The monad-level facts the invariants use. *)
Lemma serve_cases fresh now req db :
  (serve fresh now req db).2 = db \/
  exists resp, handle fresh now req db = inr (resp, (serve fresh now req db).2).
Proof.
  unfold serve. destruct (handle fresh now req db) as [f|[resp db']]; simpl; eauto.
Qed.

(** ** Invariants of reachable states *)

(** One request keeps the schema's constraints: [commit] only accepts
    a state that satisfies them, and a failed request keeps the old one. *)
Lemma serve_wf fresh now req db : db_wf db -> db_wf (serve fresh now req db).2.
Proof.
  intros Hwf. destruct (serve_cases fresh now req db) as [->|[resp H]]; [done|].
  set (db'' := (serve fresh now req db).2) in H |- *. clearbody db''.
  destruct req; crunch H; done.
Qed.

(** Every state reachable by any sequence of requests satisfies the
    schema's constraints: keys unique, every status row belongs to an
    existing item (the one-to-one relationship of spec.md 3), values in
    their column ranges. *)
Theorem reachable_wf db : reachable db -> db_wf db.
Proof.
  induction 1 as [|db db' Hr IH Hs].
  - split; [split; [constructor|split; constructor]|done].
  - inversion Hs as [fresh now req db0]. subst. by apply serve_wf.
Qed.

Lemma apply_field_nonneg f o : field_nonneg f -> opt_nonneg o -> opt_nonneg (apply_field f o).
Proof. destruct f as [|[]]; done. Qed.

Lemma counters_nonneg_update db k g :
  counters_nonneg db ->
  (forall r, r ∈ item_status db -> ItemStatus.id r = k -> row_nonneg r -> row_nonneg (g r)) ->
  counters_nonneg (set_status (update_by ItemStatus.id k g) db).
Proof.
  unfold counters_nonneg. intros Hc Hg. simpl. apply Forall_update_by; [done|].
  intros r Hr Hk. apply Hg; [done|done|]. rewrite list.Forall_forall in Hc. by apply Hc.
Qed.

(** A well-behaved request keeps every counter non-negative. *)
Lemma serve_nonneg fresh now req db :
  counters_nonneg db -> good_request req -> counters_nonneg (serve fresh now req db).2.
Proof.
  intros IH Hg. destruct (serve_cases fresh now req db) as [->|[resp H]]; [done|].
  set (db'' := (serve fresh now req db).2) in H |- *. clearbody db''.
  destruct req; simpl in Hg; crunch H; try done; try (by apply Forall_delete_by).
  - (* create_item *)
    unfold counters_nonneg. simpl. apply Forall_app. split; [done|].
    apply Forall_singleton. split; [cbn; lia|].
    destruct (ItemCreate.stock item) eqn:E; cbn; rewrite E; cbn in *; lia.
  - (* create_status *)
    unfold counters_nonneg. simpl. apply Forall_app. split; [done|].
    apply Forall_singleton. destruct Hg. split; cbn; lia.
  - (* update_status *)
    apply counters_nonneg_update; [done|]. intros r _ _ [H1 H2].
    destruct Hg. split; by apply apply_field_nonneg.
  - (* sell *)
    apply Z.ltb_ge in E1. apply counters_nonneg_update; [done|]. intros r' _ _ _.
    apply lookup_by_Some in E as [_ Hin]. unfold counters_nonneg in IH.
    rewrite list.Forall_forall in IH. destruct (IH _ Hin) as [Hts _]. rewrite E2 in Hts.
    simpl in Hts. split; simpl; lia.
  - (* restock *)
    apply counters_nonneg_update; [done|]. intros r' _ _ _.
    apply lookup_by_Some in E as [_ Hin]. unfold counters_nonneg in IH.
    rewrite list.Forall_forall in IH. destruct (IH _ Hin) as [Hts Hst]. rewrite E0 in Hst.
    simpl in Hst. split; [done|simpl; lia].
Qed.

(** C10: when every request is well-behaved, no status row ever holds a
    negative [stock] or [total_sell]: sell takes at most the stock,
    restock and payloads only add. *)
Theorem reachable_good_nonneg db : reachable_good db -> counters_nonneg db.
Proof.
  induction 1 as [|fresh now req db Hr IH Hg]; [constructor|]. by apply serve_nonneg.
Qed.

(** ** Behaviour of single routes *)

(** C24: [GET /items/{id}/full] of an existing item without status row
    fails with a server error: [ItemWithStatusResponse.status] is not
    [Optional], while spec.md 4.4 says the status is returned as null. *)
Theorem full_view_without_status fresh now db k i :
  lookup_by ItemModel.id k (items db) = Some i ->
  lookup_by ItemStatus.id k (item_status db) = None ->
  serve fresh now (ItemFull k) db = (ServerError ResponseValidationError, db).
Proof.
  intros Hi Hs. unfold serve, handle, get_item_with_status, get_item, get_status, bind, query, ret.
  cbv beta. rewrite Hi, Hs.
  assert (ItemWithStatusResponse.validate i None = None) as ->; [|done].
  unfold ItemWithStatusResponse.validate. by destruct (ItemResponse.validate i).
Qed.

(** C25: [PUT /items/{id}] with ["name": null] is committed (the column is
    nullable), the response fails validation, and from then on reading
    that item fails too: one request leaves the item unreadable. *)
Theorem null_name_poisons_reads fresh now now' db k r :
  db_wf db -> lookup_by ItemModel.id k (items db) = Some r ->
  let upd := ItemUpdate.mk (SetTo None) Unset Unset Unset in
  exists db', serve fresh now (UpdateItem k upd) db = (ServerError ResponseValidationError, db') /\
    db_wf db' /\ serve fresh now' (ReadItem k) db' = (ServerError ResponseValidationError, db').
Proof.
  intros Hwf Hr upd.
  pose proof (item_row_ok_lookup db Hwf k r Hr) as Hok.
  destruct (update_item_found db Hwf k upd now r Hr) as [Hu Hwf'].
  { unfold item_row_ok in *. apply andb_true_iff in Hok as [_ Hc]. done. }
  eexists. split; [|split; [exact Hwf'|]].
  - unfold serve, handle, update_item_route, bind at 1. rewrite Hu. done.
  - unfold serve, handle, read_item, get_item, query, bind at 1. simpl.
    by rewrite lookup_by_update_by_eq, Hr.
Qed.

Lemma sum_col_weight l :
  (sum_col ItemStatus.stock l + sum_col ItemStatus.total_sell l = foldr (fun s acc => weight s + acc) 0 l)%Z.
Proof.
  unfold sum_col. induction l as [|s l IH]; [done|]. cbn [foldr].
  change (weight s) with (default 0 (ItemStatus.stock s) + default 0 (ItemStatus.total_sell s))%Z.
  rewrite <- IH. destruct (ItemStatus.stock s), (ItemStatus.total_sell s); cbn [default id]; lia.
Qed.

Lemma foldr_weight_update_by k g l :
  (forall x, x ∈ l -> ItemStatus.id x = k -> weight (g x) = weight x) ->
  foldr (fun s acc => weight s + acc)%Z 0%Z (update_by ItemStatus.id k g l) =
  foldr (fun s acc => weight s + acc)%Z 0%Z l.
Proof.
  induction l as [|x l IH]; intros Hg; simpl; [done|].
  rewrite IH by (intros y Hy; apply Hg; by apply elem_of_cons; right).
  case_bool_decide; [|done]. rewrite Hg; [done| by apply elem_of_cons; left|done].
Qed.

(** C33: A successful sell leaves [total_stock + total_sales] of the
    inventory summary unchanged: units move from stock to sales. *)
Theorem sell_conserves_summary db k q now r' db' :
  db_wf db -> sell_item k q now db = inr (Some r', db') ->
  (total_stock (summary db') + total_sales (summary db') =
   total_stock (summary db) + total_sales (summary db))%Z.
Proof.
  intros Hwf Hs.
  destruct (sell_item_success db k q now r' db' Hs) as (r & st & ts & Hr & Hst & Hts & _ & -> & ->).
  unfold summary. simpl. rewrite !sum_col_weight. apply foldr_weight_update_by.
  intros x Hx Hk. rewrite (status_row_unique db Hwf k r x Hr Hx Hk).
  unfold weight. simpl. rewrite Hst, Hts. simpl. lia.
Qed.

(** ** Responses conform to the routes' declarations *)

(** Every answer of the application to any request on any database
    conforms to the route's declaration: a 200 carries a body of the
    route's [response_model] (or the dict it returns), an HTTP error
    has one of the codes the route raises, anything else is a 500. *)
Theorem serve_well_typed fresh now req db : well_typed req (serve fresh now req db).1.
Proof.
  unfold serve. destruct (handle fresh now req db) as [f|[resp db']] eqn:H; [done|]. simpl.
  destruct req; crunch H;
    unfold well_typed, item_out, items_out, status_out; repeat case_match; simplify_eq/=;
    first [reflexivity | done | apply (bool_decide_unpack _); reflexivity].
Qed.

(** ** Witnesses *)

Lemma reachable_wf_witness : db_wf (serve "n" 1 (CreateItem sample_create) empty_db).2.
Proof.
  apply reachable_wf. eapply reachable_step; [apply reachable_empty|]. apply step_serve.
Defined.

Lemma reachable_good_nonneg_witness : counters_nonneg (serve "n" 1 (CreateItem sample_create) empty_db).2.
Proof.
  apply reachable_good_nonneg. apply reachable_good_step; [apply reachable_good_empty|].
  simpl. lia.
Defined.

Lemma full_view_without_status_witness :
  serve "x" 7 (ItemFull "b") sample_db = (ServerError ResponseValidationError, sample_db).
Proof. exact (full_view_without_status "x" 7 sample_db "b" (sample_item "b") eq_refl eq_refl). Defined.

Lemma null_name_poisons_reads_witness :
  exists db',
    serve "x" 7 (UpdateItem "a" (ItemUpdate.mk (SetTo None) Unset Unset Unset)) sample_db =
      (ServerError ResponseValidationError, db') /\
    serve "x" 8 (ReadItem "a") db' = (ServerError ResponseValidationError, db').
Proof.
  destruct (null_name_poisons_reads "x" 7 8 sample_db "a" (sample_item "a") sample_db_wf eq_refl)
    as (db' & H1 & _ & H2).
  eauto.
Defined.

Lemma sell_conserves_summary_witness :
  (total_stock (summary sample_db_sold) + total_sales (summary sample_db_sold) =
   total_stock (summary sample_db) + total_sales (summary sample_db))%Z.
Proof. exact (sell_conserves_summary sample_db "a" 2 7 _ _ sample_db_wf sample_sell_run). Defined.

End Routes.
