(* ===== verification/Scenarios.v ===== *)
(** * The scenarios of spec.md 8, replayed on the model

    Each example runs a sequence of requests through [Routes.serve] from
    a concrete database and evaluates the result by computation.  Where
    the code and spec.md 8 disagree, the statement is what the code does
    and the comment says what the spec expects. *)

From Stdlib Require Import String.
From S2P Require Import Prelude Models Schemas ItemsCrud StatusCrud Routes.

Import Routes.

Module Scenarios.

(** Item A of spec.md 8: price 9.99, stock 5. *)
Definition item_a : ItemCreate.t := ItemCreate.mk "A" None (999 # 100) "tools" (Some 5%Z).

(** The database after [POST /items/] with A, id "a", at time 1. *)
Definition db_a : Db := (serve "a" 1 (CreateItem item_a) empty_db).2.

Definition status_of (k : string) (db : Db) : option (option Z * option Z) :=
  (fun s => (ItemStatus.total_sell s, ItemStatus.stock s)) <$> lookup_by ItemStatus.id k (item_status db).

(** Three items with status stocks 5, 15 and 8. *)
Definition db_three : Db :=
  let mk k s := ItemCreate.mk k None 1 "c" (Some s) in
  (serve "c" 1 (CreateItem (mk "C" 8%Z))
    (serve "b" 1 (CreateItem (mk "B" 15%Z))
      (serve "a" 1 (CreateItem (mk "A" 5%Z)) empty_db).2).2).2.

(** The example scenario: create A with stock 5, sell 3 (stock 2,
    total_sell 3), restock 10 (stock 12); every response is 200. *)
Example example_scenario :
  let r1 := serve "x" 2 (Sell "a" 3) db_a in
  let r2 := serve "x" 3 (Restock "a" 10) r1.2 in
  status_of "a" r1.2 = Some (Some 3%Z, Some 2%Z) /\
  status_of "a" r2.2 = Some (Some 3%Z, Some 12%Z) /\
  (exists s1 s2, r1.1 = Ok200 (BStatus s1) /\ r2.1 = Ok200 (BStatus s2)).
Proof. vm_compute. split; [done|]. split; [done|]. eauto. Qed.

(** Selling exactly the stock empties it; selling one more right
    after is rejected with 400 and changes nothing (spec.md 8). *)
Example sell_to_zero_then_reject :
  let r1 := serve "x" 2 (Sell "a" 5) db_a in
  let r2 := serve "x" 3 (Sell "a" 1) r1.2 in
  status_of "a" r1.2 = Some (Some 5%Z, Some 0%Z) /\
  r2 = (HttpError 400 "Item status not found or insufficient stock", r1.2).
Proof. vm_compute. split; reflexivity. Qed.

(** Spec.md 8 says [restock(id, 0)] and [restock(id, -5)] are
    rejected with the stock unchanged; the code accepts both with 200,
    and -5 lowers the stock from 5 to 0. *)
Example restock_nonpositive_accepted :
  let r1 := serve "x" 2 (Restock "a" 0) db_a in
  let r2 := serve "x" 3 (Restock "a" (-5)) r1.2 in
  (exists s, r1.1 = Ok200 (BStatus s)) /\ (exists s, r2.1 = Ok200 (BStatus s)) /\
  status_of "a" r2.2 = Some (Some 0%Z, Some 0%Z).
Proof. vm_compute. split; [eauto|]. split; [eauto|done]. Qed.

(** The inventory summary of three items with status stocks 5, 15
    and 8: 3 items, 3 status rows, total stock 28, no sales, and 2
    items at or below the fixed cutoff 10. *)
Example summary_three_items :
  serve "x" 2 InventorySummary db_three = (Ok200 (BSummary (mkSummary 3 3 28 0 2)), db_three).
Proof. vm_compute. reflexivity. Qed.

(** [top_sellers] ranks an item whose [total_sell] was set to NULL
    (by [PUT /items/{id}/status/] with ["total_sell": null]) above an
    item with sales: PostgreSQL's DESC order puts NULLs first. *)
Example top_sellers_null_first :
  let db1 := (serve "x" 2 (Sell "a" 3) db_three).2 in
  let db2 := (serve "x" 3 (UpdateStatus "b" (StatusUpdate.mk (SetTo None) Unset)) db1).2 in
  exists l, StatusCrud.get_top_sellers 2 db2 = inr (l, db2) /\ ItemModel.id <$> l = ["b"; "a"]%string.
Proof. simpl. eexists. split; [vm_compute; reflexivity|]. vm_compute. reflexivity. Qed.

End Scenarios.
