(* ===== verification/Concurrency.v ===== *)
(** * Concurrent sells (spec.md 5)

    [sell_item] (src/app/crud/status_crud.py, lines 46-60) loads the
    status row, checks [stock < quantity] in Python, assigns the new
    counters to the ORM object and commits; SQLAlchemy then issues
    [UPDATE item_status SET stock = :v1, total_sell = :v2, updated_at = :v3
    WHERE id = :k] with the values computed in Python.  No row lock is
    taken at the read.  Under PostgreSQL's default READ COMMITTED level a
    second UPDATE of the row waits for the first to commit and then
    writes its own values.

    A request is a [thread] in one of three phases; [cstep] moves one
    thread: [Start] to [Loaded] (the SELECT and the check), [Loaded] to
    [Finished] (the UPDATE and commit).  Any interleaving of the threads
    is an execution ([rtc cstep]).  [lstep] restricts the steps to the
    executions in which at most one sell of each item is between its
    SELECT and its UPDATE, which a row lock would enforce; [sold]
    counts the units the answered sells took. *)

From Stdlib Require Import String.
From stdpp Require Import relations.
From S2P Require Import Prelude Models Schemas StatusCrud.

Module Concurrency.

Inductive phase :=
  | Start
  | Loaded (stock total_sell : Z)
  | Finished (sold : bool).

Record thread := mkThread {
  t_item : string;
  t_qty : Z;
  t_now : Z;
  t_phase : phase
}.

Definition set_phase (t : thread) (p : phase) : thread :=
  mkThread (t_item t) (t_qty t) (t_now t) p.

Definition world : Type := Db * list thread.

(** The counters a thread writes back. *)
Definition written (t : thread) (st ts : Z) : ItemStatus.t -> ItemStatus.t :=
  StatusCrud.with_counters (Some (ts + t_qty t)%Z) (Some (st - t_qty t)%Z) (t_now t).

Definition write_db (t : thread) (st ts : Z) (db : Db) : Db :=
  set_status (update_by ItemStatus.id (t_item t) (written t st ts)) db.

Inductive cstep : world -> world -> Prop :=
  (** SELECT and the [stock < quantity] check. *)
  | cstep_load db ts i t r st tsell :
      ts !! i = Some t -> t_phase t = Start ->
      lookup_by ItemStatus.id (t_item t) (item_status db) = Some r ->
      ItemStatus.stock r = Some st -> ItemStatus.total_sell r = Some tsell ->
      cstep (db, ts)
        (db, <[i := set_phase t (if (st <? t_qty t)%Z then Finished false else Loaded st tsell)]> ts)
  (** No status row: the route answers 400. *)
  | cstep_missing db ts i t :
      ts !! i = Some t -> t_phase t = Start ->
      lookup_by ItemStatus.id (t_item t) (item_status db) = None ->
      cstep (db, ts) (db, <[i := set_phase t (Finished false)]> ts)
  (** UPDATE with the values computed from the snapshot, and commit. *)
  | cstep_write db ts i t st tsell :
      ts !! i = Some t -> t_phase t = Loaded st tsell ->
      db_wf (write_db t st tsell db) ->
      cstep (db, ts) (write_db t st tsell db, <[i := set_phase t (Finished true)]> ts)
  (** A NULL counter: the comparison or the [+=] raises, or the check fails. *)
  | cstep_null db ts i t r :
      ts !! i = Some t -> t_phase t = Start ->
      lookup_by ItemStatus.id (t_item t) (item_status db) = Some r ->
      ItemStatus.stock r = None \/ ItemStatus.total_sell r = None ->
      cstep (db, ts) (db, <[i := set_phase t (Finished false)]> ts)
  (** The commit is rejected (a value out of range): nothing is written. *)
  | cstep_write_fail db ts i t st tsell :
      ts !! i = Some t -> t_phase t = Loaded st tsell ->
      ~ db_wf (write_db t st tsell db) ->
      cstep (db, ts) (db, <[i := set_phase t (Finished false)]> ts).

Definition stock_ok (s : ItemStatus.t) : Prop :=
  match ItemStatus.stock s with Some z => (0 <= z)%Z | None => True end.

(** A loaded thread saw enough stock for its quantity. *)
Definition thread_ok (t : thread) : Prop :=
  match t_phase t with Loaded st _ => (t_qty t <= st)%Z | _ => True end.

Definition world_ok (w : world) : Prop :=
  Forall stock_ok (item_status w.1) /\ Forall thread_ok w.2.

(** ** Termination and progress *)

(** The database steps a thread has still to take. *)
Definition steps_left (t : thread) : nat :=
  match t_phase t with Start => 2 | Loaded _ _ => 1 | Finished _ => 0 end.

Definition pending (w : world) : nat := sum_list (steps_left <$> w.2).

Definition finished (t : thread) : bool :=
  match t_phase t with Finished _ => true | _ => false end.

(** ** Sells of an item that do not overlap *)

(** A thread of item [k] between its SELECT and its UPDATE. *)
Definition loaded_on (k : string) (t : thread) : Prop :=
  t_item t = k /\ exists st ts, t_phase t = Loaded st ts.

(** At most one sell of each item is between its SELECT and its
    UPDATE: the executions a row lock on the status row
    ([with_for_update()]) would allow. *)
Definition serial (w : world) : Prop :=
  forall k i j ti tj, w.2 !! i = Some ti -> w.2 !! j = Some tj ->
    loaded_on k ti -> loaded_on k tj -> i = j.

Inductive lstep : world -> world -> Prop :=
  | lstep_intro w w' : cstep w w' -> serial w' -> lstep w w'.

(** The units of item [k] the answered sells took. *)
Definition sold_by (k : string) (t : thread) : Z :=
  if bool_decide (t_item t = k) then
    match t_phase t with Finished true => t_qty t | _ => 0%Z end
  else 0%Z.

Definition sold (k : string) (ts : list thread) : Z := sum_with (sold_by k) ts.

(** The status row of [k] records the sells answered so far, and the
    thread of [k] that has loaded saw that row. *)
Definition recorded (k : string) (st0 ts0 : Z) (w : world) : Prop :=
  (exists r, lookup_by ItemStatus.id k (item_status w.1) = Some r /\
     ItemStatus.stock r = Some (st0 - sold k w.2)%Z /\
     ItemStatus.total_sell r = Some (ts0 + sold k w.2)%Z) /\
  (forall i t st ts, w.2 !! i = Some t -> t_item t = k -> t_phase t = Loaded st ts ->
     st = (st0 - sold k w.2)%Z /\ ts = (ts0 + sold k w.2)%Z).

(** A status row with 5 in stock and no sales, and two requests
    selling 5 each. *)
Definition lost_db : Db :=
  mkDb [ItemModel.mk "a" (Some "A") None (Some 1%Q) (Some "c") 0 0]
       [ItemStatus.mk "a" (Some 0%Z) (Some 5%Z) 0 0].
Definition t1 : thread := mkThread "a" 5 1 Start.
Definition t2 : thread := mkThread "a" 5 2 Start.

(** The two sells of [lost_db] one after the other: the first sells
    the 5 units, the second finds none left. *)
Definition serial_end : world :=
  (write_db (set_phase t1 (Loaded 5 0)) 5 0 lost_db,
   [set_phase (set_phase t1 (Loaded 5 0)) (Finished true); set_phase t2 (Finished false)]).

(** ** A sequential sell is a one-thread execution *)

(** Every outcome of [sell_item] is an execution of the interleaved
    model with one thread: the model refines the sequential code. *)
Theorem sell_item_is_execution db k q now res db' :
  StatusCrud.sell_item k q now db = inr (res, db') ->
  rtc cstep (db, [mkThread k q now Start])
            (db', [mkThread k q now (Finished (bool_decide (is_Some res)))]).
Proof.
  set (t := mkThread k q now Start).
  destruct (lookup_by ItemStatus.id k (item_status db)) as [r|] eqn:Hr.
  2: { unfold StatusCrud.sell_item, StatusCrud.get_status, bind, query. cbv beta. rewrite Hr.
       intros [= <- <-]. apply rtc_once. by apply (cstep_missing db [t] 0 t). }
  rewrite (StatusCrud.sell_item_found db k q now r Hr).
  destruct (ItemStatus.stock r) as [st|] eqn:Hst; [|done].
  destruct (Z.ltb st q) eqn:Hlt.
  { intros [= <- <-].
    destruct (ItemStatus.total_sell r) as [tsell|] eqn:Hts.
    - apply rtc_once. pose proof (cstep_load db [t] 0 t r st tsell eq_refl eq_refl Hr Hst Hts) as Hs.
      simpl in Hs. by rewrite Hlt in Hs.
    - apply rtc_once. apply (cstep_null db [t] 0 t r); auto. }
  destruct (ItemStatus.total_sell r) as [tsell|] eqn:Hts; [|done].
  unfold bind. destruct (commit _ db) as [|[[] db1]] eqn:Hc; [done|].
  apply commit_wf in Hc as [-> Hwf']. intros [= <- <-].
  eapply rtc_l.
  { pose proof (cstep_load db [t] 0 t r st tsell eq_refl eq_refl Hr Hst Hts) as Hs.
    simpl in Hs. rewrite Hlt in Hs. exact Hs. }
  apply rtc_once. exact (cstep_write db [set_phase t (Loaded st tsell)] 0 _ st tsell eq_refl eq_refl Hwf').
Qed.

(** ** Interleavings *)

Lemma world_ok_step w w' : world_ok w -> cstep w w' -> world_ok w'.
Proof.
  intros [Hdb Hts] Hs. destruct Hs as [db ts i t r st tsell Hi Hp Hr Hst Htl
    | db ts i t Hi Hp Hr | db ts i t st tsell Hi Hp Hwf | db ts i t r Hi Hp Hr Hn
    | db ts i t st tsell Hi Hp Hwf]; simpl in *;
    (split; [|apply Forall_insert; [done|]]); try done; unfold thread_ok; simpl; try done.
  - destruct (Z.ltb_spec st (t_qty t)); simpl; [done|lia].
  - unfold write_db. simpl. apply Forall_update_by; [done|]. intros x _ _.
    unfold stock_ok. simpl. pose proof (Forall_lookup_1 _ _ _ _ Hts Hi) as Ht.
    unfold thread_ok in Ht. rewrite Hp in Ht. lia.
Qed.

(** C9: in every interleaving of sells, whatever the quantities, no
    status row gets a negative stock: each write-back takes at most
    the stock its own read saw. *)
Theorem interleaving_stock_nonneg w w' : world_ok w -> rtc cstep w w' -> world_ok w'.
Proof. intros Hw Hs. induction Hs; eauto using world_ok_step. Qed.

(** C4: both loads before both writes: the two requests succeed, 10 units
    are sold out of 5, and the row records 5 sales and 0 stock.  The
    second write overwrites the first (a lost update); spec.md 5 and 8
    require that exactly one of the two sells succeeds. *)
Theorem lost_update :
  exists db', rtc cstep (lost_db, [t1; t2])
                        (db', [set_phase t1 (Finished true); set_phase t2 (Finished true)]) /\
    (fun s => (ItemStatus.total_sell s, ItemStatus.stock s)) <$>
      lookup_by ItemStatus.id "a" (item_status db') = Some (Some 5%Z, Some 0%Z).
Proof.
  assert (Hr : lookup_by ItemStatus.id "a" (item_status lost_db) = Some (ItemStatus.mk "a" (Some 0%Z) (Some 5%Z) 0 0))
    by reflexivity.
  eexists. split.
  - eapply rtc_l; [exact (cstep_load lost_db [t1; t2] 0 t1 _ 5 0 eq_refl eq_refl Hr eq_refl eq_refl)|].
    eapply rtc_l; [exact (cstep_load lost_db [set_phase t1 (Loaded 5 0); t2] 1 t2 _ 5 0 eq_refl eq_refl Hr eq_refl eq_refl)|].
    eapply rtc_l; [apply (cstep_write _ _ 0 (set_phase t1 (Loaded 5 0)) 5 0); [done|done|]|].
    { apply (bool_decide_unpack _). vm_compute. reflexivity. }
    eapply rtc_l; [apply (cstep_write _ _ 1 (set_phase t2 (Loaded 5 0)) 5 0); [done|done|]|].
    { apply (bool_decide_unpack _). vm_compute. reflexivity. }
    apply rtc_refl.
  - vm_compute. reflexivity.
Qed.

(** ** Termination and progress *)

Lemma cstep_pending w w' : cstep w w' -> pending w' < pending w.
Proof.
  destruct 1 as [db ts i t r st tsell Hi Hp | db ts i t Hi Hp | db ts i t st tsell Hi Hp
    | db ts i t r Hi Hp | db ts i t st tsell Hi Hp].
  all: apply (sum_list_fmap_insert_lt _ _ i t); [done|];
    destruct t as [? ? ? ph]; cbn in Hp; subst ph; unfold steps_left, set_phase; cbn; repeat case_match; simplify_eq; lia.
Qed.

(** Every interleaving of sells terminates: [cstep] is strongly
    normalising from every world, whatever the database and the
    requests, because each step moves one request one phase forward. *)
Theorem cstep_terminates w : sn cstep w.
Proof.
  remember (pending w) as n eqn:Hn. revert w Hn.
  induction (lt_wf n) as [n _ IH]. intros w ->.
  constructor. intros w' Hs. eapply IH; [apply cstep_pending, Hs|done].
Qed.

Lemma nsteps_pending n w w' : nsteps cstep n w w' -> n + pending w' <= pending w.
Proof. induction 1 as [|n w1 w2 w3 Hs _ IH]; [lia|]. pose proof (cstep_pending _ _ Hs). lia. Qed.

Lemma pending_le w : pending w <= 2 * length w.2.
Proof.
  destruct w as [db ts]. unfold pending. cbn [snd].
  induction ts as [|t ts IH]; [simpl; lia|]. rewrite fmap_cons. cbn [sum_list length].
  unfold steps_left at 1. destruct (t_phase t); cbn -[sum_list fmap]; lia.
Qed.

(** An interleaving of [n] requests takes at most [2 n] database
    steps: one SELECT and at most one UPDATE per request. *)
Theorem cstep_steps_bound n w w' : nsteps cstep n w w' -> n <= 2 * length w.2.
Proof. intros Hs. pose proof (nsteps_pending _ _ _ Hs). pose proof (pending_le w). lia. Qed.

(** No request is ever stuck: a world in which no thread can step is
    exactly one in which every request has finished (answered or
    failed).  With [cstep_terminates], every interleaving ends with
    every request answered. *)
Theorem cstep_nf_finished w : nf cstep w <-> Forall (fun t => finished t = true) w.2.
Proof.
  destruct w as [db ts]. simpl. split.
  - intros Hnf. apply Forall_lookup. intros i t Hi.
    unfold finished. destruct (t_phase t) as [|st tsell|] eqn:Hp; [exfalso; apply Hnf..|done].
    + destruct (lookup_by ItemStatus.id (t_item t) (item_status db)) as [r|] eqn:Hr.
      * destruct (ItemStatus.stock r) as [st|] eqn:Hst;
          [destruct (ItemStatus.total_sell r) as [tsell|] eqn:Hts|].
        -- eexists. exact (cstep_load _ _ _ _ _ _ _ Hi Hp Hr Hst Hts).
        -- eexists. apply (cstep_null _ _ i t r); auto.
        -- eexists. apply (cstep_null _ _ i t r); auto.
      * eexists. by apply (cstep_missing _ _ i t).
    + destruct (decide (db_wf (write_db t st tsell db))).
      * eexists. by apply (cstep_write _ _ i t st tsell).
      * eexists. by apply (cstep_write_fail _ _ i t st tsell).
  - intros Hf [w' Hs]. inversion Hs; subst;
      match goal with
      | Hi : _ !! _ = Some ?t, Hp : t_phase ?t = _ |- _ =>
          pose proof (Forall_lookup_1 _ _ _ _ Hf Hi) as Ht; unfold finished in Ht; by rewrite Hp in Ht
      end.
Qed.

(** ** Sells that do not overlap record every sale *)

Lemma sold_by_unsold k t : t_phase t <> Finished true -> sold_by k t = 0%Z.
Proof. unfold sold_by. intros H. case_bool_decide; [|done]. by destruct (t_phase t) as [| |[]]. Qed.

Lemma sold_insert k ts i t t' :
  ts !! i = Some t -> sold k (<[i := t']> ts) = (sold k ts - sold_by k t + sold_by k t')%Z.
Proof. intros Hi. unfold sold. by rewrite (sum_with_insert _ _ i t). Qed.

(** A step that writes nothing and answers no sell keeps the record,
    provided a thread that loads sees the row of the record. *)
Lemma recorded_quiet k st0 ts0 db ts i t p :
  recorded k st0 ts0 (db, ts) -> ts !! i = Some t -> t_phase t <> Finished true ->
  p <> Finished true ->
  (forall st ts', p = Loaded st ts' -> t_item t = k ->
     st = (st0 - sold k ts)%Z /\ ts' = (ts0 + sold k ts)%Z) ->
  recorded k st0 ts0 (db, <[i := set_phase t p]> ts).
Proof.
  intros [Hrow Hsnap] Hi Ht Hp Hnew. cbn [fst snd] in *.
  assert (E : sold k (<[i := set_phase t p]> ts) = sold k ts).
  { rewrite (sold_insert k ts i t) by done.
    rewrite (sold_by_unsold k t), (sold_by_unsold k (set_phase t p)) by done. lia. }
  split; cbn [fst snd]; rewrite E; [done|].
  intros j tj st ts' Hj Hk Hl. apply list_lookup_insert_Some in Hj as [(<- & <- & _)|[Hij Hj]].
  - by apply Hnew.
  - by apply (Hsnap j tj).
Qed.

Lemma recorded_step k st0 ts0 w w' :
  cstep w w' -> serial w -> recorded k st0 ts0 w -> recorded k st0 ts0 w'.
Proof.
  destruct 1 as [db ts i t r st tsell Hi Hp Hr Hst Htl | db ts i t Hi Hp Hr
    | db ts i t st tsell Hi Hp Hwf | db ts i t r Hi Hp Hr Hn | db ts i t st tsell Hi Hp Hwf];
    intros Hser Hrec; destruct Hrec as [Hrow Hsnap] eqn:Hrec'; clear Hrec'; cbn [fst snd] in *.
  - apply recorded_quiet; [done|done|by rewrite Hp|by destruct (_ <? _)%Z|].
    intros st' ts' Hl Hk. destruct (_ <? _)%Z; [done|]. injection Hl as <- <-.
    destruct Hrow as (r' & Hr' & Hs' & Ht'). rewrite Hk in Hr. rewrite Hr in Hr'.
    injection Hr' as <-. split; congruence.
  - apply recorded_quiet; [done|done|by rewrite Hp|done|done].
  - assert (Esold : sold k (<[i := set_phase t (Finished true)]> ts) =
                     (sold k ts + sold_by k (set_phase t (Finished true)))%Z).
    { rewrite (sold_insert k ts i t) by done. rewrite (sold_by_unsold k t) by (by rewrite Hp). lia. }
    unfold recorded, write_db. cbn [fst snd set_status item_status]. rewrite Esold.
    change (sold_by k (set_phase t (Finished true))) with
      (if bool_decide (t_item t = k) then t_qty t else 0%Z).
    destruct Hrow as (r & Hr & Hs & Ht). case_bool_decide as Hk.
    + destruct (Hsnap i t st tsell Hi Hk Hp) as [-> ->]. split.
      * exists (written t (st0 - sold k ts) (ts0 + sold k ts) r).
        rewrite <- Hk in Hr |- *. rewrite lookup_by_update_by_eq, Hr by apply StatusCrud.with_counters_id.
        split; [done|]. cbn. split; f_equal; lia.
      * intros j tj st' ts' Hj Hkj Hl.
        apply list_lookup_insert_Some in Hj as [(<- & <- & _)|[Hij Hj]]; [done|].
        exfalso. apply Hij. apply (Hser k i j t tj Hi Hj); split; eauto.
    + split.
      * exists r. rewrite lookup_by_update_by_ne by (try apply StatusCrud.with_counters_id; done).
        split; [done|]. rewrite Z.add_0_r. done.
      * intros j tj st' ts' Hj Hkj Hl. rewrite Z.add_0_r.
        apply list_lookup_insert_Some in Hj as [(<- & <- & _)|[Hij Hj]]; [done|].
        by apply (Hsnap j tj).
  - apply recorded_quiet; [done|done|by rewrite Hp|done|done].
  - apply recorded_quiet; [done|done|by rewrite Hp|done|done].
Qed.

Lemma recorded_lsteps k st0 ts0 w w' :
  rtc lstep w w' -> serial w -> recorded k st0 ts0 w -> recorded k st0 ts0 w' /\ serial w'.
Proof.
  induction 1 as [w|w1 w2 w3 Hl _ IH]; [done|]. intros Hser Hrec.
  destruct Hl as [w1 w2 Hs Hser']. apply IH; [done|]. by apply (recorded_step _ _ _ w1).
Qed.

Lemma world_ok_lsteps w w' : rtc lstep w w' -> world_ok w -> world_ok w'.
Proof.
  induction 1 as [w|w1 w2 w3 Hl _ IH]; [done|]. intros Hw.
  destruct Hl as [w1 w2 Hs _]. apply IH. by apply (world_ok_step w1).
Qed.

Lemma sold_start k ts : Forall (fun t => t_phase t = Start) ts -> sold k ts = 0%Z.
Proof.
  unfold sold, sum_with. induction 1 as [|t ts Ht _ IH]; [done|]. cbn [foldr].
  rewrite IH, sold_by_unsold by (by rewrite Ht). done.
Qed.

Lemma recorded_start k r0 st0 ts0 db ts :
  lookup_by ItemStatus.id k (item_status db) = Some r0 ->
  ItemStatus.stock r0 = Some st0 -> ItemStatus.total_sell r0 = Some ts0 ->
  Forall (fun t => t_phase t = Start) ts ->
  recorded k st0 ts0 (db, ts) /\ serial (db, ts).
Proof.
  intros Hr Hst Hts Hf. unfold recorded. cbn [fst snd]. rewrite sold_start by done.
  split; [split|].
  - exists r0. rewrite Z.sub_0_r, Z.add_0_r. done.
  - intros i t st ts' Hi _ Hp. rewrite (Forall_lookup_1 _ _ _ _ Hf Hi) in Hp. done.
  - intros k' i j ti tj Hi _ [_ (? & ? & Hp)] _.
    rewrite (Forall_lookup_1 _ _ _ _ Hf Hi) in Hp. done.
Qed.

(** C8: executions in which no two sells of an item are between their
    SELECT and their UPDATE at once (the executions a row lock such as
    [with_for_update()] would allow) record every sale: from a status
    row with stock [st0] and total_sell [ts0], the row holds
    [st0 - sold] and [ts0 + sold], where [sold] is the sum of the
    quantities of the sells of the item answered 200, and [sold] never
    exceeds [st0].  [lost_update] is an interleaving outside this
    class, where 10 units are answered 200 out of a stock of 5. *)
Theorem serial_sells_recorded k r0 st0 ts0 db ts w :
  lookup_by ItemStatus.id k (item_status db) = Some r0 ->
  ItemStatus.stock r0 = Some st0 -> ItemStatus.total_sell r0 = Some ts0 ->
  Forall stock_ok (item_status db) ->
  Forall (fun t => t_phase t = Start) ts ->
  rtc lstep (db, ts) w ->
  (exists r, lookup_by ItemStatus.id k (item_status w.1) = Some r /\
     ItemStatus.stock r = Some (st0 - sold k w.2)%Z /\
     ItemStatus.total_sell r = Some (ts0 + sold k w.2)%Z) /\
  (sold k w.2 <= st0)%Z.
Proof.
  intros Hr Hst Hts Hok Hf Hsteps.
  destruct (recorded_start k r0 st0 ts0 db ts Hr Hst Hts Hf) as [Hrec Hser].
  destruct (recorded_lsteps k st0 ts0 _ _ Hsteps Hser Hrec) as [[Hrow _] _].
  split; [done|]. destruct Hrow as (r & Hr' & Hs' & _).
  assert (Hw : world_ok w).
  { apply (world_ok_lsteps _ _ Hsteps). split; [done|]. cbn [snd].
    apply (list.Forall_impl _ _ _ Hf). intros t Ht. unfold thread_ok. by rewrite Ht. }
  destruct Hw as [Hw _]. destruct (lookup_by_Some _ _ _ _ Hr') as [_ Hin].
  pose proof (proj1 (list.Forall_forall _ _) Hw r Hin) as Hr0.
  unfold stock_ok in Hr0. rewrite Hs' in Hr0. lia.
Qed.

(** ** Witnesses *)

Lemma interleaving_stock_nonneg_witness : world_ok (lost_db, [set_phase t1 (Loaded 5 0); t2]).
Proof.
  apply (interleaving_stock_nonneg (lost_db, [t1; t2])).
  - split; [apply Forall_singleton; unfold stock_ok; simpl; lia|repeat constructor].
  - apply rtc_once.
    exact (cstep_load lost_db [t1; t2] 0 t1 (ItemStatus.mk "a" (Some 0%Z) (Some 5%Z) 0 0) 5 0
             eq_refl eq_refl eq_refl eq_refl eq_refl).
Defined.

Lemma sell_item_is_execution_witness :
  rtc cstep (sample_db, [mkThread "a" 2 7 Start]) (StatusCrud.sample_db_sold, [mkThread "a" 2 7 (Finished true)]).
Proof. exact (sell_item_is_execution sample_db "a" 2 7 _ _ StatusCrud.sample_sell_run). Defined.

Lemma cstep_steps_bound_witness : 2 <= 2 * length [t1; t2].
Proof.
  apply (cstep_steps_bound 2 (lost_db, [t1; t2])
           (lost_db, [set_phase t1 (Loaded 5 0); set_phase t2 (Loaded 5 0)])).
  eapply nsteps_l.
  { exact (cstep_load lost_db [t1; t2] 0 t1 (ItemStatus.mk "a" (Some 0%Z) (Some 5%Z) 0 0) 5 0
             eq_refl eq_refl eq_refl eq_refl eq_refl). }
  eapply nsteps_l; [|apply nsteps_O].
  exact (cstep_load lost_db [set_phase t1 (Loaded 5 0); t2] 1 t2 (ItemStatus.mk "a" (Some 0%Z) (Some 5%Z) 0 0) 5 0
           eq_refl eq_refl eq_refl eq_refl eq_refl).
Defined.

Lemma serial_sells_recorded_witness :
  (exists r, lookup_by ItemStatus.id "a" (item_status serial_end.1) = Some r /\
     ItemStatus.stock r = Some (5 - sold "a" serial_end.2)%Z /\
     ItemStatus.total_sell r = Some (0 + sold "a" serial_end.2)%Z) /\
  (sold "a" serial_end.2 <= 5)%Z.
Proof.
  apply (serial_sells_recorded "a" (ItemStatus.mk "a" (Some 0%Z) (Some 5%Z) 0 0) 5 0 lost_db [t1; t2]);
    [reflexivity|reflexivity|reflexivity| |repeat constructor|].
  { apply Forall_singleton. unfold stock_ok. simpl. lia. }
  eapply rtc_l.
  { split; [exact (cstep_load lost_db [t1; t2] 0 t1 (ItemStatus.mk "a" (Some 0%Z) (Some 5%Z) 0 0) 5 0
                     eq_refl eq_refl eq_refl eq_refl eq_refl)|].
    intros k i j ti tj Hi Hj [_ (? & ? & Hpi)] [_ (? & ? & Hpj)].
    destruct i as [|[|i]], j as [|[|j]]; simplify_eq/=; done. }
  eapply rtc_l.
  { split; [apply (cstep_write _ _ 0 (set_phase t1 (Loaded 5 0)) 5 0); [done|done|]|].
    - apply (bool_decide_unpack _). vm_compute. reflexivity.
    - intros k i j ti tj Hi Hj [_ (? & ? & Hpi)] [_ (? & ? & Hpj)].
      destruct i as [|[|i]], j as [|[|j]]; simplify_eq/=; done. }
  eapply rtc_l; [|apply rtc_refl].
  split.
  { exact (cstep_load (write_db (set_phase t1 (Loaded 5 0)) 5 0 lost_db)
             [set_phase (set_phase t1 (Loaded 5 0)) (Finished true); t2] 1 t2
             (ItemStatus.mk "a" (Some 5%Z) (Some 0%Z) 0 1) 0 5 eq_refl eq_refl eq_refl eq_refl eq_refl). }
  intros k i j ti tj Hi Hj [_ (? & ? & Hpi)] [_ (? & ? & Hpj)].
  destruct i as [|[|i]], j as [|[|j]]; simplify_eq/=; done.
Defined.

End Concurrency.
