(* ===== verification/Backup.v ===== *)
(** * The single-file application of src/backups/main.py

    An earlier version of the service in one file: the same two tables
    (lines 31-55), the same payloads (lines 61-80) and the same queries,
    with the CRUD code written inline in the route handlers.  It differs
    from src/app where it matters:
    - [ItemResponse] nests the item's status (lines 91-101), read
      through the relationship when the response is validated;
    - sell answers 404 for a missing status row and 400 for
      insufficient stock (lines 289-309), where src/app answers 400 for
      both;
    - restock rejects a non-positive quantity with 400 (lines 321-322),
      as spec.md 4.2 asks and src/app does not;
    - the summary calls [db.func.sum] (line 394); a [Session] has no
      attribute [func], so the request always fails.

    The rows the handlers build and the queries they issue are the
    statements of src/app/crud, so the definitions reuse [ItemsCrud]'s
    and [StatusCrud]'s row constructors and queries; the handlers, their
    checks and their answers are written out here.  Requests are the
    [Routes.Request]s of the same endpoints. *)

From Stdlib Require Import String.
From S2P Require Import Prelude Models Schemas ItemsCrud StatusCrud Routes.

Import ItemsCrud StatusCrud Routes.

Module Backup.

(** Lines 91-101: the item fields and the nested [status]. *)
Record item_response := mkItemResponse {
  ir_item : ItemResponse.t;
  ir_status : option StatusResponse.t
}.

(** [from_attributes] reads [item.status]: the item's status row, or
    [None] when it has none; a status with a NULL counter fails. *)
Definition validate_item (db : Db) (i : ItemModel.t) : option item_response :=
  v ← ItemResponse.validate i;
  match lookup_by ItemStatus.id (ItemModel.id i) (item_status db) with
  | None => Some (mkItemResponse v None)
  | Some s => s' ← StatusResponse.validate s; Some (mkItemResponse v (Some s'))
  end.

Inductive body :=
  | Item (v : item_response)
  | Items (l : list item_response)
  | Status (s : StatusResponse.t)
  | Full (item : item_response) (status : StatusResponse.t)
  | Message (m : string)
  | Totals (s : Summary).

Inductive response :=
  | ROk (b : body)
  | RHttpError (code : Z) (detail : string)
  | RServerError (f : Fault).

(** Response validation runs while the session is open, on the state
    the handler leaves. *)
Definition item_out (r : ItemModel.t) : M response :=
  query (fun db => match validate_item db r with
                   | Some v => ROk (Item v)
                   | None => RServerError ResponseValidationError
                   end).

Definition items_out (l : list ItemModel.t) : M response :=
  query (fun db => match mapM (validate_item db) l with
                   | Some v => ROk (Items v)
                   | None => RServerError ResponseValidationError
                   end).

Definition status_out (s : ItemStatus.t) : response :=
  match StatusResponse.validate s with
  | Some v => ROk (Status v)
  | None => RServerError ResponseValidationError
  end.

(** ** Items (lines 128-204) *)

Definition create_item (item_id : string) (now : Z) (item : ItemCreate.t) : M response :=
  commit (fun db => mkDb (items db ++ [new_item item_id now item])
                         (item_status db ++ [new_status item_id now item])) ;;;
  item_out (new_item item_id now item).

Definition read_all_items (skip limit : Z) : M response :=
  l <- get_items skip limit ;; items_out l.

Definition read_item (item_id : string) : M response :=
  item <- get_item item_id ;;
  match item with
  | None => ret (RHttpError 404 "Item not found")
  | Some r => item_out r
  end.

Definition update_item (item_id : string) (item : ItemUpdate.t) (now : Z) : M response :=
  db_item <- get_item item_id ;;
  match db_item with
  | None => ret (RHttpError 404 "Item not found")
  | Some r =>
      commit (set_items (update_by ItemModel.id item_id (apply_item_update item now))) ;;;
      item_out (apply_item_update item now r)
  end.

Definition delete_item (item_id : string) : M response :=
  db_item <- get_item item_id ;;
  match db_item with
  | None => ret (RHttpError 404 "Item not found")
  | Some _ =>
      commit (fun db => mkDb (delete_by ItemModel.id item_id (items db))
                             (delete_by ItemStatus.id item_id (item_status db))) ;;;
      ret (ROk (Message "Item deleted successfully"))
  end.

(** ** Status rows (lines 206-286) *)

Definition create_item_status (item_id : string) (status : StatusCreate.t) (now : Z) : M response :=
  item <- get_item item_id ;;
  match item with
  | None => ret (RHttpError 404 "Item not found")
  | Some _ =>
      existing_status <- get_status item_id ;;
      match existing_status with
      | Some _ => ret (RHttpError 400 "Status already exists for this item")
      | None =>
          commit (set_status (fun l => l ++ [new_status_row item_id now status])) ;;;
          ret (status_out (new_status_row item_id now status))
      end
  end.

Definition get_item_status (item_id : string) : M response :=
  status <- get_status item_id ;;
  match status with
  | None => ret (RHttpError 404 "Status not found for this item")
  | Some s => ret (status_out s)
  end.

Definition update_item_status (item_id : string) (status : StatusUpdate.t) (now : Z) : M response :=
  db_status <- get_status item_id ;;
  match db_status with
  | None => ret (RHttpError 404 "Status not found for this item")
  | Some r =>
      commit (set_status (update_by ItemStatus.id item_id (apply_status_update status now))) ;;;
      ret (status_out (apply_status_update status now r))
  end.

Definition delete_item_status (item_id : string) : M response :=
  db_status <- get_status item_id ;;
  match db_status with
  | None => ret (RHttpError 404 "Status not found for this item")
  | Some _ =>
      commit (set_status (delete_by ItemStatus.id item_id)) ;;;
      ret (ROk (Message "Item status deleted successfully"))
  end.

(** [ItemWithStatusResponse.status] is not optional here either. *)
Definition get_item_with_status (item_id : string) : M response :=
  item <- get_item item_id ;;
  match item with
  | None => ret (RHttpError 404 "Item not found")
  | Some i =>
      status <- get_status item_id ;;
      query (fun db =>
        match validate_item db i, status ≫= StatusResponse.validate with
        | Some v, Some s => ROk (Full v s)
        | _, _ => RServerError ResponseValidationError
        end)
  end.

(** ** Inventory (lines 288-330) *)

Definition sell_item (item_id : string) (quantity : Z) (now : Z) : M response :=
  db_status <- get_status item_id ;;
  match db_status with
  | None => ret (RHttpError 404 "Item status not found")
  | Some r =>
      match ItemStatus.stock r with
      | None => throw TypeError
      | Some st =>
          if (st <? quantity)%Z then ret (RHttpError 400 "Insufficient stock")
          else
            match ItemStatus.total_sell r with
            | None => throw TypeError
            | Some ts =>
                let f := with_counters (Some (ts + quantity)%Z) (Some (st - quantity)%Z) now in
                commit (set_status (update_by ItemStatus.id item_id f)) ;;;
                ret (status_out (f r))
            end
      end
  end.

Definition restock_item (item_id : string) (quantity : Z) (now : Z) : M response :=
  db_status <- get_status item_id ;;
  match db_status with
  | None => ret (RHttpError 404 "Item status not found")
  | Some r =>
      if (quantity <=? 0)%Z then ret (RHttpError 400 "Quantity must be positive")
      else
        match ItemStatus.stock r with
        | None => throw TypeError
        | Some st =>
            let f := with_counters (ItemStatus.total_sell r) (Some (st + quantity)%Z) now in
            commit (set_status (update_by ItemStatus.id item_id f)) ;;;
            ret (status_out (f r))
        end
  end.

(** ** Search and reports (lines 332-405) *)

(** Lines 341-352 are the query of [ItemsCrud.search_items]. *)
Definition search_items (name category : option string) (min_price max_price : option Q)
    : M response :=
  l <- ItemsCrud.search_items name category min_price max_price ;; items_out l.

Definition get_low_stock_items (threshold : Z) : M response :=
  l <- StatusCrud.get_low_stock_items threshold ;; items_out l.

Definition get_top_sellers (limit : Z) : M response :=
  l <- StatusCrud.get_top_sellers limit ;; items_out l.

(** The attributes of a SQLAlchemy 2.0 [Session] (its public methods
    and properties, sqlalchemy/orm/session.py); [func] is an attribute
    of the module [sqlalchemy], not of a session. *)
Definition session_attrs : list string :=
  ["add"; "add_all"; "autoflush"; "begin"; "begin_nested"; "bind"; "bulk_insert_mappings";
   "bulk_save_objects"; "bulk_update_mappings"; "close"; "close_all"; "commit"; "connection";
   "delete"; "deleted"; "dirty"; "enable_relationship_loading"; "execute"; "expire";
   "expire_all"; "expunge"; "expunge_all"; "flush"; "get"; "get_bind"; "get_nested_transaction";
   "get_one"; "get_transaction"; "identity_key"; "identity_map"; "in_nested_transaction";
   "in_transaction"; "info"; "invalidate"; "is_active"; "is_modified"; "merge"; "new";
   "no_autoflush"; "object_session"; "prepare"; "query"; "refresh"; "reset"; "rollback";
   "scalar"; "scalars"].

(** [db.x] on the session: [AttributeError] for an attribute it lacks. *)
Definition session_getattr (x : string) : M unit :=
  if bool_decide (x ∈ session_attrs) then ret tt else throw AttributeError.

(** Lines 389-405: the two counts, the two sums through [db.func]
    ([scalar() or 0]), the count of statuses with stock at most 10. *)
Definition inventory_summary : M response :=
  total_items <- query (fun db => Z.of_nat (length (items db))) ;;
  total_status <- query (fun db => Z.of_nat (length (item_status db))) ;;
  session_getattr "func" ;;;
  total_stock <- query (fun db => sum_col ItemStatus.stock (item_status db)) ;;
  session_getattr "func" ;;;
  total_sales <- query (fun db => sum_col ItemStatus.total_sell (item_status db)) ;;
  low_stock_count <- query (fun db => Z.of_nat (length (List.filter (stock_le 10) (item_status db)))) ;;
  ret (ROk (Totals (mkSummary total_items total_status total_stock total_sales low_stock_count))).

(** ** The application *)

Definition handle (fresh : string) (now : Z) (req : Request) : M response :=
  match req with
  | CreateItem item => create_item fresh now item
  | ReadAllItems skip limit => read_all_items skip limit
  | ReadItem k => read_item k
  | UpdateItem k item => update_item k item now
  | DeleteItem k => delete_item k
  | ItemFull k => get_item_with_status k
  | SearchItems n c lo hi => search_items n c lo hi
  | CreateStatus k st => create_item_status k st now
  | GetStatus k => get_item_status k
  | UpdateStatus k st => update_item_status k st now
  | DeleteStatus k => delete_item_status k
  | Sell k q => sell_item k q now
  | Restock k q => restock_item k q now
  | LowStock t => get_low_stock_items t
  | TopSellers l => get_top_sellers l
  | InventorySummary => inventory_summary
  end.

Definition serve (fresh : string) (now : Z) (req : Request) (db : Db) : response * Db :=
  match handle fresh now req db with
  | inl f => (RServerError f, db)
  | inr (resp, db') => (resp, db')
  end.



(** ** Request sequences *)

Definition positive_restock (req : Request) : Prop :=
  forall k q, req = Restock k q -> (0 < q)%Z.

(** The backup checks the restock quantity itself. *)
Definition good_request (req : Request) : Prop :=
  match req with Restock _ _ => True | _ => Routes.good_request req end.

Inductive reachable_good : Db -> Prop :=
  | reachable_good_empty : reachable_good empty_db
  | reachable_good_step fresh now req db :
      reachable_good db -> good_request req -> reachable_good (serve fresh now req db).2.

Ltac unfold_handlers :=
  unfold create_item, read_all_items, read_item, update_item, delete_item, create_item_status,
    get_item_status, update_item_status, delete_item_status, get_item_with_status, sell_item,
    restock_item, search_items, get_low_stock_items, get_top_sellers, inventory_summary,
    item_out, items_out,
    Routes.create_item_route, Routes.read_all_items, Routes.read_item, Routes.update_item_route,
    Routes.delete_item_route, Routes.get_item_with_status, Routes.search_items_route,
    Routes.create_item_status_route, Routes.get_item_status_route, Routes.update_item_status_route,
    Routes.delete_item_status_route, Routes.sell_item_route, Routes.restock_item_route,
    Routes.get_low_stock_items_route, Routes.get_top_sellers_route, Routes.inventory_summary_route,
    ItemsCrud.create_item, ItemsCrud.update_item, ItemsCrud.delete_item, get_item,
    create_status, update_status, delete_status, get_status, StatusCrud.sell_item,
    StatusCrud.restock_item, bind, ret, query, throw.

(** ** Agreement with src/app *)

(** One request other than a non-positive restock leaves the same state
    in both versions: they differ only in their answers. *)
Lemma serve_db_agrees fresh now req db :
  positive_restock req -> (serve fresh now req db).2 = (Routes.serve fresh now req db).2.
Proof.
  intros Hq. unfold serve, Routes.serve.
  destruct req; try specialize (Hq _ _ eq_refl); cbn [handle Routes.handle]; unfold_handlers;
    repeat (case_match; simplify_eq/=); try done;
    repeat match goal with
    | E : get_items _ _ _ = inr (_, _) |- _ => apply (proj1 (readonly_queries _ _)) in E; subst
    | E : ItemsCrud.search_items _ _ _ _ _ = inr (_, _) |- _ =>
        apply (proj1 (proj2 (readonly_queries _ _))) in E; subst
    | E : StatusCrud.get_low_stock_items _ _ = inr (_, _) |- _ =>
        apply (proj1 (proj2 (proj2 (readonly_queries _ _)))) in E; subst
    | E : StatusCrud.get_top_sellers _ _ = inr (_, _) |- _ =>
        apply (proj2 (proj2 (proj2 (readonly_queries _ _)))) in E; subst
    | E : (_ <=? _)%Z = true |- _ => apply Z.leb_le in E; lia
    end; done.
Qed.

(** A non-positive restock changes nothing. *)
Lemma restock_nonpositive_db fresh now db k q :
  (q <= 0)%Z -> (serve fresh now (Restock k q) db).2 = db.
Proof.
  intros Hq. unfold serve, handle, restock_item, get_status, bind, query, ret. cbv beta.
  destruct (lookup_by ItemStatus.id k (item_status db)); [|done].
  by rewrite (proj2 (Z.leb_le q 0) Hq).
Qed.

(** C16: any sequence of requests without a non-positive restock leaves
    the same database in the backup as in src/app: the single-file
    version refines the application's state behaviour. *)
Theorem backup_run_agrees reqs db :
  Forall (fun r : string * Z * Request => positive_restock r.2) reqs ->
  (run serve reqs db).2 = (run Routes.serve reqs db).2.
Proof.
  revert db. induction reqs as [|[[fresh now] req] reqs IH]; intros db Hp; [done|].
  apply list.Forall_cons in Hp as [Hr Hp]. simpl. rewrite serve_db_agrees by done. by apply IH.
Qed.

(** C17: every state the backup reaches from the empty database with
    well-behaved payloads, and any restock quantity, satisfies the
    schema's constraints and has no negative counter: the restock guard
    of lines 321-322 is what src/app lacks. *)
Theorem backup_reachable_good db : reachable_good db -> db_wf db /\ counters_nonneg db.
Proof.
  induction 1 as [|fresh now req db Hr [Hwf Hnn] Hg].
  - split; [split; [split; [constructor|split; constructor]|done]|constructor].
  - assert (Hcase : positive_restock req \/ exists k q, req = Restock k q /\ (q <= 0)%Z).
    { destruct req; try (left; intros ? ? E; discriminate E).
      destruct (Z_lt_le_dec 0 quantity) as [Hlt|Hle]; [left; by intros ? ? [= _ <-]|right; eauto]. }
    destruct Hcase as [Hp|(k & q & -> & Hq)]; [|by rewrite restock_nonpositive_db].
    rewrite serve_db_agrees by done. split; [by apply serve_wf|].
    apply serve_nonneg; [done|]. destruct req; try done. by apply (Hp item_id).
Qed.


(** C19: restock of a quantity [<= 0] is rejected with 400 and changes
    nothing (spec.md 4.2 and 8), unlike src/app. *)
Theorem backup_restock_nonpositive fresh now db k q r :
  lookup_by ItemStatus.id k (item_status db) = Some r -> (q <= 0)%Z ->
  serve fresh now (Restock k q) db = (RHttpError 400 "Quantity must be positive", db).
Proof.
  intros Hr Hq. unfold serve, handle, restock_item, get_status, bind, query, ret. cbv beta.
  by rewrite Hr, (proj2 (Z.leb_le q 0) Hq).
Qed.

(** C20: for a missing status row the two versions answer differently:
    404 here, 400 in src/app (and in spec.md 4.2); neither changes the database. *)
Theorem backup_sell_missing_status fresh now db k q :
  lookup_by ItemStatus.id k (item_status db) = None ->
  serve fresh now (Sell k q) db = (RHttpError 404 "Item status not found", db) /\
  Routes.serve fresh now (Sell k q) db = (HttpError 400 "Item status not found or insufficient stock", db).
Proof.
  intros Hn. unfold serve, Routes.serve, handle, Routes.handle. unfold_handlers.
  unfold get_status, query, bind, ret. cbv beta. rewrite Hn. split; reflexivity.
Qed.

(** ** Witnesses *)

Lemma backup_run_agrees_witness :
  (run serve [("n", 1%Z, CreateItem sample_create); ("m", 2%Z, Restock "n" 3)] empty_db).2 =
  (run Routes.serve [("n", 1%Z, CreateItem sample_create); ("m", 2%Z, Restock "n" 3)] empty_db).2.
Proof.
  apply backup_run_agrees.
  constructor; [intros ? ? E; discriminate E|].
  constructor; [intros ? ? E; injection E as _ <-; lia|constructor].
Defined.

Lemma backup_reachable_good_witness :
  db_wf (serve "m" 2 (Restock "n" (-3)) (serve "n" 1 (CreateItem sample_create) empty_db).2).2.
Proof.
  apply (backup_reachable_good _). apply reachable_good_step; [|exact I].
  apply reachable_good_step; [apply reachable_good_empty|]. simpl. lia.
Defined.

Lemma backup_restock_nonpositive_witness :
  serve "x" 1 (Restock "a" 0) sample_db = (RHttpError 400 "Quantity must be positive", sample_db).
Proof. apply (backup_restock_nonpositive "x" 1 sample_db "a" 0 sample_status); [reflexivity|lia]. Defined.

Lemma backup_sell_missing_status_witness :
  serve "x" 1 (Sell "b" 1) sample_db = (RHttpError 404 "Item status not found", sample_db) /\
  Routes.serve "x" 1 (Sell "b" 1) sample_db =
    (HttpError 400 "Item status not found or insufficient stock", sample_db).
Proof. apply backup_sell_missing_status. reflexivity. Defined.

End Backup.
