(* ===== verification/Desktop.v ===== *)
(** * The items-only application of src/Desktop/projects/fastapi/fastapi-sample-project/main.py

    A first version of the service: one table, [items] (lines 31-41),
    the same columns as src/app's [ItemModel]; an [ItemCreate] payload
    without [stock] (lines 47-51); the item routes of src/app with the
    CRUD code inline (lines 91-181).  The [ItemUpdate] and
    [ItemResponse] schemas (lines 53-70) are those of src/app.

    A state of this schema is a [Db] whose [item_status] table is empty;
    [strip] projects a state of src/app onto it.  The refinement theorem
    says that this application, run on [strip a], answers exactly what
    src/app answers on [a] to the same calls (a creation without [stock]
    taking the default 0), and leaves [strip] of the state src/app
    leaves.  It is proved construct by construct: [simulates md ma]
    states that [md] on the stripped state computes what [ma] computes
    on a well-formed full state, and the lemmas below carry it through
    [ret], [throw], [query], [commit] and [bind]. *)

From Stdlib Require Import String.
From S2P Require Import Prelude Models Schemas ItemsCrud Routes.

Import ItemsCrud Routes.

Module Desktop.

(** Lines 47-51. *)
Record ItemCreate := mkItemCreate {
  name : string;
  description : option string;
  price : Q;
  category : string
}.

(** The row of lines 97-105. *)
Definition new_item (item_id : string) (now : Z) (item : ItemCreate) : ItemModel.t :=
  ItemModel.mk item_id (Some (name item)) (description item) (Some (price item))
    (Some (category item)) now now.

(** ** The handlers (lines 91-181) *)

Definition create_item (item_id : string) (now : Z) (item : ItemCreate) : M Response :=
  commit (set_items (fun l => l ++ [new_item item_id now item])) ;;;
  ret (item_out (new_item item_id now item)).

Definition read_all_items (skip limit : Z) : M Response :=
  l <- get_items skip limit ;; ret (items_out l).

Definition read_item (item_id : string) : M Response :=
  item <- get_item item_id ;;
  match item with
  | None => ret (HttpError 404 "Item not found")
  | Some r => ret (item_out r)
  end.

Definition update_item (item_id : string) (item : ItemUpdate.t) (now : Z) : M Response :=
  db_item <- get_item item_id ;;
  match db_item with
  | None => ret (HttpError 404 "Item not found")
  | Some r =>
      commit (set_items (update_by ItemModel.id item_id (apply_item_update item now))) ;;;
      ret (item_out (apply_item_update item now r))
  end.

Definition delete_item (item_id : string) : M Response :=
  db_item <- get_item item_id ;;
  match db_item with
  | None => ret (HttpError 404 "Item not found")
  | Some _ =>
      commit (set_items (delete_by ItemModel.id item_id)) ;;;
      ret (Ok200 (BMessage "Item deleted successfully"))
  end.

(** Lines 169-180 are the query of [ItemsCrud.search_items]. *)
Definition search_items (name category : option string) (min_price max_price : option Q)
    : M Response :=
  l <- ItemsCrud.search_items name category min_price max_price ;; ret (items_out l).

Inductive Request :=
  | CreateItem (item : ItemCreate)
  | ReadAllItems (skip limit : Z)
  | ReadItem (item_id : string)
  | UpdateItem (item_id : string) (item : ItemUpdate.t)
  | DeleteItem (item_id : string)
  | SearchItems (name category : option string) (min_price max_price : option Q).

Definition handle (fresh : string) (now : Z) (req : Request) : M Response :=
  match req with
  | CreateItem item => create_item fresh now item
  | ReadAllItems skip limit => read_all_items skip limit
  | ReadItem k => read_item k
  | UpdateItem k item => update_item k item now
  | DeleteItem k => delete_item k
  | SearchItems n c lo hi => search_items n c lo hi
  end.

Definition serve (fresh : string) (now : Z) (req : Request) (db : Db) : Response * Db :=
  match handle fresh now req db with
  | inl f => (ServerError f, db)
  | inr (resp, db') => (resp, db')
  end.

(** ** Relation to src/app *)

(** The same call to src/app: a payload without [stock] gets the
    default of [Schemas.ItemCreate], 0. *)
Definition to_app (req : Request) : Routes.Request :=
  match req with
  | CreateItem i =>
      Routes.CreateItem (Schemas.ItemCreate.mk (name i) (description i) (price i) (category i)
                           (Some 0%Z))
  | ReadAllItems skip limit => Routes.ReadAllItems skip limit
  | ReadItem k => Routes.ReadItem k
  | UpdateItem k item => Routes.UpdateItem k item
  | DeleteItem k => Routes.DeleteItem k
  | SearchItems n c lo hi => Routes.SearchItems n c lo hi
  end.

(** A call of a sequence, sent to src/app. *)
Definition app_call (c : string * Z * Request) : string * Z * Routes.Request :=
  (c.1.1, c.1.2, to_app c.2).

(** The items table of a state: the whole database of this schema. *)
Definition strip (db : Db) : Db := mkDb (items db) [].

Definition strip_res {A} (r : Fault + (A * Db)) : Fault + (A * Db) :=
  match r with inl e => inl e | inr (x, db) => inr (x, strip db) end.

(** [md] on the stripped state computes what [ma] computes on a
    well-formed state, and [ma] keeps the state well formed. *)
Definition simulates {A} (md ma : M A) : Prop :=
  forall a, db_wf a -> md (strip a) = strip_res (ma a) /\
    forall x a', ma a = inr (x, a') -> db_wf a'.

(** The constraints of src/app that this schema does not have: those
    of the status table. *)
Definition status_side_ok (x : Db) : Prop :=
  NoDup (status_ids x) /\ Forall (fun k => k ∈ item_ids x) (status_ids x) /\
  forallb status_row_ok (item_status x) = true.

#[export] Instance simulates_proper {A} : Proper (meq ==> meq ==> iff) (@simulates A).
Proof.
  intros m1 m2 H1 m3 m4 H2. unfold simulates, meq in *. split; intros Hs a Ha.
  - rewrite <- H1, <- H2. by apply Hs.
  - rewrite H1, H2. by apply Hs.
Qed.

Lemma simulates_ret {A} (x : A) : simulates (ret x) (ret x).
Proof. intros a Ha. split; [done|by intros y a' [= _ <-]]. Qed.

Lemma simulates_throw {A} e : simulates (A:=A) (throw e) (throw e).
Proof. intros a Ha. split; [done|discriminate]. Qed.

Lemma simulates_query {A} (fd fa : Db -> A) :
  (forall a, db_wf a -> fd (strip a) = fa a) -> simulates (query fd) (query fa).
Proof. intros H a Ha. split; [unfold query; simpl; by rewrite H|by intros x a' [= _ <-]]. Qed.

Lemma simulates_bind {A B} (md ma : M A) (kd ka : A -> M B) :
  simulates md ma -> (forall x, simulates (kd x) (ka x)) -> simulates (bind md kd) (bind ma ka).
Proof.
  intros Hm Hk a Ha. destruct (Hm a Ha) as [E P]. unfold bind. rewrite E.
  destruct (ma a) as [e|[x a']] eqn:Ea; simpl; [split; [done|discriminate]|].
  exact (Hk x a' (P x a' eq_refl)).
Qed.

Lemma keys_ok_strip x : keys_ok (strip x) <-> NoDup (item_ids x).
Proof.
  unfold keys_ok, strip, status_ids. simpl.
  split; [by intros []|intros; split; [done|split; constructor]].
Qed.

Lemma values_ok_strip x : values_ok (strip x) = forallb item_row_ok (items x).
Proof. unfold values_ok. simpl. by rewrite andb_true_r. Qed.

(** A commit of the same items: PostgreSQL accepts it on both schemas
    or on neither, as long as the status side cannot fail alone. *)
Lemma simulates_commit fd fa :
  (forall a, db_wf a -> fd (strip a) = strip (fa a) /\
     (NoDup (item_ids (fa a)) -> status_side_ok (fa a))) ->
  simulates (commit fd) (commit fa).
Proof.
  intros H a Ha. destruct (H a Ha) as [E Hs]. split.
  - unfold commit. rewrite E. cbv zeta.
    destruct (decide (keys_ok (fa a))) as [K|K].
    + destruct (Hs (proj1 K)) as (_ & _ & Hv).
      rewrite decide_True by (apply keys_ok_strip; apply K).
      rewrite values_ok_strip. unfold values_ok. rewrite Hv, andb_true_r.
      by destruct (forallb item_row_ok (items (fa a))).
    + rewrite decide_False; [done|]. intros K'. apply K. apply keys_ok_strip in K'.
      destruct (Hs K') as (? & ? & _). by split; [|split].
  - intros [] a' Hc. by apply commit_wf in Hc as [_ ?].
Qed.

Lemma status_side_wf x : db_wf x -> status_side_ok x.
Proof. intros [(_ & Hs & Hfk) Hv]. apply andb_true_iff in Hv as [_ Hv]. done. Qed.

(** The two rows of [create_item] in src/app, on a fresh key. *)
Lemma status_side_snoc a i s :
  db_wf a -> ItemStatus.id s = ItemModel.id i -> status_row_ok s = true ->
  NoDup (item_ids (mkDb (items a ++ [i]) (item_status a ++ [s]))) ->
  status_side_ok (mkDb (items a ++ [i]) (item_status a ++ [s])).
Proof.
  intros Ha Hid Hs Hnd. destruct (status_side_wf a Ha) as (Hn & Hf & Hv).
  unfold item_ids in Hnd. simpl in Hnd. rewrite keys_snoc in Hnd.
  apply list.NoDup_app in Hnd as (_ & Hdis & _).
  assert (Hi : ItemModel.id i ∉ item_ids a).
  { intros Hin. apply (Hdis _ Hin). by apply list_elem_of_singleton. }
  split; [|split].
  - unfold status_ids. simpl. apply NoDup_keys_snoc; [done|]. rewrite Hid.
    intros Hin. apply Hi. by apply (status_id_is_item_id a Ha).
  - unfold status_ids, item_ids. simpl. rewrite !keys_snoc. apply Forall_app. split.
    + eapply list.Forall_impl; [exact Hf|]. intros k Hk. apply elem_of_app. by left.
    + apply Forall_singleton. rewrite Hid. apply elem_of_app. right. by apply list_elem_of_singleton.
  - change (forallb status_row_ok (item_status a ++ [s]) = true).
    rewrite forallb_app, Hv. cbn [forallb andb]. by rewrite Hs.
Qed.

Lemma simulates_get_item k : simulates (get_item k) (get_item k).
Proof. by apply simulates_query. Qed.

Lemma simulates_get_items skip limit : simulates (get_items skip limit) (get_items skip limit).
Proof. unfold get_items. destruct (_ || _)%Z; [apply simulates_throw|by apply simulates_query]. Qed.

Lemma simulates_search_items n c lo hi :
  simulates (ItemsCrud.search_items n c lo hi) (ItemsCrud.search_items n c lo hi).
Proof.
  unfold ItemsCrud.search_items. apply simulates_bind; [by apply simulates_query|].
  intros [l|]; [apply simulates_ret|apply simulates_throw].
Qed.

(** Every handler refines the src/app handler of the same call. *)
Lemma simulates_handle fresh now req :
  simulates (handle fresh now req) (Routes.handle fresh now (to_app req)).
Proof.
  destruct req; cbn [handle Routes.handle to_app].
  - unfold create_item, create_item_route, ItemsCrud.create_item.
    rewrite M_bind_assoc. setoid_rewrite M_bind_ret_l.
    apply simulates_bind; [|intros _; apply simulates_ret].
    apply simulates_commit. intros a Ha. split; [reflexivity|].
    apply status_side_snoc; [done|done|reflexivity].
  - apply simulates_bind; [apply simulates_get_items|intros; apply simulates_ret].
  - apply simulates_bind; [apply simulates_get_item|intros [r|]; apply simulates_ret].
  - unfold update_item, update_item_route, ItemsCrud.update_item. rewrite M_bind_assoc.
    apply simulates_bind; [apply simulates_get_item|]. intros [r|]; cbn beta iota.
    + rewrite M_bind_assoc. setoid_rewrite M_bind_ret_l.
      apply simulates_bind; [|intros; apply simulates_ret].
      apply simulates_commit. intros a Ha. split; [reflexivity|]. intros _.
      destruct (status_side_wf a Ha) as (H1 & H2 & H3). split; [done|split; [|done]].
      unfold item_ids. simpl. by rewrite keys_update_by.
    + rewrite M_bind_ret_l. apply simulates_ret.
  - unfold delete_item, delete_item_route, ItemsCrud.delete_item. rewrite M_bind_assoc.
    apply simulates_bind; [apply simulates_get_item|]. intros [r|]; cbn beta iota.
    + rewrite M_bind_assoc. setoid_rewrite M_bind_ret_l.
      apply simulates_bind; [|intros; apply simulates_ret].
      apply simulates_commit. intros a Ha. split; [reflexivity|]. intros _.
      apply status_side_wf, wf_delete_item_cascade, Ha.
    + rewrite M_bind_ret_l. apply simulates_ret.
  - apply simulates_bind; [apply simulates_search_items|intros; apply simulates_ret].
Qed.

(** One request, on the stripped state. *)
Lemma serve_strip fresh now req a :
  db_wf a ->
  serve fresh now req (strip a) =
    ((Routes.serve fresh now (to_app req) a).1, strip (Routes.serve fresh now (to_app req) a).2).
Proof.
  intros Ha. unfold serve, Routes.serve. destruct (simulates_handle fresh now req a Ha) as [E _].
  rewrite E. by destruct (Routes.handle fresh now (to_app req) a) as [f|[r a']].
Qed.

(** C13: on any sequence of calls, the items-only application started on
    the items of a well-formed src/app state gives the answers src/app
    gives and ends in the items src/app ends in: it refines src/app
    with the status table forgotten. *)
Theorem desktop_refines_app reqs a :
  db_wf a ->
  run serve reqs (strip a) =
    ((run Routes.serve (app_call <$> reqs) a).1, strip (run Routes.serve (app_call <$> reqs) a).2).
Proof.
  revert a. induction reqs as [|[[fresh now] req] reqs IH]; intros a Ha; [done|].
  cbn [run fmap list_fmap app_call fst snd]. rewrite serve_strip by done. cbn [fst snd].
  rewrite (IH _ (serve_wf fresh now (to_app req) a Ha)). done.
Qed.

(** ** Witnesses *)

Definition sample_calls : list (string * Z * Request) :=
  [("n", 1%Z, CreateItem (mkItemCreate "lamp" None 12 "home")); ("m", 2%Z, DeleteItem "n")].

Lemma desktop_refines_app_witness :
  run serve sample_calls (strip sample_db) =
    ((run Routes.serve (app_call <$> sample_calls) sample_db).1,
     strip (run Routes.serve (app_call <$> sample_calls) sample_db).2).
Proof. apply desktop_refines_app. exact sample_db_wf. Defined.

End Desktop.
