(* ===== verification/Router.v ===== *)
(** * URL routing of src/app (main.py and the route decorators)

    [src/app/main.py] builds the application from three routers, each
    included under the prefix [/api/v1] (lines 24-26), and adds the two
    health endpoints (lines 29-39).  Each router lists its routes in the
    order of its decorators (routes/items.py, status.py, inventory.py).
    FastAPI registers its documentation routes before any of them.

    A request is routed by Starlette: the first route whose path
    template and method both match runs; a path that matches only with
    another method gives 405; otherwise, if the path with its trailing
    slash toggled matches some route, the answer is a redirect to it;
    otherwise 404.  A template segment [{name}] matches one non-empty
    path segment (the regular expression [[^/]+]), so matching a path
    against a template is segment by segment, which is how [match_segs]
    computes it.  HEAD requests and the [Host] header are not modelled.

    The theorems show that the URL of every API call, rendered the way
    spec.md 6 lists it, reaches the handler [Routes.handle] runs for that
    call with its id (a round trip through [join_path] and [split_path]),
    and that the search endpoint is reachable only with its trailing
    slash: without it the URL is taken by [read_item].  [backup_routes]
    and [desktop_routes] are the decorator tables of the two single-file
    versions (src/backups/main.py, lines 129-388, with no prefix; the
    Desktop main.py, lines 92-188); the same round trip holds for their
    item URLs, and in both the search URL is shadowed by [read_item]. *)

From Stdlib Require Import String Ascii.
From S2P Require Import Prelude Models Schemas ItemsCrud StatusCrud Routes Desktop.

Module Router.

Inductive method := GET | POST | PUT | DELETE.

#[export] Instance method_eq_dec : EqDecision method.
Proof. solve_decision. Defined.

(** The Python functions the routes run. *)
Inductive endpoint :=
  | create_item_route | read_all_items | read_item | update_item_route | delete_item_route
  | get_item_with_status | search_items_route
  | create_item_status_route | get_item_status_route | update_item_status_route
  | delete_item_status_route | sell_item_route | restock_item_route
  | get_low_stock_items_route | get_top_sellers_route | inventory_summary_route
  | root | health_check | fastapi_docs.

#[export] Instance endpoint_eq_dec : EqDecision endpoint.
Proof. solve_decision. Defined.

(** ** Paths as segments *)

Definition slash : ascii := "/".

Fixpoint split_chars (s : list ascii) : list (list ascii) :=
  match s with
  | [] => [[]]
  | c :: s' =>
      let rest := split_chars s' in
      if ascii_dec c slash then [] :: rest
      else match rest with r :: rs => (c :: r) :: rs | [] => [[c]] end
  end.

Fixpoint join_chars (segs : list (list ascii)) : list ascii :=
  match segs with
  | [] => []
  | [s] => s
  | s :: segs' => s ++ slash :: join_chars segs'
  end.

(** ["/api/v1/items/"] is [[""; "api"; "v1"; "items"; ""]]. *)
Definition split_path (p : string) : list string :=
  map string_of_list_ascii (split_chars (list_ascii_of_string p)).

Definition join_path (segs : list string) : string :=
  string_of_list_ascii (join_chars (map list_ascii_of_string segs)).

(** A segment a client can put in a URL: non-empty, without [/]. *)
Definition valid_segment (s : string) : Prop :=
  s <> ""%string /\ slash ∉ list_ascii_of_string s.

(** ** Templates *)

Inductive seg := Lit (s : string) | Param (name : string).

(** [{name}] is a parameter, anything else literal text. *)
Definition compile_seg (s : string) : seg :=
  match list_ascii_of_string s with
  | "{"%char :: rest =>
      match rev rest with
      | "}"%char :: name => Param (string_of_list_ascii (rev name))
      | _ => Lit s
      end
  | _ => Lit s
  end.

Definition compile_path (p : string) : list seg := map compile_seg (split_path p).

(** The values of the parameters, when the path matches. *)
Fixpoint match_segs (t : list seg) (p : list string) : option (list string) :=
  match t, p with
  | [], [] => Some []
  | Lit a :: t', b :: p' => if String.eqb a b then match_segs t' p' else None
  | Param _ :: t', b :: p' =>
      if String.eqb b "" then None else cons b <$> match_segs t' p'
  | _, _ => None
  end.

Record route := mkRoute { r_method : method; r_path : string; r_endpoint : endpoint }.

Definition path_match (r : route) (segs : list string) : option (list string) :=
  match_segs (compile_path (r_path r)) segs.

(** ** Starlette's router *)

Inductive outcome :=
  | Matched (e : endpoint) (params : list string)
  | MethodNotAllowed
  | Redirect (path : string)
  | NotFound.

(** The first route matching path and method. *)
Fixpoint first_full (routes : list route) (m : method) (segs : list string)
    : option (endpoint * list string) :=
  match routes with
  | [] => None
  | r :: rs =>
      match path_match r segs with
      | Some ps => if decide (r_method r = m) then Some (r_endpoint r, ps) else first_full rs m segs
      | None => first_full rs m segs
      end
  end.

Definition any_match (routes : list route) (segs : list string) : bool :=
  existsb (fun r => bool_decide (is_Some (path_match r segs))) routes.

Fixpoint drop_slashes (l : list ascii) : list ascii :=
  match l with
  | c :: l' => if ascii_dec c slash then drop_slashes l' else l
  | [] => []
  end.

(** [path.rstrip("/")] if it ends with a slash, [path + "/"] otherwise. *)
Definition toggle_slash (p : string) : string :=
  match rev (list_ascii_of_string p) with
  | c :: _ =>
      if ascii_dec c slash then string_of_list_ascii (rev (drop_slashes (rev (list_ascii_of_string p))))
      else (p ++ "/")%string
  | [] => "/"%string
  end.

Definition route_request (routes : list route) (m : method) (path : string) : outcome :=
  let segs := split_path path in
  match first_full routes m segs with
  | Some (e, ps) => Matched e ps
  | None =>
      if any_match routes segs then MethodNotAllowed
      else if String.eqb path "/" then NotFound
      else
        let alt := toggle_slash path in
        if any_match routes (split_path alt) then Redirect alt else NotFound
  end.

(** ** The route table of src/app *)

(** FastAPI's own routes, registered when the application is built. *)
Definition fastapi_routes : list route :=
  [mkRoute GET "/openapi.json" fastapi_docs; mkRoute GET "/docs" fastapi_docs;
   mkRoute GET "/docs/oauth2-redirect" fastapi_docs; mkRoute GET "/redoc" fastapi_docs].

(** routes/items.py, lines 13-71. *)
Definition items_router : list route :=
  [mkRoute POST "/items/" create_item_route;
   mkRoute GET "/items/" read_all_items;
   mkRoute GET "/items/{item_id}" read_item;
   mkRoute PUT "/items/{item_id}" update_item_route;
   mkRoute DELETE "/items/{item_id}" delete_item_route;
   mkRoute GET "/items/{item_id}/full" get_item_with_status;
   mkRoute GET "/items/search/" search_items_route].

(** routes/status.py, lines 11-74. *)
Definition status_router : list route :=
  [mkRoute POST "/items/{item_id}/status/" create_item_status_route;
   mkRoute GET "/items/{item_id}/status/" get_item_status_route;
   mkRoute PUT "/items/{item_id}/status/" update_item_status_route;
   mkRoute DELETE "/items/{item_id}/status/" delete_item_status_route;
   mkRoute POST "/items/{item_id}/sell/" sell_item_route;
   mkRoute POST "/items/{item_id}/restock/" restock_item_route].

(** routes/inventory.py, lines 14-44. *)
Definition inventory_router : list route :=
  [mkRoute GET "/inventory/low-stock/" get_low_stock_items_route;
   mkRoute GET "/inventory/top-sellers/" get_top_sellers_route;
   mkRoute GET "/inventory/summary/" inventory_summary_route].

Definition include_router (prefix : string) (rs : list route) : list route :=
  map (fun r => mkRoute (r_method r) (prefix ++ r_path r) (r_endpoint r)) rs.

(** main.py, lines 17-33. *)
Definition app_routes : list route :=
  fastapi_routes ++
  include_router "/api/v1" items_router ++
  include_router "/api/v1" status_router ++
  include_router "/api/v1" inventory_router ++
  [mkRoute GET "/" root; mkRoute GET "/health" health_check].

(** ** The route tables of the single-file versions

    They register their routes on the application itself, without a
    prefix.  An endpoint names the operation; the functions of these
    files have the names of src/app's without the [_route] suffix. *)

(** src/backups/main.py, the decorators of lines 129-388 in order. *)
Definition backup_routes : list route :=
  fastapi_routes ++
  [mkRoute POST "/items/" create_item_route; mkRoute GET "/items/" read_all_items;
   mkRoute GET "/items/{item_id}" read_item; mkRoute PUT "/items/{item_id}" update_item_route;
   mkRoute DELETE "/items/{item_id}" delete_item_route;
   mkRoute POST "/items/{item_id}/status/" create_item_status_route;
   mkRoute GET "/items/{item_id}/status/" get_item_status_route;
   mkRoute PUT "/items/{item_id}/status/" update_item_status_route;
   mkRoute DELETE "/items/{item_id}/status/" delete_item_status_route;
   mkRoute GET "/items/{item_id}/full" get_item_with_status;
   mkRoute POST "/items/{item_id}/sell/" sell_item_route;
   mkRoute POST "/items/{item_id}/restock/" restock_item_route;
   mkRoute GET "/items/search/" search_items_route;
   mkRoute GET "/inventory/low-stock/" get_low_stock_items_route;
   mkRoute GET "/inventory/top-sellers/" get_top_sellers_route;
   mkRoute GET "/" root; mkRoute GET "/health" health_check;
   mkRoute GET "/inventory/summary/" inventory_summary_route].

(** src/Desktop/projects/fastapi/fastapi-sample-project/main.py, the
    decorators of lines 92-188 in order. *)
Definition desktop_routes : list route :=
  fastapi_routes ++
  [mkRoute POST "/items/" create_item_route; mkRoute GET "/items/" read_all_items;
   mkRoute GET "/items/{item_id}" read_item; mkRoute PUT "/items/{item_id}" update_item_route;
   mkRoute DELETE "/items/{item_id}" delete_item_route;
   mkRoute GET "/items/search/" search_items_route;
   mkRoute GET "/" root; mkRoute GET "/health" health_check].

(** ** The health endpoints (main.py, lines 28-39) *)

Definition root_message : string := "FastAPI CRUD API with PostgreSQL is running!".

Record health := mkHealth { h_status : string; h_database : string; h_timestamp : Z }.

Definition health_body (now : Z) : health := mkHealth "healthy" "PostgreSQL" now.

(** ** The URL of each API call *)

(** The function [Routes.handle] runs for the call. *)
Definition endpoint_of (req : Routes.Request) : endpoint :=
  match req with
  | Routes.CreateItem _ => create_item_route
  | Routes.ReadAllItems _ _ => read_all_items
  | Routes.ReadItem _ => read_item
  | Routes.UpdateItem _ _ => update_item_route
  | Routes.DeleteItem _ => delete_item_route
  | Routes.ItemFull _ => get_item_with_status
  | Routes.SearchItems _ _ _ _ => search_items_route
  | Routes.CreateStatus _ _ => create_item_status_route
  | Routes.GetStatus _ => get_item_status_route
  | Routes.UpdateStatus _ _ => update_item_status_route
  | Routes.DeleteStatus _ => delete_item_status_route
  | Routes.Sell _ _ => sell_item_route
  | Routes.Restock _ _ => restock_item_route
  | Routes.LowStock _ => get_low_stock_items_route
  | Routes.TopSellers _ => get_top_sellers_route
  | Routes.InventorySummary => inventory_summary_route
  end.

(** The method and path segments of the call, as spec.md 6 lists them
    under the [/api/v1] prefix; query string and body are not part of
    the path. *)
Definition url_of (req : Routes.Request) : method * list string :=
  let api l := ("" :: "api" :: "v1" :: l)%string in
  match req with
  | Routes.CreateItem _ => (POST, api ["items"; ""])
  | Routes.ReadAllItems _ _ => (GET, api ["items"; ""])
  | Routes.ReadItem k => (GET, api ["items"; k])
  | Routes.UpdateItem k _ => (PUT, api ["items"; k])
  | Routes.DeleteItem k => (DELETE, api ["items"; k])
  | Routes.ItemFull k => (GET, api ["items"; k; "full"])
  | Routes.SearchItems _ _ _ _ => (GET, api ["items"; "search"; ""])
  | Routes.CreateStatus k _ => (POST, api ["items"; k; "status"; ""])
  | Routes.GetStatus k => (GET, api ["items"; k; "status"; ""])
  | Routes.UpdateStatus k _ => (PUT, api ["items"; k; "status"; ""])
  | Routes.DeleteStatus k => (DELETE, api ["items"; k; "status"; ""])
  | Routes.Sell k _ => (POST, api ["items"; k; "sell"; ""])
  | Routes.Restock k _ => (POST, api ["items"; k; "restock"; ""])
  | Routes.LowStock _ => (GET, api ["inventory"; "low-stock"; ""])
  | Routes.TopSellers _ => (GET, api ["inventory"; "top-sellers"; ""])
  | Routes.InventorySummary => (GET, api ["inventory"; "summary"; ""])
  end%string.

(** The path parameters of the call: its item id, if any. *)
Definition path_args (req : Routes.Request) : list string :=
  match req with
  | Routes.ReadItem k | Routes.UpdateItem k _ | Routes.DeleteItem k | Routes.ItemFull k
  | Routes.CreateStatus k _ | Routes.GetStatus k | Routes.UpdateStatus k _
  | Routes.DeleteStatus k | Routes.Sell k _ | Routes.Restock k _ => [k]
  | _ => []
  end.

(** The URL of the call to the single-file versions: the same path
    without the [/api/v1] prefix. *)
Definition url_root (req : Routes.Request) : method * list string :=
  ((url_of req).1, "" :: drop 3 (url_of req).2).

(** ** Renaming a path parameter

    The literals of a table, and the renaming of one segment value: the
    router treats two ids that are not literals of its table alike. *)

Definition seg_lits (t : list seg) : list string :=
  t ≫= (fun s => match s with Lit a => [a] | Param _ => [] end).

Definition table_lits (rs : list route) : list string :=
  rs ≫= (fun r => seg_lits (compile_path (r_path r))).

Definition rename (a b s : string) : string := if String.eqb s a then b else s.

(** The calls whose URL with its trailing slash toggled is not itself
    the URL of a route: all but the search and the item-level routes
    of an item whose id is ["search"]. *)
Definition redirect_ok (req : Routes.Request) : Prop :=
  match req with
  | Routes.SearchItems _ _ _ _ => False
  | Routes.ReadItem k | Routes.UpdateItem k _ | Routes.DeleteItem k => k <> "search"%string
  | _ => True
  end.

(** ** Paths *)

Lemma split_chars_nonempty l : split_chars l <> [].
Proof. induction l as [|c l IH]; simpl; [done|]. destruct (ascii_dec c slash); [done|]. by destruct (split_chars l). Qed.

Lemma split_chars_free s : slash ∉ s -> split_chars s = [s].
Proof.
  induction s as [|c s IH]; intros Hs; [done|]. apply not_elem_of_cons in Hs as [Hc Hs].
  simpl. destruct (ascii_dec c slash) as [->|]; [done|]. by rewrite IH.
Qed.

Lemma split_chars_sep s rest : slash ∉ s -> split_chars (s ++ slash :: rest) = s :: split_chars rest.
Proof.
  induction s as [|c s IH]; intros Hs; [simpl; by destruct (ascii_dec slash slash)|].
  apply not_elem_of_cons in Hs as [Hc Hs]. simpl. destruct (ascii_dec c slash) as [->|]; [done|].
  by rewrite IH.
Qed.

(** Joining the segments of a path gives the path back. *)
Lemma join_split_chars l : join_chars (split_chars l) = l.
Proof.
  induction l as [|c l IH]; [done|]. simpl. pose proof (split_chars_nonempty l) as Hne.
  destruct (split_chars l) as [|r rs] eqn:E; [done|].
  destruct (ascii_dec c slash) as [->|]; simpl in *.
  - by rewrite IH.
  - destruct rs; simpl in *; by rewrite IH.
Qed.

(** Splitting the path built from segments without [/] gives them back. *)
Lemma split_join_chars segs :
  segs <> [] -> Forall (fun s => slash ∉ s) segs -> split_chars (join_chars segs) = segs.
Proof.
  induction segs as [|s segs IH]; intros Hne Hf; [done|].
  apply list.Forall_cons in Hf as [Hs Hf]. destruct segs as [|s' segs].
  - by apply split_chars_free.
  - change (split_chars (s ++ slash :: join_chars (s' :: segs)) = s :: s' :: segs).
    rewrite split_chars_sep by done. by rewrite IH.
Qed.

Lemma split_join_path segs :
  segs <> [] -> Forall (fun s => slash ∉ list_ascii_of_string s) segs ->
  split_path (join_path segs) = segs.
Proof.
  intros Hne Hf. unfold split_path, join_path. rewrite list_ascii_of_string_of_list_ascii.
  rewrite split_join_chars.
  - rewrite map_map. erewrite map_ext; [apply map_id|]. apply string_of_list_ascii_of_string.
  - by destruct segs.
  - by apply Forall_fmap.
Qed.

(** ** Toggling the trailing slash of a path *)

Lemma string_of_list_ascii_app l1 l2 :
  string_of_list_ascii (l1 ++ l2) = (string_of_list_ascii l1 ++ string_of_list_ascii l2)%string.
Proof. induction l1 as [|c l1 IH]; simpl; [done|]. by rewrite IH. Qed.

Lemma toggle_slash_add l c :
  c <> slash -> toggle_slash (string_of_list_ascii (l ++ [c])) = string_of_list_ascii (l ++ [c; slash]).
Proof.
  intros Hc. unfold toggle_slash. rewrite list_ascii_of_string_of_list_ascii, rev_unit.
  cbn beta iota. destruct (ascii_dec c slash) as [|_]; [done|].
  change [c; slash] with ([c] ++ [slash]). by rewrite app_assoc, (string_of_list_ascii_app (l ++ [c]) [slash]).
Qed.

Lemma toggle_slash_strip l c :
  c <> slash -> toggle_slash (string_of_list_ascii (l ++ [c; slash])) = string_of_list_ascii (l ++ [c]).
Proof.
  intros Hc. unfold toggle_slash. rewrite list_ascii_of_string_of_list_ascii.
  change [c; slash] with ([c] ++ [slash]). rewrite app_assoc, !rev_unit.
  cbn beta iota. destruct (ascii_dec slash slash) as [_|]; [|done]. cbn [drop_slashes].
  destruct (ascii_dec slash slash) as [_|]; [|done]. cbn [drop_slashes].
  destruct (ascii_dec c slash) as [|_]; [done|]. by rewrite <- rev_unit, rev_involutive.
Qed.

Lemma join_chars_snoc segs s : segs <> [] -> join_chars (segs ++ [s]) = join_chars segs ++ slash :: s.
Proof.
  induction segs as [|s0 segs IH]; intros Hne; [done|]. destruct segs as [|s1 segs]; [done|].
  specialize (IH ltac:(done)). cbn [app] in IH |- *. cbn [join_chars] in IH |- *.
  rewrite IH. by rewrite <- app_assoc.
Qed.

Lemma join_path_snoc2 segs s :
  segs <> [] ->
  join_chars (map list_ascii_of_string (segs ++ [s; ""%string])) =
    join_chars (map list_ascii_of_string (segs ++ [s])) ++ [slash].
Proof.
  intros Hne. rewrite !map_app. change (map list_ascii_of_string [s; ""%string]) with ([list_ascii_of_string s] ++ [[]]).
  rewrite app_assoc, join_chars_snoc; [done|]. intros E. apply app_eq_nil in E as [_ ?]. done.
Qed.

Lemma last_char s : s <> ""%string -> slash ∉ list_ascii_of_string s ->
  exists l c, list_ascii_of_string s = l ++ [c] /\ c <> slash.
Proof.
  intros Hs Hsl. destruct (exists_last (l:=list_ascii_of_string s)) as [l [c E]].
  { by destruct s. }
  exists l, c. split; [done|]. intros ->. apply Hsl. rewrite E. apply elem_of_app. right. by left.
Qed.

Lemma toggle_join_add segs s :
  segs <> [] -> valid_segment s ->
  toggle_slash (join_path (segs ++ [s])) = join_path (segs ++ [s; ""%string]).
Proof.
  intros Hne [Hs Hsl]. unfold join_path. rewrite join_path_snoc2 by done.
  rewrite map_app. cbn [map]. rewrite join_chars_snoc by (by destruct segs).
  destruct (last_char s Hs Hsl) as (l & c & E & Hc). rewrite E.
  rewrite (app_comm_cons l [c] slash), app_assoc, toggle_slash_add by done.
  by rewrite <- (app_assoc _ [c] [slash]).
Qed.

Lemma toggle_join_strip segs s :
  segs <> [] -> valid_segment s ->
  toggle_slash (join_path (segs ++ [s; ""%string])) = join_path (segs ++ [s]).
Proof.
  intros Hne [Hs Hsl]. unfold join_path. rewrite join_path_snoc2 by done.
  rewrite map_app. cbn [map]. rewrite join_chars_snoc by (by destruct segs).
  destruct (last_char s Hs Hsl) as (l & c & E & Hc). rewrite E.
  set (J := join_chars _).
  replace ((J ++ slash :: l ++ [c]) ++ [slash]) with ((J ++ slash :: l) ++ [c; slash])
    by (rewrite <- !app_assoc, <- !app_comm_cons, <- !app_assoc; reflexivity).
  rewrite toggle_slash_strip by done. by rewrite <- app_assoc.
Qed.

(** ** Routing does not depend on the value of a parameter *)

Lemma rename_eq a b : rename a b a = b.
Proof. unfold rename. by rewrite String.eqb_refl. Qed.

Lemma rename_neq a b s : s <> a -> rename a b s = s.
Proof. intros H. unfold rename. by apply String.eqb_neq in H as ->. Qed.

Lemma match_segs_rename t (p : list string) a b :
  a ∉ seg_lits t -> b ∉ seg_lits t -> a <> ""%string -> b <> ""%string ->
  match_segs t (map (rename a b) p) = option_map (map (rename a b)) (match_segs t p).
Proof.
  intros Ha Hb Ha0 Hb0. revert p. induction t as [|[l|x] t IH]; intros [|s p]; try done.
  - cbn in Ha, Hb. apply not_elem_of_cons in Ha as [Ha Ha'], Hb as [Hb Hb'].
    cbn [match_segs map].
    destruct (decide (s = a)) as [->|Hs].
    + rewrite rename_eq. apply String.eqb_neq in Ha, Hb. rewrite String.eqb_sym in Ha. rewrite String.eqb_sym in Hb.
      by rewrite Ha, Hb.
    + rewrite rename_neq by done. destruct (String.eqb l s); [by apply IH|done].
  - cbn [match_segs map]. rewrite IH by done.
    destruct (decide (s = a)) as [->|Hs].
    + rewrite rename_eq. apply String.eqb_neq in Ha0, Hb0. rewrite Ha0, Hb0.
      destruct (match_segs t p); simpl; by rewrite ?rename_eq.
    + rewrite rename_neq by done. destruct (String.eqb s ""); [done|].
      destruct (match_segs t p); simpl; by rewrite ?rename_neq.
Qed.

Lemma first_full_rename rs m p a b :
  a ∉ table_lits rs -> b ∉ table_lits rs -> a <> ""%string -> b <> ""%string ->
  first_full rs m (map (rename a b) p) =
    option_map (fun r => (r.1, map (rename a b) r.2)) (first_full rs m p).
Proof.
  intros Ha Hb Ha0 Hb0. induction rs as [|r rs IH]; [done|].
  cbn in Ha, Hb. apply not_elem_of_app in Ha as [Ha Ha'], Hb as [Hb Hb'].
  cbn [first_full]. unfold path_match. rewrite match_segs_rename by done.
  destruct (match_segs _ p); cbn [option_map]; [case_decide|]; auto.
Qed.

(** The id of a call, as a fresh name: not a literal of the table. *)
Ltac route_generic k :=
  lazymatch goal with
  | |- first_full ?rs ?m ?p = Some (?e, [k]) =>
      let F := lazymatch eval pattern k in p with ?F k => F end in
      let px := eval cbv beta in (F "x"%string) in
      change p with (map (rename "x" k) px);
      rewrite first_full_rename by first [assumption | discriminate | apply (bool_decide_unpack _); vm_compute; reflexivity];
      let r := eval vm_compute in (first_full rs m px) in change (first_full rs m px) with r;
      cbn [option_map fst snd map]; by rewrite rename_eq
  end.

Lemma first_full_any_match rs m p e ps : first_full rs m p = Some (e, ps) -> any_match rs p = true.
Proof.
  unfold any_match. induction rs as [|r rs IH]; [done|]. cbn [first_full existsb].
  destruct (path_match r p) eqn:E.
  - intros _. by rewrite bool_decide_eq_true_2.
  - intros H. rewrite (IH H). apply orb_true_r.
Qed.

Lemma any_match_rename rs p a b :
  a ∉ table_lits rs -> b ∉ table_lits rs -> a <> ""%string -> b <> ""%string ->
  any_match rs (map (rename a b) p) = any_match rs p.
Proof.
  intros Ha Hb Ha0 Hb0. unfold any_match. induction rs as [|r rs IH]; [done|].
  cbn in Ha, Hb. apply not_elem_of_app in Ha as [Ha Ha'], Hb as [Hb Hb'].
  cbn [existsb]. rewrite IH by done. unfold path_match. rewrite match_segs_rename by done.
  by destruct (match_segs _ p).
Qed.

Lemma route_request_redirect rs m segs t :
  t <> [] -> Forall (fun s => slash ∉ list_ascii_of_string s) t ->
  segs <> [] -> Forall (fun s => slash ∉ list_ascii_of_string s) segs ->
  join_path t <> "/"%string -> toggle_slash (join_path t) = join_path segs ->
  any_match rs t = false -> any_match rs segs = true ->
  route_request rs m (join_path t) = Redirect (join_path segs).
Proof.
  intros Ht Hft Hs Hfs Hne Htog Hat Has. unfold route_request. cbv zeta.
  rewrite split_join_path by done.
  destruct (first_full rs m t) as [[e ps]|] eqn:E; [by apply first_full_any_match in E; congruence|].
  rewrite Hat. destruct (String.eqb_spec (join_path t) "/"); [done|].
  by rewrite Htog, split_join_path, Has.
Qed.

Ltac any_match_generic k :=
  lazymatch goal with
  | |- any_match ?rs ?p = false =>
      let F := lazymatch eval pattern k in p with ?F k => F end in
      let px := eval cbv beta in (F "x"%string) in
      change p with (map (rename "x" k) px);
      rewrite any_match_rename by first [assumption | discriminate | apply (bool_decide_unpack _); vm_compute; reflexivity];
      vm_compute; reflexivity
  end.

(** Case analysis on the value of a path parameter [k]: one of the
    finitely many literals of the table, each evaluated, or a fresh
    name, for which [gen] renames [k] to ["x"]. *)
Ltac param_generic k :=
  lazymatch goal with
  | |- first_full _ _ _ = _ => route_generic k
  | |- any_match _ _ = _ => any_match_generic k
  end.

Ltac by_param rs k :=
  destruct (decide (k ∈ table_lits rs)) as [Hin|Hfresh];
  [ rewrite <- elem_of_remove_dups in Hin;
    let L := eval vm_compute in (remove_dups (table_lits rs)) in change (k ∈ L) in Hin;
    repeat (apply elem_of_cons in Hin as [->|Hin]; [first [done | vm_compute; reflexivity]|]);
    by apply not_elem_of_nil in Hin
  | param_generic k ].

(** The segments of a path, as the last one and those before it. *)
Ltac rm_last l :=
  lazymatch l with
  | [?a] => constr:(@nil string)
  | ?a :: ?r => let r' := rm_last r in constr:(a :: r')
  end.

Ltac get_last l :=
  lazymatch l with
  | [?a] => a
  | _ :: ?r => get_last r
  end.

Ltac valid_seg := first [split; assumption | split; [discriminate|apply (bool_decide_unpack _); vm_compute; reflexivity]].

(** The path of the call with its trailing slash toggled, both ways. *)
Ltac toggle_exists :=
  lazymatch goal with
  | |- exists t, toggle_slash (join_path ?segs) = _ /\ _ =>
      let pre := rm_last segs in let s := get_last segs in
      lazymatch s with
      | EmptyString =>
          let pre' := rm_last pre in let s' := get_last pre in
          exists (pre' ++ [s']); change segs with (pre' ++ [s'; EmptyString]);
          rewrite (toggle_join_strip pre' s'), (toggle_join_add pre' s') by first [discriminate | valid_seg]
      | _ =>
          exists (pre ++ [s; EmptyString]); change segs with (pre ++ [s]);
          rewrite (toggle_join_add pre s), (toggle_join_strip pre s) by first [discriminate | valid_seg]
      end
  end.

(** The literal segments of [url_of] contain no [/]. *)
Lemma url_segments_free req :
  Forall valid_segment (path_args req) ->
  Forall (fun s => slash ∉ list_ascii_of_string s) (url_of req).2.
Proof.
  intros Hv. destruct req; cbn [path_args] in Hv; cbn [url_of snd];
    repeat match goal with H : Forall _ (_ :: _) |- _ => apply list.Forall_cons in H as [[_ ?] _] end;
    repeat constructor; first [assumption | apply (bool_decide_unpack _); vm_compute; reflexivity].
Qed.

(** The first route of the table that takes the URL of a call is the
    one of its endpoint.  An id that is a literal of the table is one of
    finitely many values, each evaluated; any other id is renamed to
    ["x"]. *)
Lemma first_full_url req :
  Forall valid_segment (path_args req) ->
  first_full app_routes (url_of req).1 (url_of req).2 = Some (endpoint_of req, path_args req).
Proof.
  intros Hv. destruct req; cbn [path_args] in Hv; try (vm_compute; reflexivity);
  apply list.Forall_cons in Hv as [[Hk _] _];
  cbn [url_of fst snd endpoint_of path_args]; by_param app_routes item_id.
Qed.

(** ** Routing the URL of every call *)

(** C11: the URL of every API call, rendered as spec.md 6 lists it under
    the [/api/v1] prefix, is routed to the handler [Routes.handle] runs
    for that call, with the call's item id as path parameter: no
    earlier route of main.py's table captures it, whatever the id. *)
Theorem route_url_of req :
  Forall valid_segment (path_args req) ->
  route_request app_routes (url_of req).1 (join_path (url_of req).2) =
    Matched (endpoint_of req) (path_args req).
Proof.
  intros Hv. unfold route_request. cbv zeta.
  rewrite split_join_path by first [by destruct req | by apply url_segments_free].
  by rewrite first_full_url.
Qed.

(** ** The trailing-slash redirect *)

(** The URL of a call with its trailing slash toggled: its segments,
    that no route takes them, and that toggling again gives the URL
    back. *)
Lemma url_toggle req :
  redirect_ok req -> Forall valid_segment (path_args req) ->
  exists t, toggle_slash (join_path (url_of req).2) = join_path t /\
    toggle_slash (join_path t) = join_path (url_of req).2 /\
    t <> [] /\ Forall (fun s => slash ∉ list_ascii_of_string s) t /\
    join_path t <> "/"%string /\ any_match app_routes t = false.
Proof.
  intros Hr Hv. destruct req; cbn [path_args redirect_ok] in Hv, Hr; cbn [url_of snd];
    repeat match goal with H : Forall _ (_ :: _) |- _ => apply list.Forall_cons in H as [[Hk Hsl] _] end;
    try contradiction; toggle_exists.
  all: split; [done|split; [done|split; [intros E; by apply app_eq_nil in E as [_ ?]|]]].
  all: split; [|split; [unfold join_path; cbn; discriminate|cbn [app]]].
  all: lazymatch goal with
    | |- Forall _ _ =>
        cbn [app]; repeat first [ apply Forall_nil_2
          | apply Forall_cons_2; [first [assumption | apply (bool_decide_unpack _); vm_compute; reflexivity]|] ]
    | |- any_match _ _ = false =>
        first [by_param app_routes item_id | vm_compute; reflexivity]
    end.
Qed.

(** C12: the URL of every call with its trailing slash toggled (added
    where the route has none, removed where it has one) is answered
    with Starlette's redirect to the URL of the call, except for the
    search, whose URL without its slash is a route of its own, and for
    an item whose id is ["search"]. *)
Theorem route_toggled_url req :
  redirect_ok req -> Forall valid_segment (path_args req) ->
  route_request app_routes (url_of req).1 (toggle_slash (join_path (url_of req).2)) =
    Redirect (join_path (url_of req).2).
Proof.
  intros Hr Hv. destruct (url_toggle req Hr Hv) as (t & E1 & E2 & Ht & Hft & Hne & Ha).
  rewrite E1. apply route_request_redirect; try done.
  - by destruct req.
  - by apply url_segments_free.
  - by apply (first_full_any_match _ (url_of req).1 _ (endpoint_of req) (path_args req)), first_full_url.
Qed.

(** ** The single-file versions route every call to its handler *)

Lemma route_request_matched rs m segs e ps :
  segs <> [] -> Forall (fun s => slash ∉ list_ascii_of_string s) segs ->
  first_full rs m segs = Some (e, ps) -> route_request rs m (join_path segs) = Matched e ps.
Proof. intros Hne Hf He. unfold route_request. cbv zeta. rewrite split_join_path by done. by rewrite He. Qed.

Lemma url_root_free req :
  Forall valid_segment (path_args req) ->
  Forall (fun s => slash ∉ list_ascii_of_string s) (url_root req).2.
Proof.
  intros Hv. unfold url_root. cbn [snd]. apply Forall_cons_2.
  - apply (bool_decide_unpack _). vm_compute. reflexivity.
  - by apply Forall_drop, url_segments_free.
Qed.

Lemma backup_first_full_url req :
  Forall valid_segment (path_args req) ->
  first_full backup_routes (url_root req).1 (url_root req).2 = Some (endpoint_of req, path_args req).
Proof.
  intros Hv. destruct req; cbn [path_args] in Hv; try (vm_compute; reflexivity);
  apply list.Forall_cons in Hv as [[Hk _] _];
  cbn [url_root url_of fst snd endpoint_of path_args drop]; by_param backup_routes item_id.
Qed.

(** The URL of every call, without the prefix, reaches the handler of
    the call in src/backups/main.py. *)
Theorem backup_route_url_of req :
  Forall valid_segment (path_args req) ->
  route_request backup_routes (url_root req).1 (join_path (url_root req).2) =
    Matched (endpoint_of req) (path_args req).
Proof.
  intros Hv. apply route_request_matched; [done|by apply url_root_free|by apply backup_first_full_url].
Qed.

Lemma desktop_first_full_url req :
  Forall valid_segment (path_args (Desktop.to_app req)) ->
  first_full desktop_routes (url_root (Desktop.to_app req)).1 (url_root (Desktop.to_app req)).2 =
    Some (endpoint_of (Desktop.to_app req), path_args (Desktop.to_app req)).
Proof.
  intros Hv. destruct req; cbn [Desktop.to_app path_args] in Hv |- *; try (vm_compute; reflexivity);
  apply list.Forall_cons in Hv as [[Hk _] _];
  cbn [url_root url_of fst snd endpoint_of path_args drop]; by_param desktop_routes item_id.
Qed.

(** The same for the six routes of the items-only version. *)
Theorem desktop_route_url_of req :
  Forall valid_segment (path_args (Desktop.to_app req)) ->
  route_request desktop_routes (url_root (Desktop.to_app req)).1
    (join_path (url_root (Desktop.to_app req)).2) =
    Matched (endpoint_of (Desktop.to_app req)) (path_args (Desktop.to_app req)).
Proof.
  intros Hv. apply route_request_matched; [done|by apply url_root_free|by apply desktop_first_full_url].
Qed.

(** Both single-file versions register the search after the item
    route too: [/items/search] is an item lookup there as well. *)
Lemma search_shadowed_single_file :
  route_request backup_routes GET "/items/search" = Matched read_item ["search"] /\
  route_request backup_routes GET "/items/search/" = Matched search_items_route [] /\
  route_request desktop_routes GET "/items/search" = Matched read_item ["search"] /\
  route_request desktop_routes GET "/items/search/" = Matched search_items_route [].
Proof. repeat split; vm_compute; reflexivity. Qed.

(** ** Witnesses *)

Lemma route_url_of_witness :
  route_request app_routes POST (join_path ["";"api";"v1";"items";"a1";"sell";""]) =
    Matched sell_item_route ["a1"].
Proof.
  apply (route_url_of (Routes.Sell "a1" 2)). apply (bool_decide_unpack _). vm_compute. reflexivity.
Defined.

Lemma route_toggled_url_witness :
  redirect_ok (Routes.ReadItem "a1") /\ Forall valid_segment (path_args (Routes.ReadItem "a1")) /\
  route_request app_routes (url_of (Routes.ReadItem "a1")).1
    (toggle_slash (join_path (url_of (Routes.ReadItem "a1")).2)) =
  Redirect (join_path (url_of (Routes.ReadItem "a1")).2).
Proof.
  assert (Hr : redirect_ok (Routes.ReadItem "a1")) by (cbn; discriminate).
  assert (Hv : Forall valid_segment (path_args (Routes.ReadItem "a1")))
    by (apply (bool_decide_unpack _); vm_compute; reflexivity).
  split; [exact Hr|split; [exact Hv|]]. exact (route_toggled_url (Routes.ReadItem "a1") Hr Hv).
Defined.

End Router.
